(** * The Tom Sawyer Method core: results, workers, pool, aggregation, learner

    A shallow embedding of [tsm/core/result.py], [tsm/core/worker.py],
    [tsm/core/aggregator.py] and [tsm/core/learner.py].

    Conventions of the embedding.
    - Python [float]s are read as exact rationals ([Q]); a statement about
      numbers is a statement of exact arithmetic unless it says otherwise,
      and equalities of computed numbers are stated with [==].  Where
      rounding or overflow changes what the code gives, the module
      [Binary64] has the same arithmetic on IEEE binary64 floats, and the
      statements about it say so.
    - Python's [/] raises [ZeroDivisionError] on a zero divisor: [truediv].
    - A Python [dict] is an insertion-ordered association list with unique
      keys ([dict_set] overwrites in place, appends otherwise).
    - Code that can raise returns an [outcome]; code that mutates an object
      returns the new object next to its result.  An [except Exception]
      clause catches what derives from [Exception], not [KeyboardInterrupt]
      or [SystemExit].
    - [time.time()] and [uuid.uuid4()] are inputs of the functions that call
      them; the [timestamp] fields and the logging calls are not modelled.
    - The thread pool is modelled by the instants at which each submitted call
      starts and finishes; overlapping runs of one worker object are not.

    The embedding covers the four files but for serialization ([to_dict],
    [save_state], [load_state]), the statistics of the learner and the
    setters of the [Aggregator]; [np.std] is a parameter of the adaptive
    learner.  The two workers of [examples/basic_example.py] are embedded
    too. *)

From Stdlib Require Import List String Bool ZArith QArith Qabs Lia Lqa.
From Stdlib Require Import Permutation.
From Stdlib Require Floats.
Import ListNotations.
Local Open Scope Q_scope.
Local Open Scope string_scope.

Set Implicit Arguments.

(** ** Exceptions and outcomes *)

(** The exceptions that occur in the modelled code.  [ValueError msg got] is
    the error of an f-string message [msg] followed by the offending number;
    [Exception ty msg] is any other subclass of [Exception] a worker raises.
    [KeyboardInterrupt] and [SystemExit] derive from [BaseException] and not
    from [Exception]. *)
Inductive exn : Type :=
| ValueError (msg : string) (got : Q)
| TypeError (msg : string)
| ZeroDivisionError
| KeyError (key : string)
| AttributeError (msg : string)
| IndexError
| TimeoutError
| Exception (type_name : string) (msg : string)
| KeyboardInterrupt
| SystemExit.

(** [isinstance(e, Exception)]: what an [except Exception] clause catches. *)
Definition is_Exception (e : exn) : bool :=
  match e with
  | KeyboardInterrupt | SystemExit => false
  | _ => true
  end.

(** [type(e).__name__] *)
Definition exn_type_name (e : exn) : string :=
  match e with
  | ValueError _ _ => "ValueError"
  | TypeError _ => "TypeError"
  | ZeroDivisionError => "ZeroDivisionError"
  | KeyError _ => "KeyError"
  | AttributeError _ => "AttributeError"
  | IndexError => "IndexError"
  | TimeoutError => "TimeoutError"
  | Exception ty _ => ty
  | KeyboardInterrupt => "KeyboardInterrupt"
  | SystemExit => "SystemExit"
  end.

Inductive outcome (A : Type) : Type :=
| Returns (a : A)
| Raises (e : exn).

Arguments Returns {A} a.
Arguments Raises {A} e.

Definition bind {A B : Type} (m : outcome A) (k : A -> outcome B) : outcome B :=
  match m with
  | Returns a => k a
  | Raises e => Raises e
  end.

Notation "x <- m ;; k" := (bind m (fun x => k))
  (at level 61, m at next level, right associativity).

Definition raised {A : Type} (m : outcome A) : Prop :=
  exists e, m = Raises e.

(** [try: body  except <classes>: handler] for a set of caught classes. *)
Definition try_except {A : Type} (body : outcome A) (catches : exn -> bool)
  (handler : exn -> outcome A) : outcome A :=
  match body with
  | Returns a => Returns a
  | Raises e => if catches e then handler e else Raises e
  end.

(** ** Numbers *)

Definition Qlt_bool (a b : Q) : bool := negb (Qle_bool b a).

(** Python's [a / b] on floats. *)
Definition truediv (a b : Q) : outcome Q :=
  if Qeq_bool b 0 then Raises ZeroDivisionError else Returns (a / b).

(** Python's two-argument [max(a, b)]: [b] only when it is strictly greater. *)
Definition py_max (a b : Q) : Q := if Qlt_bool a b then b else a.

(** Python's two-argument [min(a, b)]: [b] only when it is strictly smaller. *)
Definition py_min (a b : Q) : Q := if Qlt_bool b a then b else a.

(** [sum(l)]; in exact arithmetic the order of the additions is immaterial. *)
Fixpoint Qsum (l : list Q) : Q :=
  match l with
  | [] => 0
  | x :: l' => x + Qsum l'
  end.

(** ** Dictionaries *)

Section Dict.
Variables K V : Type.
Variable eqb : K -> K -> bool.

Definition dict : Type := list (K * V).

Fixpoint dict_get (d : dict) (k : K) : option V :=
  match d with
  | [] => None
  | (k', v) :: d' => if eqb k' k then Some v else dict_get d' k
  end.

(** [d.get(k, default)] *)
Definition dict_get_default (d : dict) (k : K) (default : V) : V :=
  match dict_get d k with
  | Some v => v
  | None => default
  end.

(** [k in d] *)
Definition dict_mem (d : dict) (k : K) : bool :=
  match dict_get d k with
  | Some _ => true
  | None => false
  end.

(** [d[k] = v] *)
Fixpoint dict_set (d : dict) (k : K) (v : V) : dict :=
  match d with
  | [] => [(k, v)]
  | (k', v') :: d' =>
      if eqb k' k then (k', v) :: d' else (k', v') :: dict_set d' k v
  end.

(** [del d[k]] for a key that is present *)
Fixpoint dict_del (d : dict) (k : K) : dict :=
  match d with
  | [] => []
  | (k', v') :: d' => if eqb k' k then d' else (k', v') :: dict_del d' k
  end.

Definition dict_keys (d : dict) : list K := map fst d.
Definition dict_values (d : dict) : list V := map snd d.
Definition dict_items (d : dict) : list (K * V) := d.
Definition dict_len (d : dict) : nat := List.length d.

(** [{key(x): val(x) for x in xs}] *)
Definition dict_comp (A : Type) (key : A -> K) (val : A -> V) (xs : list A) : dict :=
  fold_left (fun d x => dict_set d (key x) (val x)) xs [].

End Dict.

Arguments dict_keys {K V} d.
Arguments dict_values {K V} d.
Arguments dict_items {K V} d.
Arguments dict_len {K V} d.

(** ** Result model ([result.py]) *)

(** The payload of a worker ([Any] in the source): nothing, a number or a
    label. *)
Inductive pyvalue : Type :=
| VNone
| VNum (q : Q)
| VStr (s : string).

(** [==] on payloads, which is also the key equality of a dict keyed by
    payloads. *)
Definition value_eqb (a b : pyvalue) : bool :=
  match a, b with
  | VNone, VNone => true
  | VNum x, VNum y => Qeq_bool x y
  | VStr s, VStr t => String.eqb s t
  | _, _ => false
  end.

Inductive ResultStatus : Type := SUCCESS | FAILED | ANOMALY | TIMEOUT.

Definition status_eqb (a b : ResultStatus) : bool :=
  match a, b with
  | SUCCESS, SUCCESS | FAILED, FAILED | ANOMALY, ANOMALY | TIMEOUT, TIMEOUT => true
  | _, _ => false
  end.

(** Values stored in a [metadata] dict.  [MErr prefix e] is the string
    [prefix + str(e)]. *)
Inductive mvalue : Type :=
| MInt (n : nat)
| MNum (q : Q)
| MBool (b : bool)
| MStr (s : string)
| MErr (prefix : string) (e : exn)
| MParams (p : list (string * pyvalue))
| MVotes (votes : list (pyvalue * Q)).

Definition metadata_t : Type := dict string mvalue.

Module WorkerResult.

Record t : Type := make {
  worker_id : string;
  value : pyvalue;
  confidence : Q;
  processing_time_ms : Q;
  status : ResultStatus;
  metadata : metadata_t;
  trace_id : string
}.

(** [__post_init__] *)
Definition __post_init__ (self : t) : outcome t :=
  if negb (Qle_bool 0 (confidence self) && Qle_bool (confidence self) 1) then
    Raises (ValueError "Confidence must be between 0.0 and 1.0, got " (confidence self))
  else if Qlt_bool (processing_time_ms self) 0 then
    Raises (ValueError "Processing time cannot be negative: " (processing_time_ms self))
  else Returns self.

(** The constructor call [WorkerResult(...)]. *)
Definition new (worker_id : string) (value : pyvalue) (confidence processing_time_ms : Q)
  (status : ResultStatus) (metadata : metadata_t) (trace_id : string) : outcome t :=
  __post_init__ (make worker_id value confidence processing_time_ms status metadata trace_id).

Definition is_valid (self : t) : bool :=
  status_eqb (status self) SUCCESS && Qlt_bool 0 (confidence self).

End WorkerResult.

Module AggregatedResult.

Record t : Type := make {
  value : pyvalue;
  confidence : Q;
  worker_results : list WorkerResult.t;
  weights : dict string Q;
  aggregation_method : string;
  processing_time_ms : Q;
  metadata : metadata_t
}.

(** [__post_init__] *)
Definition __post_init__ (self : t) : outcome t :=
  if negb (Qle_bool 0 (confidence self) && Qle_bool (confidence self) 1) then
    Raises (ValueError "Confidence must be between 0.0 and 1.0, got " (confidence self))
  else Returns self.

(** The constructor call [AggregatedResult(...)]. *)
Definition new (value : pyvalue) (confidence : Q) (worker_results : list WorkerResult.t)
  (weights : dict string Q) (aggregation_method : string) (processing_time_ms : Q)
  (metadata : metadata_t) : outcome t :=
  __post_init__ (make value confidence worker_results weights aggregation_method
               processing_time_ms metadata).

Definition num_workers (self : t) : nat := List.length (worker_results self).

Definition valid_workers (self : t) : nat :=
  List.length (filter WorkerResult.is_valid (worker_results self)).

End AggregatedResult.

(** ** Workers ([worker.py]) *)

Module WorkerStatus.

Inductive t : Type := IDLE | ACTIVE | FAILED | QUARANTINED | DISABLED.

End WorkerStatus.

Module WorkerConfig.

Record t : Type := make {
  worker_id : string;
  worker_type : string;
  parameters : list (string * pyvalue);
  input_schema : list (string * pyvalue);
  output_schema : list (string * pyvalue);
  thresholds : list (string * Q);
  enabled : bool;
  timeout_seconds : Q;
  retry_attempts : nat
}.

(** The defaults of the dataclass. *)
Definition default (worker_id worker_type : string) : t :=
  make worker_id worker_type [] [] [] [] true 30 3.

End WorkerConfig.

Module Worker.

(** A worker object.  [class_name] is [self.__class__.__name__]; [process]
    and [get_confidence] are the two abstract methods of the subclass, which
    either return or raise. *)
Record t : Type := make {
  worker_id : string;
  config : WorkerConfig.t;
  status : WorkerStatus.t;
  execution_count : nat;
  failure_count : nat;
  total_processing_time_ms : Q;
  class_name : string;
  process : pyvalue -> outcome pyvalue;
  get_confidence : pyvalue -> pyvalue -> outcome Q
}.

(** [__init__]; [class_name] is the name of the subclass that is instantiated. *)
Definition __init__ (class_name worker_id : string) (config : option WorkerConfig.t)
  (process : pyvalue -> outcome pyvalue)
  (get_confidence : pyvalue -> pyvalue -> outcome Q) : t :=
  make worker_id
    (match config with
     | Some c => c
     | None => WorkerConfig.default worker_id class_name
     end)
    WorkerStatus.IDLE 0 0 0 class_name process get_confidence.

Definition set_status (self : t) (s : WorkerStatus.t) : t :=
  make (worker_id self) (config self) s (execution_count self) (failure_count self)
    (total_processing_time_ms self) (class_name self) (process self) (get_confidence self).

Definition set_execution_count (self : t) (n : nat) : t :=
  make (worker_id self) (config self) (status self) n (failure_count self)
    (total_processing_time_ms self) (class_name self) (process self) (get_confidence self).

Definition set_failure_count (self : t) (n : nat) : t :=
  make (worker_id self) (config self) (status self) (execution_count self) n
    (total_processing_time_ms self) (class_name self) (process self) (get_confidence self).

Definition set_total_processing_time_ms (self : t) (ms : Q) : t :=
  make (worker_id self) (config self) (status self) (execution_count self)
    (failure_count self) ms (class_name self) (process self) (get_confidence self).

(** The [except Exception as e] block of [execute], entered with the worker
    as the [try] block left it.  [t_start] and [t_err] are the readings of
    [time.time()] at the start of [execute] and in the handler. *)
Definition execute_handler (self : t) (trace_id : string) (t_start t_err : Q) (e : exn)
  : t * outcome WorkerResult.t :=
  let self := set_failure_count self (S (failure_count self)) in
  let self := set_status self WorkerStatus.FAILED in
  let processing_time_ms := (t_err - t_start) * 1000 in
  (self,
   WorkerResult.new (worker_id self) VNone 0 processing_time_ms FAILED
     [("error", MErr "" e);
      ("error_type", MStr (exn_type_name e));
      ("failure_count", MInt (failure_count self))]
     trace_id).

(** The clause [except Exception as e] of [execute]: the handler runs for an
    exception that derives from [Exception]; any other one leaves [execute]
    as it was raised, with the worker as the [try] block left it. *)
Definition execute_except (self : t) (trace_id : string) (t_start t_err : Q) (e : exn)
  : t * outcome WorkerResult.t :=
  if is_Exception e then execute_handler self trace_id t_start t_err e
  else (self, Raises e).

(** [execute(data, trace_id)].  [fresh_uuid] is the value [uuid.uuid4()] would
    give; [t_start], [t_ok] and [t_err] are the readings of [time.time()] at
    the start, after [get_confidence] returned, and in the handler. *)
Definition execute (self : t) (data : pyvalue) (trace_id : option string)
  (fresh_uuid : string) (t_start t_ok t_err : Q) : t * outcome WorkerResult.t :=
  let trace_id := match trace_id with None => fresh_uuid | Some s => s end in
  let self := set_status self WorkerStatus.ACTIVE in
  let self := set_execution_count self (S (execution_count self)) in
  match process self data with
  | Raises e => execute_except self trace_id t_start t_err e
  | Returns result_value =>
      match get_confidence self data result_value with
      | Raises e => execute_except self trace_id t_start t_err e
      | Returns confidence =>
          let processing_time_ms := (t_ok - t_start) * 1000 in
          let self :=
            set_total_processing_time_ms self
              (total_processing_time_ms self + processing_time_ms) in
          match
            WorkerResult.new (worker_id self) result_value confidence
              processing_time_ms SUCCESS
              [("worker_type", MStr (class_name self));
               ("execution_count", MInt (execution_count self));
               ("parameters", MParams (WorkerConfig.parameters (config self)))]
              trace_id
          with
          | Raises e => execute_except self trace_id t_start t_err e
          | Returns result => (set_status self WorkerStatus.IDLE, Returns result)
          end
      end
  end.

(** The condition of the comprehension in [WorkerPool.get_active_workers]. *)
Definition is_active (self : t) : bool :=
  WorkerConfig.enabled (config self)
  && negb (match status self with WorkerStatus.QUARANTINED | WorkerStatus.DISABLED => true | _ => false end).

End Worker.

(** ** The thread pool ([concurrent.futures], as the pool uses it) *)

(** When a submitted call runs: the instant a thread of the executor starts it
    and the instant it returns. *)
Record timing : Type := { started : Q; finished : Q }.

(** A future of [executor.submit(worker.execute, data, trace_id)]: the value of
    the [futures] dict (the worker it was submitted for), the instant the call
    completes and what the call gave. *)
Record future : Type := {
  fut_worker : Worker.t;
  fut_done_at : Q;
  fut_outcome : outcome WorkerResult.t
}.

(** [as_completed(futures)] without a timeout yields each future once, when it
    has completed, earliest first (submission order among equal instants). *)
Fixpoint insert_completed (f : future) (fs : list future) : list future :=
  match fs with
  | [] => [f]
  | g :: fs' =>
      if Qlt_bool (fut_done_at f) (fut_done_at g) then f :: g :: fs'
      else g :: insert_completed f fs'
  end.

Definition as_completed (fs : list future) : list future :=
  fold_right insert_completed [] fs.

(** [future.result(timeout=timeout)] called at instant [now]: the outcome of
    the call if it has completed or completes within [timeout] seconds,
    [TimeoutError] once [timeout] seconds have passed otherwise. *)
Definition future_result (now : Q) (f : future) (timeout : Q) : outcome WorkerResult.t :=
  if Qle_bool (fut_done_at f) now then fut_outcome f
  else if Qle_bool (fut_done_at f) (now + timeout) then fut_outcome f
  else Raises TimeoutError.

(** The instant at which the loop over [as_completed] receives [f]. *)
Definition yielded_at (now : Q) (f : future) : Q := py_max now (fut_done_at f).

Module WorkerPool.

Record t : Type := make {
  workers : dict string Worker.t;
  max_workers : option nat
}.

Definition __init__ (max_workers : option nat) : t := make [] max_workers.

Definition register_worker (self : t) (worker : Worker.t) : t :=
  make (dict_set String.eqb (workers self) (Worker.worker_id worker) worker)
    (max_workers self).

Definition unregister_worker (self : t) (worker_id : string) : t :=
  if dict_mem String.eqb (workers self) worker_id
  then make (dict_del String.eqb (workers self) worker_id) (max_workers self)
  else self.

Definition get_worker (self : t) (worker_id : string) : option Worker.t :=
  dict_get String.eqb (workers self) worker_id.

Definition get_active_workers (self : t) : list Worker.t :=
  filter Worker.is_active (dict_values (workers self)).

(** The choice of [workers_to_execute] at the head of [execute_parallel]:
    [if worker_ids:] holds for a list that is neither [None] nor empty. *)
Definition workers_to_execute (self : t) (worker_ids : option (list string)) : list Worker.t :=
  match worker_ids with
  | Some ((_ :: _) as ids) =>
      flat_map
        (fun wid =>
           match dict_get String.eqb (workers self) wid with
           | Some w => [w]
           | None => []
           end)
        ids
  | _ => get_active_workers self
  end.

(** The submitted calls.  Each call runs [worker.execute] on the worker object
    as the registry holds it at that point and leaves it updated there; a
    worker submitted twice is run once after the other (overlapping runs of
    one worker object are not modelled).  [t_ok] and [t_err] of a call are
    both its [finished] instant. *)
Fixpoint run_submitted (store : dict string Worker.t) (data : pyvalue) (trace_id : string)
  (tasks : list (Worker.t * timing)) : dict string Worker.t * list future :=
  match tasks with
  | [] => (store, [])
  | (w, tm) :: rest =>
      let cur := dict_get_default String.eqb store (Worker.worker_id w) w in
      let '(w', out) :=
        Worker.execute cur data (Some trace_id) trace_id
          (started tm) (finished tm) (finished tm) in
      let '(store', futs) :=
        run_submitted (dict_set String.eqb store (Worker.worker_id w) w') data trace_id rest in
      (store', Build_future w (finished tm) out :: futs)
  end.

(** One iteration of the collecting loop, for a future received at [now]:
    [future.result] gives the result of the call or raises what the call
    raised; the loop catches [TimeoutError] and [Exception]. *)
Definition collect_one (trace_id : string) (now : Q) (f : future) : outcome WorkerResult.t :=
  let worker := fut_worker f in
  match future_result now f (WorkerConfig.timeout_seconds (Worker.config worker)) with
  | Returns result => Returns result
  | Raises TimeoutError =>
      WorkerResult.new (Worker.worker_id worker) VNone 0
        (WorkerConfig.timeout_seconds (Worker.config worker) * 1000) TIMEOUT [] trace_id
  | Raises e =>
      if is_Exception e then
        WorkerResult.new (Worker.worker_id worker) VNone 0 0 FAILED
          [("error", MErr "" e)] trace_id
      else Raises e
  end.

(** The loop [for future in as_completed(futures)], from instant [now]. *)
Fixpoint collect (trace_id : string) (now : Q) (fs : list future)
  : outcome (list WorkerResult.t) :=
  match fs with
  | [] => Returns []
  | f :: fs' =>
      let now := yielded_at now f in
      r <- collect_one trace_id now f ;;
      rs <- collect trace_id now fs' ;;
      Returns (r :: rs)
  end.

(** [execute_parallel(data, worker_ids, trace_id)].  [schedule] gives, for each
    submitted call in submission order, when the executor runs it (a call the
    schedule is silent about runs at once and takes no time); [t_submit] is
    the instant of submission. *)
Definition execute_parallel (self : t) (data : pyvalue) (worker_ids : option (list string))
  (trace_id : option string) (fresh_uuid : string) (t_submit : Q) (schedule : list timing)
  : t * outcome (list WorkerResult.t) :=
  let trace_id := match trace_id with None => fresh_uuid | Some s => s end in
  let to_execute := workers_to_execute self worker_ids in
  match to_execute with
  | [] => (self, Returns [])
  | _ =>
      let tasks :=
        map (fun iw => (snd iw, nth (fst iw) schedule (Build_timing t_submit t_submit)))
          (combine (seq 0 (List.length to_execute)) to_execute) in
      let '(store, futures) := run_submitted (workers self) data trace_id tasks in
      (make store (max_workers self), collect trace_id t_submit (as_completed futures))
  end.

Definition shutdown (self : t) : t := make [] (max_workers self).

End WorkerPool.

(** ** Aggregation strategies ([aggregator.py]) *)

(** [d[k]], which raises [KeyError] for a missing key. *)
Definition dict_lookup (V : Type) (d : dict string V) (k : string) : outcome V :=
  match dict_get String.eqb d k with
  | Some v => Returns v
  | None => Raises (KeyError k)
  end.

(** A loop or comprehension whose body can raise. *)
Fixpoint for_each (A S : Type) (body : S -> A -> outcome S) (xs : list A) (s : S)
  : outcome S :=
  match xs with
  | [] => Returns s
  | x :: xs' => s' <- body s x ;; for_each body xs' s'
  end.

(** [sum(f(x) for x in xs)] for a term that can raise. *)
Definition sum_over (A : Type) (f : A -> outcome Q) (xs : list A) : outcome Q :=
  for_each (fun acc x => y <- f x ;; Returns (acc + y)) xs 0.

(** [len(xs)] used as a float. *)
Definition Qlen (A : Type) (xs : list A) : Q := inject_Z (Z.of_nat (List.length xs)).

(** [max(items, key=lambda x: x[1])]: the first item whose key is maximal;
    [ValueError] on an empty sequence. *)
Definition max_by_snd (A : Type) (items : list (A * Q)) : outcome (A * Q) :=
  match items with
  | [] => Raises (ValueError "max() arg is an empty sequence" 0)
  | x :: rest =>
      Returns (fold_left (fun best y => if Qlt_bool (snd best) (snd y) then y else best) rest x)
  end.

Definition is_TypeError (e : exn) : bool :=
  match e with TypeError _ => true | _ => false end.

Definition is_TypeError_or_ValueError (e : exn) : bool :=
  match e with TypeError _ | ValueError _ _ => true | _ => false end.

Module AggregationStrategy.

Definition _filter_valid_results (results : list WorkerResult.t) : list WorkerResult.t :=
  filter WorkerResult.is_valid results.

(** [if provided_weights:] holds for a dict that is neither [None] nor empty. *)
Definition _get_weights (results : list WorkerResult.t)
  (provided_weights : option (dict string Q)) : dict string Q :=
  match provided_weights with
  | Some ((_ :: _) as provided) =>
      dict_comp String.eqb WorkerResult.worker_id
        (fun r => dict_get_default String.eqb provided (WorkerResult.worker_id r) 1)
        results
  | _ => dict_comp String.eqb WorkerResult.worker_id (fun _ => 1) results
  end.

(** The result every strategy returns when it has nothing to combine. *)
Definition sentinel (method : string) (results : list WorkerResult.t) (t_start t_end : Q)
  (error : mvalue) : outcome AggregatedResult.t :=
  AggregatedResult.new VNone 0 results [] method ((t_end - t_start) * 1000)
    [("error", error)].

End AggregationStrategy.

Import AggregationStrategy.

(** [value * w] for a float [w]: a [TypeError] unless the payload is a
    number. *)
Definition value_times (v : pyvalue) (w : Q) : outcome Q :=
  match v with
  | VNum q => Returns (q * w)
  | VStr _ => Raises (TypeError "can't multiply sequence by non-int of type 'float'")
  | VNone => Raises (TypeError "unsupported operand type(s) for *: 'NoneType' and 'float'")
  end.

Module WeightedAverageAggregation.

(** The loop that fills [effective_weights]. *)
Definition effective_weights (use_confidence : bool) (valid_results : list WorkerResult.t)
  (base_weights : dict string Q) : outcome (dict string Q) :=
  for_each
    (fun eff result =>
       base_weight <- dict_lookup base_weights (WorkerResult.worker_id result) ;;
       Returns
         (dict_set String.eqb eff (WorkerResult.worker_id result)
            (if use_confidence then base_weight * WorkerResult.confidence result
             else base_weight)))
    valid_results [].

(** The [# Normalize weights] block. *)
Definition normalized_weights (effective : dict string Q) : outcome (dict string Q) :=
  let total_weight := Qsum (dict_values effective) in
  if Qlt_bool 0 total_weight then
    for_each
      (fun d item =>
         x <- truediv (snd item) total_weight ;;
         Returns (dict_set String.eqb d (fst item) x))
      (dict_items effective) []
  else
    for_each
      (fun d wid =>
         x <- truediv 1 (Qlen effective) ;;
         Returns (dict_set String.eqb d wid x))
      (dict_keys effective) [].

(** Everything [aggregate] computes between the filter and the [try]: the
    normalized weights of the valid results. *)
Definition weights_of (use_confidence : bool) (results : list WorkerResult.t)
  (weights : option (dict string Q)) : outcome (dict string Q) :=
  let valid_results := _filter_valid_results results in
  let base_weights := _get_weights valid_results weights in
  effective <- effective_weights use_confidence valid_results base_weights ;;
  normalized_weights effective.

Definition aggregate (use_confidence : bool) (results : list WorkerResult.t)
  (weights : option (dict string Q)) (t_start t_end : Q) : outcome AggregatedResult.t :=
  let valid_results := _filter_valid_results results in
  match valid_results with
  | [] =>
      sentinel "weighted_average" results t_start t_end
        (MStr "No valid results to aggregate")
  | _ =>
      normalized <- weights_of use_confidence results weights ;;
      try_except
        (weighted_sum <-
           sum_over
             (fun result =>
                w <- dict_lookup normalized (WorkerResult.worker_id result) ;;
                value_times (WorkerResult.value result) w)
             valid_results ;;
         overall_confidence <-
           sum_over
             (fun result =>
                w <- dict_lookup normalized (WorkerResult.worker_id result) ;;
                Returns (WorkerResult.confidence result * w))
             valid_results ;;
         AggregatedResult.new (VNum weighted_sum) overall_confidence results normalized
           "weighted_average" ((t_end - t_start) * 1000)
           [("valid_results", MInt (List.length valid_results));
            ("total_results", MInt (List.length results));
            ("use_confidence", MBool use_confidence)])
        is_TypeError
        (fun e =>
           sentinel "weighted_average" results t_start t_end
             (MErr "Non-numerical values: " e))
  end.

End WeightedAverageAggregation.

Module MajorityVotingAggregation.

(** The score one result adds to its value. *)
Definition score_of (use_confidence : bool) (base_weights : dict string Q)
  (result : WorkerResult.t) : outcome Q :=
  base_weight <- dict_lookup base_weights (WorkerResult.worker_id result) ;;
  Returns (if use_confidence then base_weight * WorkerResult.confidence result
           else base_weight).

(** The loop that fills [vote_scores]; [vote_confidence], which the method
    fills next to it and never reads, is left out. *)
Definition vote_scores (use_confidence : bool) (valid_results : list WorkerResult.t)
  (base_weights : dict string Q) : outcome (dict pyvalue Q) :=
  for_each
    (fun votes result =>
       score <- score_of use_confidence base_weights result ;;
       Returns
         (dict_set value_eqb votes (WorkerResult.value result)
            (dict_get_default value_eqb votes (WorkerResult.value result) 0 + score)))
    valid_results [].

(** [winning_score / total_score if total_score > 0 else 0.0] *)
Definition confidence_of (winning_score total_score : Q) : outcome Q :=
  if Qlt_bool 0 total_score then truediv winning_score total_score else Returns 0.

(** The comprehension counted for [agreement]. *)
Definition agreeing (valid_results : list WorkerResult.t) (winning_value : pyvalue)
  : list WorkerResult.t :=
  filter (fun r => value_eqb (WorkerResult.value r) winning_value) valid_results.

Definition aggregate (use_confidence : bool) (results : list WorkerResult.t)
  (weights : option (dict string Q)) (t_start t_end : Q) : outcome AggregatedResult.t :=
  let valid_results := _filter_valid_results results in
  match valid_results with
  | [] =>
      sentinel "majority_voting" results t_start t_end
        (MStr "No valid results to aggregate")
  | _ =>
      let base_weights := _get_weights valid_results weights in
      votes <- vote_scores use_confidence valid_results base_weights ;;
      winner <- max_by_snd (dict_items votes) ;;
      let winning_value := fst winner in
      let winning_score := snd winner in
      let total_score := Qsum (dict_values votes) in
      confidence <- confidence_of winning_score total_score ;;
      agreement <- truediv (Qlen (agreeing valid_results winning_value)) (Qlen valid_results) ;;
      AggregatedResult.new winning_value confidence results base_weights
        "majority_voting" ((t_end - t_start) * 1000)
        [("valid_results", MInt (List.length valid_results));
         ("total_results", MInt (List.length results));
         ("vote_distribution", MVotes votes);
         ("agreement", MNum agreement);
         ("use_confidence", MBool use_confidence)]
  end.

End MajorityVotingAggregation.

Module ConfidenceBasedAggregation.

(** The loop that keeps [best_result] and [best_score]. *)
Definition select_best (valid_results : list WorkerResult.t) (base_weights : dict string Q)
  : outcome (option WorkerResult.t * Q) :=
  for_each
    (fun best result =>
       w <- dict_lookup base_weights (WorkerResult.worker_id result) ;;
       let score := WorkerResult.confidence result * w in
       Returns (if Qlt_bool (snd best) score then (Some result, score) else best))
    valid_results (None, -1).

Definition aggregate (results : list WorkerResult.t) (weights : option (dict string Q))
  (t_start t_end : Q) : outcome AggregatedResult.t :=
  let valid_results := _filter_valid_results results in
  match valid_results with
  | [] =>
      sentinel "confidence_based" results t_start t_end
        (MStr "No valid results to aggregate")
  | _ =>
      let base_weights := _get_weights valid_results weights in
      best <- select_best valid_results base_weights ;;
      match fst best with
      | None => Raises (AttributeError "'NoneType' object has no attribute 'value'")
      | Some best_result =>
          AggregatedResult.new (WorkerResult.value best_result)
            (WorkerResult.confidence best_result) results base_weights
            "confidence_based" ((t_end - t_start) * 1000)
            [("valid_results", MInt (List.length valid_results));
             ("total_results", MInt (List.length results));
             ("selected_worker", MStr (WorkerResult.worker_id best_result));
             ("weighted_confidence", MNum (snd best))]
      end
  end.

End ConfidenceBasedAggregation.

(** *** The numpy calls of the median strategy *)

(** The conversion of a list of payloads to a numeric array, as far as the
    numpy reductions used below are concerned: they raise [TypeError] on a
    payload that is not a number. *)
Fixpoint as_numbers (values : list pyvalue) : outcome (list Q) :=
  match values with
  | [] => Returns []
  | VNum q :: rest => qs <- as_numbers rest ;; Returns (q :: qs)
  | _ :: _ => Raises (TypeError "cannot perform reduce with flexible type")
  end.

Fixpoint Qinsert (x : Q) (l : list Q) : list Q :=
  match l with
  | [] => [x]
  | y :: l' => if Qle_bool x y then x :: y :: l' else y :: Qinsert x l'
  end.

Definition Qsort (l : list Q) : list Q := fold_right Qinsert [] l.

(** [np.median] of a numeric array: the middle element of the sorted array, or
    the mean of the two middle ones.  On an empty array numpy gives [nan],
    which the model has no number for; [aggregate] never gets there. *)
Definition np_median (xs : list Q) : outcome Q :=
  let s := Qsort xs in
  let n := List.length s in
  match n with
  | O => Raises (ValueError "median of an empty array" 0)
  | _ =>
      if Nat.even n
      then Returns ((nth (n / 2 - 1) s 0 + nth (n / 2) s 0) / 2)
      else Returns (nth (n / 2) s 0)
  end.

(** [np.max] and [np.min]; they raise [ValueError] on an empty array. *)
Definition np_max (xs : list Q) : outcome Q :=
  match xs with
  | [] => Raises (ValueError "zero-size array to reduction operation maximum" 0)
  | x :: rest => Returns (fold_left (fun m y => if Qlt_bool m y then y else m) rest x)
  end.

Definition np_min (xs : list Q) : outcome Q :=
  match xs with
  | [] => Raises (ValueError "zero-size array to reduction operation minimum" 0)
  | x :: rest => Returns (fold_left (fun m y => if Qlt_bool y m then y else m) rest x)
  end.

(** [np.mean] *)
Definition np_mean (xs : list Q) : outcome Q := truediv (Qsum xs) (Qlen xs).

Module MedianAggregation.

(** The [if len(values) > 1: ... else: ...] block that sets [confidence]. *)
Definition consistency (values confidences : list Q) (mad : Q) : outcome Q :=
  if (1 <? List.length values)%nat then
    hi <- np_max values ;;
    lo <- np_min values ;;
    let value_range := hi - lo in
    if Qlt_bool 0 value_range then
      ratio <- truediv mad value_range ;;
      Returns (1 - py_min ratio 1)
    else Returns 1
  else
    match confidences with
    | c :: _ => Returns c
    | [] => Raises IndexError
    end.

Definition aggregate (results : list WorkerResult.t) (weights : option (dict string Q))
  (t_start t_end : Q) : outcome AggregatedResult.t :=
  let valid_results := _filter_valid_results results in
  match valid_results with
  | [] =>
      sentinel "median" results t_start t_end (MStr "No valid results to aggregate")
  | _ =>
      try_except
        (let confidences := map WorkerResult.confidence valid_results in
         values <- as_numbers (map WorkerResult.value valid_results) ;;
         median_value <- np_median values ;;
         mad <- np_median (map (fun v => Qabs (v - median_value)) values) ;;
         confidence <- consistency values confidences mad ;;
         avg_worker_confidence <- np_mean confidences ;;
         overall_confidence <- truediv (confidence + avg_worker_confidence) 2 ;;
         value_range <-
           (if (1 <? List.length values)%nat
            then hi <- np_max values ;; lo <- np_min values ;; Returns (hi - lo)
            else Returns 0) ;;
         AggregatedResult.new (VNum median_value) overall_confidence results
           (_get_weights valid_results weights) "median" ((t_end - t_start) * 1000)
           [("valid_results", MInt (List.length valid_results));
            ("total_results", MInt (List.length results));
            ("mad", MNum mad);
            ("value_range", MNum value_range)])
        is_TypeError_or_ValueError
        (fun e => sentinel "median" results t_start t_end (MErr "Non-numerical values: " e))
  end.

End MedianAggregation.

(** The four strategies behind the one interface. *)
Inductive strategy : Type :=
| WeightedAverage (use_confidence : bool)
| MajorityVoting (use_confidence : bool)
| ConfidenceBased
| Median.

Definition strategy_aggregate (s : strategy) (results : list WorkerResult.t)
  (weights : option (dict string Q)) (t_start t_end : Q) : outcome AggregatedResult.t :=
  match s with
  | WeightedAverage uc => WeightedAverageAggregation.aggregate uc results weights t_start t_end
  | MajorityVoting uc => MajorityVotingAggregation.aggregate uc results weights t_start t_end
  | ConfidenceBased => ConfidenceBasedAggregation.aggregate results weights t_start t_end
  | Median => MedianAggregation.aggregate results weights t_start t_end
  end.

(** ** The weight learner ([learner.py]) *)

Module PerformanceMetric.

Record t : Type := make {
  worker_id : string;
  predicted : pyvalue;
  actual : pyvalue;
  confidence : Q;
  accuracy : Q
}.

End PerformanceMetric.

Module BayesianWeightLearner.

Record t : Type := make {
  alpha : Q;
  prior_weight : Q;
  min_weight : Q;
  confidence_scaling : bool;
  weights : dict string Q;
  history : dict string (list PerformanceMetric.t);
  update_count : dict string nat
}.

Definition __init__ (alpha prior_weight min_weight : Q) (confidence_scaling : bool) : outcome t :=
  if negb (Qlt_bool 0 alpha && Qle_bool alpha 1) then
    Raises (ValueError "Alpha must be between 0 and 1, got " alpha)
  else if Qle_bool prior_weight 0 then
    Raises (ValueError "Prior weight must be positive, got " prior_weight)
  else Returns (make alpha prior_weight min_weight confidence_scaling [] [] []).

Definition get_weight (self : t) (worker_id : string) : Q :=
  dict_get_default String.eqb (weights self) worker_id (prior_weight self).

Definition get_all_weights (self : t) : dict string Q := weights self.

(** The number [update_weight] stores for an observation made at weight
    [current_weight]. *)
Definition updated_weight (self : t) (current_weight : Q) (metric : PerformanceMetric.t) : Q :=
  let effective_alpha :=
    if confidence_scaling self then alpha self * PerformanceMetric.confidence metric
    else alpha self in
  let new_weight :=
    current_weight * (1 - effective_alpha)
    + PerformanceMetric.accuracy metric * effective_alpha in
  py_max new_weight (min_weight self).

Definition update_weight (self : t) (worker_id : string) (metric : PerformanceMetric.t)
  : t * Q :=
  let current_weight := get_weight self worker_id in
  let new_weight := updated_weight self current_weight metric in
  let weights' := dict_set String.eqb (weights self) worker_id new_weight in
  let history' :=
    if dict_mem String.eqb (history self) worker_id then history self
    else dict_set String.eqb (history self) worker_id [] in
  let history' :=
    dict_set String.eqb history' worker_id
      (dict_get_default String.eqb history' worker_id [] ++ [metric])%list in
  let update_count' :=
    dict_set String.eqb (update_count self) worker_id
      (dict_get_default String.eqb (update_count self) worker_id 0%nat + 1)%nat in
  (make (alpha self) (prior_weight self) (min_weight self) (confidence_scaling self)
     weights' history' update_count',
   new_weight).

(** A run of [update_weight] calls, in order. *)
Definition update_all (self : t) (observations : list (string * PerformanceMetric.t)) : t :=
  fold_left (fun l o => fst (update_weight l (fst o) (snd o))) observations self.

End BayesianWeightLearner.

(** ** The aggregator *)

Module Aggregator.

Record t : Type := make {
  strategy_of : strategy;
  weight_learner : option BayesianWeightLearner.t
}.

Definition aggregate (self : t) (results : list WorkerResult.t) (t_start t_end : Q)
  : outcome AggregatedResult.t :=
  let weights :=
    match weight_learner self with
    | Some learner => Some (BayesianWeightLearner.get_all_weights learner)
    | None => None
    end in
  strategy_aggregate (strategy_of self) results weights t_start t_end.

Definition set_strategy (self : t) (s : strategy) : t := make s (weight_learner self).

Definition set_weight_learner (self : t) (learner : BayesianWeightLearner.t) : t :=
  make (strategy_of self) (Some learner).

End Aggregator.

(** ** Vocabulary of the statements *)

(** The base weight a strategy uses for worker [wid]: the supplied weight, or
    1.0 when the worker has none or no weights are supplied. *)
Definition base_weight_of (weights : option (dict string Q)) (wid : string) : Q :=
  match weights with
  | Some ((_ :: _) as provided) => dict_get_default String.eqb provided wid 1
  | _ => 1
  end.

(** What a valid result adds to the effective weight of its worker or to the
    score of its value: base weight times confidence, or the base weight alone
    when [use_confidence] is off. *)
Definition contribution (use_confidence : bool) (weights : option (dict string Q))
  (r : WorkerResult.t) : Q :=
  if use_confidence
  then base_weight_of weights (WorkerResult.worker_id r) * WorkerResult.confidence r
  else base_weight_of weights (WorkerResult.worker_id r).

(** A valid result, in the words of the specification: status [SUCCESS] and
    a confidence above 0. *)
Definition valid_result (r : WorkerResult.t) : bool :=
  match WorkerResult.status r with
  | SUCCESS => Qlt_bool 0 (WorkerResult.confidence r)
  | _ => false
  end.

(** The valid workers of a list of results: the ids of its valid results,
    each once. *)
Definition valid_worker_ids (results : list WorkerResult.t) : list string :=
  nodup string_dec (map WorkerResult.worker_id (filter valid_result results)).

(** A result that went through the constructor. *)
Definition well_formed (r : WorkerResult.t) : Prop :=
  0 <= WorkerResult.confidence r <= 1 /\ 0 <= WorkerResult.processing_time_ms r.

(** The score of value [v]: the contributions of the valid results that
    voted for it. *)
Definition score (use_confidence : bool) (weights : option (dict string Q))
  (valid : list WorkerResult.t) (v : pyvalue) : Q :=
  Qsum (map (contribution use_confidence weights)
          (filter (fun r => value_eqb (WorkerResult.value r) v) valid)).

(** The total score: the contributions of all valid results. *)
Definition total_score (use_confidence : bool) (weights : option (dict string Q))
  (valid : list WorkerResult.t) : Q :=
  Qsum (map (contribution use_confidence weights) valid).

(** The distinct values of a list, in the order in which they are first
    seen; [acc] holds those seen so far. *)
Definition first_seen_from (acc vals : list pyvalue) : list pyvalue :=
  fold_left
    (fun acc x => if existsb (fun y => value_eqb y x) acc then acc else (acc ++ [x])%list)
    vals acc.

Definition first_seen (vals : list pyvalue) : list pyvalue := first_seen_from [] vals.

(** Every weight the learner has stored is at least its floor. *)
Definition floored (l : BayesianWeightLearner.t) : Prop :=
  forall wid w,
    dict_get String.eqb (BayesianWeightLearner.weights l) wid = Some w ->
    BayesianWeightLearner.min_weight l <= w.

(** [process] or [get_confidence] of worker [w] raises [e] on [data]. *)
Definition fails_with (w : Worker.t) (data : pyvalue) (e : exn) : Prop :=
  Worker.process w data = Raises e
  \/ exists v, Worker.process w data = Returns v /\ Worker.get_confidence w data v = Raises e.

(** Whatever [process] or [get_confidence] of worker [w] raises on [data]
    derives from [Exception]. *)
Definition catchable (w : Worker.t) (data : pyvalue) : Prop :=
  forall e, fails_with w data e -> is_Exception e = true.

(** No worker of the registry raises anything but [Exception]s on [data]. *)
Definition well_behaved (store : dict string Worker.t) (data : pyvalue) : Prop :=
  forall w, In w (dict_values store) -> catchable w data.

(** The result the [except] block of [execute] builds. *)
Definition failed_result (w : Worker.t) (trace_id : string) (t_start t_err : Q) (e : exn)
  (failures : nat) : WorkerResult.t :=
  WorkerResult.make (Worker.worker_id w) VNone 0 ((t_err - t_start) * 1000) FAILED
    [("error", MErr "" e); ("error_type", MStr (exn_type_name e));
     ("failure_count", MInt failures)]
    trace_id.

(** A worker the specification calls active: enabled, and neither quarantined
    nor disabled. *)
Definition active (w : Worker.t) : Prop :=
  WorkerConfig.enabled (Worker.config w) = true
  /\ Worker.status w <> WorkerStatus.QUARANTINED
  /\ Worker.status w <> WorkerStatus.DISABLED.

(** How many results of a list are results of worker [wid]. *)
Definition results_of (wid : string) (rs : list WorkerResult.t) : nat :=
  count_occ string_dec (map WorkerResult.worker_id rs) wid.

(** Every worker is stored under its own id, as [register_worker] does it. *)
Definition keyed (store : dict string Worker.t) : Prop :=
  forall k w, dict_get String.eqb store k = Some w -> Worker.worker_id w = k.

(** No call of the schedule returns before it starts. *)
Definition sane (schedule : list timing) : Prop :=
  Forall (fun tm => started tm <= finished tm) schedule.

(** A future that holds a result of its own worker, [SUCCESS] or [FAILED]. *)
Definition settled (f : future) : Prop :=
  exists r,
    fut_outcome f = Returns r
    /\ WorkerResult.worker_id r = Worker.worker_id (fut_worker f)
    /\ (WorkerResult.status r = SUCCESS \/ WorkerResult.status r = FAILED).

(** The normalized weights of a non-empty dict of effective weights. *)
Definition normalized_of (eff : dict string Q) : dict string Q :=
  if Qlt_bool 0 (Qsum (dict_values eff))
  then map (fun item => (fst item, snd item / Qsum (dict_values eff))) eff
  else map (fun item => (fst item, 1 / Qlen eff)) eff.

(** One step of the search for the maximum in [max_by_snd]. *)
Definition max_step {A : Type} (best y : A * Q) : A * Q :=
  if Qlt_bool (snd best) (snd y) then y else best.

(** [w] is the first item of [l] whose key is maximal. *)
Definition first_max {A : Type} (l : list (A * Q)) (w : A * Q) : Prop :=
  exists before after,
    l = (before ++ w :: after)%list
    /\ (forall y, In y before -> snd y < snd w)
    /\ (forall y, In y after -> snd y <= snd w).

(** No two keys of the list are equal for [eqb]. *)
Fixpoint distinct {K : Type} (eqb : K -> K -> bool) (ks : list K) : Prop :=
  match ks with
  | [] => True
  | k :: ks' => existsb (fun k' => eqb k k') ks' = false /\ distinct eqb ks'
  end.

(** One iteration of the loop that fills [vote_scores]. *)
Definition vote_step (uc : bool) (weights : option (dict string Q))
  (votes : dict pyvalue Q) (r : WorkerResult.t) : dict pyvalue Q :=
  dict_set value_eqb votes (WorkerResult.value r)
    (dict_get_default value_eqb votes (WorkerResult.value r) 0 + contribution uc weights r).

(** The dict [vote_scores] after the loop over [valid], started from [d0]. *)
Definition votes_from (uc : bool) (weights : option (dict string Q))
  (d0 : dict pyvalue Q) (valid : list WorkerResult.t) : dict pyvalue Q :=
  fold_left (vote_step uc weights) valid d0.

(** The metadata of a majority vote. *)
Definition vote_metadata (uc : bool) (valid results : list WorkerResult.t)
  (votes : dict pyvalue Q) (agreement : Q) : metadata_t :=
  [("valid_results", MInt (List.length valid));
   ("total_results", MInt (List.length results));
   ("vote_distribution", MVotes votes);
   ("agreement", MNum agreement);
   ("use_confidence", MBool uc)].

(** A result that is not the sentinel of its strategy. *)
Definition proper (a : AggregatedResult.t) : Prop :=
  dict_mem String.eqb (AggregatedResult.metadata a) "error" = false.

(** One iteration of the loop of [select_best]. *)
Definition best_step (weights : option (dict string Q))
  (best : option WorkerResult.t * Q) (r : WorkerResult.t) : option WorkerResult.t * Q :=
  let s := WorkerResult.confidence r * base_weight_of weights (WorkerResult.worker_id r) in
  if Qlt_bool (snd best) s then (Some r, s) else best.

(** The numeric payload of a result. *)
Definition number_of (r : WorkerResult.t) : Q :=
  match WorkerResult.value r with
  | VNum q => q
  | _ => 0
  end.

(** The normalized weight of a valid result of a worker that has one result. *)
Definition share (uc : bool) (weights : option (dict string Q))
  (valid : list WorkerResult.t) (r : WorkerResult.t) : Q :=
  if Qlt_bool 0 (Qsum (map (contribution uc weights) valid))
  then contribution uc weights r / Qsum (map (contribution uc weights) valid)
  else 1 / Qlen valid.

(** ** Example objects *)

(** A worker whose [process] returns [v] and whose [get_confidence] returns
    [c], whatever the input. *)
Definition constant_worker (wid : string) (enabled : bool) (timeout_seconds : Q)
  (v : pyvalue) (c : Q) : Worker.t :=
  Worker.__init__ "ConstantWorker" wid
    (Some (WorkerConfig.make wid "ConstantWorker" [] [] [] [] enabled timeout_seconds 3))
    (fun _ => Returns v) (fun _ _ => Returns c).

(** A worker whose [process] raises. *)
Definition raising_worker (wid : string) (e : exn) : Worker.t :=
  Worker.__init__ "RaisingWorker" wid None (fun _ => Raises e) (fun _ _ => Returns 1).

(** A successful result of worker [wid]. *)
Definition success_result (wid : string) (v : pyvalue) (c : Q) : WorkerResult.t :=
  WorkerResult.make wid v c 1 SUCCESS [] "trace".

(** A pool of one worker whose timeout is one second. *)
Definition slow_pool : WorkerPool.t :=
  WorkerPool.register_worker (WorkerPool.__init__ None)
    (constant_worker "slow" true 1 (VNum 42) 1).

(** A pool of one enabled and one disabled worker. *)
Definition mixed_pool : WorkerPool.t :=
  WorkerPool.register_worker
    (WorkerPool.register_worker (WorkerPool.__init__ None)
       (constant_worker "on" true 30 (VNum 1) 1))
    (constant_worker "off" false 30 (VNum 2) 1).

(** Two valid numeric results, of workers ["a"] and ["b"]. *)
Definition two_results : list WorkerResult.t :=
  [success_result "a" (VNum 10) 1; success_result "b" (VNum 12) 0.5].

(** One valid vote for the label ["x"], by worker ["a"]. *)
Definition one_vote : list WorkerResult.t := [success_result "a" (VStr "x") 1].

(** Two valid votes, for the labels ["x"] and ["y"]. *)
Definition two_votes : list WorkerResult.t :=
  [success_result "a" (VStr "x") 1; success_result "b" (VStr "y") 1].

(** Three valid votes whose scores tie in exact arithmetic: 0.3 for ["x"],
    0.1 + 0.2 for ["y"]. *)
Definition tied_votes : list WorkerResult.t :=
  [success_result "a" (VStr "x") 0.3; success_result "b" (VStr "y") 0.1;
   success_result "c" (VStr "y") 0.2].

(** Two valid results whose weighted confidences tie in exact arithmetic
    under [tied_weights]: 0.3 x 1 and 0.1 x 3. *)
Definition tied_results : list WorkerResult.t :=
  [success_result "a" (VNum 1) 0.3; success_result "b" (VNum 2) 0.1].

Definition tied_weights : dict string Q := [("a", 1); ("b", 3)].

(** The workers of the two scenarios of the specification. *)
Definition three_numbers : list WorkerResult.t :=
  [success_result "w1" (VNum 10) 1; success_result "w2" (VNum 12) 1;
   success_result "w3" (VNum 14) 1].

Definition three_labels : list WorkerResult.t :=
  [success_result "w1" (VStr "high") 0.9; success_result "w2" (VStr "high") 0.8;
   success_result "w3" (VStr "medium") 0.7].

Definition three_label_weights : dict string Q := [("w1", 0.6); ("w2", 0.5); ("w3", 0.4)].

(** * The rest of the four files, and the example workers *)

(** [int] used as a float *)
Definition Qnat (n : nat) : Q := inject_Z (Z.of_nat n).

(** [min(xs, default=d)] and [max(xs, default=d)] *)
Definition min_default (xs : list Q) (d : Q) : Q :=
  match xs with
  | [] => d
  | x :: rest => fold_left (fun m y => if Qlt_bool y m then y else m) rest x
  end.

Definition max_default (xs : list Q) (d : Q) : Q :=
  match xs with
  | [] => d
  | x :: rest => fold_left (fun m y => if Qlt_bool m y then y else m) rest x
  end.

(** ** [AggregatedResult]: the derived values ([result.py]) *)

Module AggregatedResultStats.

Definition average_worker_confidence (self : AggregatedResult.t) : outcome Q :=
  match AggregatedResult.worker_results self with
  | [] => Returns 0
  | rs => truediv (Qsum (map WorkerResult.confidence rs)) (Qlen rs)
  end.

(** [get_worker_statistics]; the empty dict stands for [{}]. *)
Definition get_worker_statistics (self : AggregatedResult.t) : outcome metadata_t :=
  match AggregatedResult.worker_results self with
  | [] => Returns []
  | rs =>
      let valid_results := filter WorkerResult.is_valid rs in
      average_confidence <- average_worker_confidence self ;;
      average_processing_time_ms <-
        truediv (Qsum (map WorkerResult.processing_time_ms rs))
          (Qnat (AggregatedResult.num_workers self)) ;;
      Returns
        [("total_workers", MInt (AggregatedResult.num_workers self));
         ("valid_workers", MInt (List.length valid_results));
         ("failed_workers",
          MInt (AggregatedResult.num_workers self - List.length valid_results));
         ("average_confidence", MNum average_confidence);
         ("min_confidence",
          MNum (min_default (map WorkerResult.confidence valid_results) 0));
         ("max_confidence",
          MNum (max_default (map WorkerResult.confidence valid_results) 0));
         ("average_processing_time_ms", MNum average_processing_time_ms);
         ("total_processing_time_ms", MNum (AggregatedResult.processing_time_ms self))]
  end.

End AggregatedResultStats.

(** ** [Worker]: statistics and variations ([worker.py]) *)

(** [status.value] *)
Definition status_value (s : WorkerStatus.t) : string :=
  match s with
  | WorkerStatus.IDLE => "idle"
  | WorkerStatus.ACTIVE => "active"
  | WorkerStatus.FAILED => "failed"
  | WorkerStatus.QUARANTINED => "quarantined"
  | WorkerStatus.DISABLED => "disabled"
  end.

(** A subclass of [Worker] whose constructor is the one of the base class and
    whose two methods read the configuration of the instance. *)
Record worker_class : Type := {
  cls_name : string;
  cls_process : WorkerConfig.t -> pyvalue -> outcome pyvalue;
  cls_get_confidence : WorkerConfig.t -> pyvalue -> pyvalue -> outcome Q
}.

(** The call [cls(worker_id, config)]. *)
Definition instantiate (cls : worker_class) (worker_id : string) (config : WorkerConfig.t)
  : Worker.t :=
  Worker.__init__ (cls_name cls) worker_id (Some config)
    (cls_process cls config) (cls_get_confidence cls config).

(** [{**a, **b}] *)
Definition dict_merge (V : Type) (a b : dict string V) : dict string V :=
  fold_left (fun d kv => dict_set String.eqb d (fst kv) (snd kv)) b a.

Module WorkerStats.

Definition get_statistics (self : Worker.t) : outcome metadata_t :=
  failure_rate <-
    truediv (Qnat (Worker.failure_count self))
      (Qnat (Nat.max (Worker.execution_count self) 1)) ;;
  average_processing_time_ms <-
    truediv (Worker.total_processing_time_ms self)
      (Qnat (Nat.max (Worker.execution_count self) 1)) ;;
  Returns
    [("worker_id", MStr (Worker.worker_id self));
     ("worker_type", MStr (Worker.class_name self));
     ("status", MStr (status_value (Worker.status self)));
     ("execution_count", MInt (Worker.execution_count self));
     ("failure_count", MInt (Worker.failure_count self));
     ("failure_rate", MNum failure_rate);
     ("average_processing_time_ms", MNum average_processing_time_ms);
     ("total_processing_time_ms", MNum (Worker.total_processing_time_ms self))].

(** The configuration [apply_variation] builds; [uuid_hex] is
    [uuid.uuid4().hex]. *)
Definition varied_config (self : Worker.t) (uuid_hex : string)
  (variation_params : list (string * pyvalue)) : WorkerConfig.t :=
  let config := Worker.config self in
  WorkerConfig.make
    (Worker.worker_id self ++ "_var_" ++ String.substring 0 8 uuid_hex)
    (WorkerConfig.worker_type config)
    (dict_merge (WorkerConfig.parameters config) variation_params)
    (WorkerConfig.input_schema config)
    (WorkerConfig.output_schema config)
    (WorkerConfig.thresholds config)
    (WorkerConfig.enabled config)
    (WorkerConfig.timeout_seconds config)
    (WorkerConfig.retry_attempts config).

(** [apply_variation]; [cls] is [self.__class__]. *)
Definition apply_variation (cls : worker_class) (self : Worker.t) (uuid_hex : string)
  (variation_params : list (string * pyvalue)) : Worker.t :=
  let varied := varied_config self uuid_hex variation_params in
  instantiate cls (WorkerConfig.worker_id varied) varied.

End WorkerStats.

(** ** [WorkerPool]: variations and statistics ([worker.py]) *)

Module WorkerPoolStats.

(** The loop of [create_variations]; [uuids] gives the [uuid.uuid4().hex] of
    each iteration (the empty string once the list is used up). *)
Fixpoint vary_and_register (cls : worker_class) (self : WorkerPool.t) (worker : Worker.t)
  (variation_params_list : list (list (string * pyvalue))) (uuids : list string)
  : WorkerPool.t * list Worker.t :=
  match variation_params_list with
  | [] => (self, [])
  | variation_params :: rest =>
      let varied_worker :=
        WorkerStats.apply_variation cls worker (hd "" uuids) variation_params in
      let '(self', variations) :=
        vary_and_register cls (WorkerPool.register_worker self varied_worker) worker rest
          (tl uuids) in
      (self', varied_worker :: variations)
  end.

(** [create_variations]; [variation_strategy] is the caller's function. *)
Definition create_variations (cls : worker_class) (self : WorkerPool.t) (worker : Worker.t)
  (variation_strategy : list (string * pyvalue) -> Z -> list (list (string * pyvalue)))
  (num_variations : Z) (uuids : list string) : WorkerPool.t * list Worker.t :=
  let base_params := WorkerConfig.parameters (Worker.config worker) in
  vary_and_register cls self worker (variation_strategy base_params num_variations) uuids.

(** The loop that fills [status_counts]. *)
Definition status_counts (workers : list Worker.t) : dict string nat :=
  fold_left
    (fun counts worker =>
       let status := status_value (Worker.status worker) in
       dict_set String.eqb counts status
         (dict_get_default String.eqb counts status 0%nat + 1)%nat)
    workers [].

Record statistics : Type := {
  total_workers : nat;
  active_workers : nat;
  total_executions : nat;
  total_failures : nat;
  overall_failure_rate : Q;
  status_distribution : dict string nat;
  worker_statistics : list metadata_t
}.

Definition get_pool_statistics (self : WorkerPool.t) : outcome statistics :=
  let workers := dict_values (WorkerPool.workers self) in
  let total_executions := list_sum (map Worker.execution_count workers) in
  let total_failures := list_sum (map Worker.failure_count workers) in
  rate <- truediv (Qnat total_failures) (Qnat (Nat.max total_executions 1)) ;;
  stats <-
    for_each (fun acc w => s <- WorkerStats.get_statistics w ;; Returns (acc ++ [s])%list)
      workers [] ;;
  Returns
    (Build_statistics (dict_len (WorkerPool.workers self))
       (List.length (WorkerPool.get_active_workers self))
       total_executions total_failures rate (status_counts workers) stats).

End WorkerPoolStats.

(** ** [BayesianWeightLearner]: the other operations ([learner.py]) *)

Module LearnerOps.
Import BayesianWeightLearner.

Definition get_normalized_weights (self : t) (worker_ids : option (list string))
  : outcome (dict string Q) :=
  let worker_ids :=
    match worker_ids with
    | None => dict_keys (weights self)
    | Some ids => ids
    end in
  match worker_ids with
  | [] => Returns []
  | _ =>
      let weights := dict_comp String.eqb (fun wid => wid) (get_weight self) worker_ids in
      let total := Qsum (dict_values weights) in
      if Qlt_bool 0 total then
        for_each
          (fun d item =>
             x <- truediv (snd item) total ;;
             Returns (dict_set String.eqb d (fst item) x))
          (dict_items weights) []
      else
        for_each
          (fun d wid =>
             x <- truediv 1 (Qlen worker_ids) ;;
             Returns (dict_set String.eqb d wid x))
          worker_ids []
  end.

(** The inner loop of [batch_update], over the metrics of one worker. *)
Definition update_each (worker_id : string) (state : t * dict string Q)
  (worker_metrics : list PerformanceMetric.t) : t * dict string Q :=
  fold_left
    (fun st metric =>
       let '(l, w) := update_weight (fst st) worker_id metric in
       (l, dict_set String.eqb (snd st) worker_id w))
    worker_metrics state.

Definition batch_update (self : t) (metrics : dict string (list PerformanceMetric.t))
  : t * dict string Q :=
  fold_left (fun st item => update_each (fst item) st (snd item)) (dict_items metrics)
    (self, []).

Definition reset_worker (self : t) (worker_id : string) : t :=
  let weights' :=
    if dict_mem String.eqb (weights self) worker_id
    then dict_del String.eqb (weights self) worker_id else weights self in
  let history' :=
    if dict_mem String.eqb (history self) worker_id
    then dict_del String.eqb (history self) worker_id else history self in
  let update_count' :=
    if dict_mem String.eqb (update_count self) worker_id
    then dict_del String.eqb (update_count self) worker_id else update_count self in
  make (alpha self) (prior_weight self) (min_weight self) (confidence_scaling self)
    weights' history' update_count'.

End LearnerOps.

(** ** [AdaptiveBayesianLearner] ([learner.py]) *)

(** [l[start:]] for a Python index [start], negative ones counted from the
    end. *)
Definition slice_from (A : Type) (start : Z) (l : list A) : list A :=
  let len := Z.of_nat (List.length l) in
  let first := if (start <? 0)%Z then Z.max (len + start) 0 else Z.min start len in
  skipn (Z.to_nat first) l.

Module AdaptiveBayesianLearner.

(** The learner it extends, followed by its own attributes. *)
Record t : Type := make {
  base : BayesianWeightLearner.t;
  initial_alpha : Q;
  min_alpha : Q;
  max_alpha : Q;
  stability_window : Z;
  worker_alphas : dict string Q
}.

Definition __init__ (initial_alpha min_alpha max_alpha : Q) (stability_window : Z)
  (prior_weight min_weight : Q) (confidence_scaling : bool) : outcome t :=
  b <- BayesianWeightLearner.__init__ initial_alpha prior_weight min_weight
         confidence_scaling ;;
  Returns (make b initial_alpha min_alpha max_alpha stability_window []).

Definition set_alpha (l : BayesianWeightLearner.t) (a : Q) : BayesianWeightLearner.t :=
  BayesianWeightLearner.make a (BayesianWeightLearner.prior_weight l)
    (BayesianWeightLearner.min_weight l) (BayesianWeightLearner.confidence_scaling l)
    (BayesianWeightLearner.weights l) (BayesianWeightLearner.history l)
    (BayesianWeightLearner.update_count l).

Section Stability.

(** [np.std], the population standard deviation, which no rational function
    computes: a parameter of the model. *)
Variable np_std : list Q -> Q.

(** [_calculate_stability].  On an empty window [np.mean] gives [nan], for
    which [mean > 0] is false. *)
Definition _calculate_stability (self : t) (worker_id : string) : outcome Q :=
  match dict_get String.eqb (BayesianWeightLearner.history (base self)) worker_id with
  | None => Returns 1
  | Some observed =>
      if (Z.of_nat (List.length observed) <? stability_window self)%Z then Returns 1
      else
        let recent := slice_from (- stability_window self) observed in
        let accuracies := map PerformanceMetric.accuracy recent in
        match accuracies with
        | [] => Returns 1
        | _ =>
            mean <- np_mean accuracies ;;
            let std := np_std accuracies in
            if Qlt_bool 0 mean then truediv std mean else Returns 1
        end
  end.

Definition _adapt_alpha (self : t) (worker_id : string) : outcome Q :=
  stability <- _calculate_stability self worker_id ;;
  let adapted_alpha := min_alpha self + (max_alpha self - min_alpha self) * stability in
  Returns (py_max (min_alpha self) (py_min (max_alpha self) adapted_alpha)).

Definition update_weight (self : t) (worker_id : string) (metric : PerformanceMetric.t)
  : outcome (t * Q) :=
  adapted <- _adapt_alpha self worker_id ;;
  let worker_alphas' := dict_set String.eqb (worker_alphas self) worker_id adapted in
  let original_alpha := BayesianWeightLearner.alpha (base self) in
  a <- dict_lookup worker_alphas' worker_id ;;
  let '(b, new_weight) :=
    BayesianWeightLearner.update_weight (set_alpha (base self) a) worker_id metric in
  Returns
    (make (set_alpha b original_alpha) (initial_alpha self) (min_alpha self)
       (max_alpha self) (stability_window self) worker_alphas',
     new_weight).

End Stability.

Definition get_alpha (self : t) (worker_id : string) : Q :=
  dict_get_default String.eqb (worker_alphas self) worker_id (initial_alpha self).

End AdaptiveBayesianLearner.

(** ** The workers of [examples/basic_example.py] *)

(** [a < b] on payloads: numbers and strings compare among themselves. *)
Definition value_lt (a b : pyvalue) : outcome bool :=
  match a, b with
  | VNum x, VNum y => Returns (Qlt_bool x y)
  | VStr s, VStr t => Returns (String.ltb s t)
  | _, _ => Raises (TypeError "'<' not supported between instances")
  end.

(** [abs(a - b)], for numbers. *)
Definition value_distance (a b : pyvalue) : outcome Q :=
  match a, b with
  | VNum x, VNum y => Returns (Qabs (x - y))
  | _, _ => Raises (TypeError "unsupported operand type(s) for -")
  end.

(** [config.parameters.get(key, default)] *)
Definition parameter (config : WorkerConfig.t) (key : string) (default : Q) : pyvalue :=
  dict_get_default String.eqb (WorkerConfig.parameters config) key (VNum default).

Module ClassificationWorker.

Definition low_threshold (config : WorkerConfig.t) : pyvalue :=
  parameter config "low_threshold" 30.

Definition high_threshold (config : WorkerConfig.t) : pyvalue :=
  parameter config "high_threshold" 70.

Definition process (config : WorkerConfig.t) (data : pyvalue) : outcome pyvalue :=
  below_low <- value_lt data (low_threshold config) ;;
  if below_low then Returns (VStr "low")
  else
    below_high <- value_lt data (high_threshold config) ;;
    if below_high then Returns (VStr "medium") else Returns (VStr "high").

Definition get_confidence (config : WorkerConfig.t) (data result : pyvalue) : outcome Q :=
  confidence <-
    (if value_eqb result (VStr "low") then
       distance <- value_distance data (low_threshold config) ;;
       x <- truediv distance 10 ;;
       Returns (py_min 1 x)
     else if value_eqb result (VStr "high") then
       distance <- value_distance data (high_threshold config) ;;
       x <- truediv distance 10 ;;
       Returns (py_min 1 x)
     else
       d_low <- value_distance data (low_threshold config) ;;
       d_high <- value_distance data (high_threshold config) ;;
       x <- truediv (py_min d_low d_high) 10 ;;
       Returns (py_min 1 x)) ;;
  Returns (py_max 0.3 confidence).

Definition cls : worker_class :=
  Build_worker_class "ClassificationWorker" process get_confidence.

End ClassificationWorker.

Module SimpleNumericalWorker.

Definition bias (config : WorkerConfig.t) : pyvalue := parameter config "bias" 0.

Definition noise_level (config : WorkerConfig.t) : pyvalue :=
  parameter config "noise_level" 0.1.

(** [process]; [noise] is the number [random.uniform(-noise_level, noise_level)]
    gives, which needs a numeric noise level. *)
Definition process (noise : Q) (config : WorkerConfig.t) (data : pyvalue) : outcome pyvalue :=
  match noise_level config with
  | VNum _ =>
      match data, bias config with
      | VNum d, VNum b => Returns (VNum (d + b + noise))
      | _, _ => Raises (TypeError "unsupported operand type(s) for +")
      end
  | _ => Raises (TypeError "bad operand type for unary -")
  end.

Definition get_confidence (config : WorkerConfig.t) (data result : pyvalue) : outcome Q :=
  match noise_level config with
  | VNum n =>
      let confidence := 1 - n in
      Returns (py_max 0 (py_min 1 confidence))
  | _ => Raises (TypeError "unsupported operand type(s) for -")
  end.

Definition cls (noise : Q) : worker_class :=
  Build_worker_class "SimpleNumericalWorker" (process noise) get_confidence.

End SimpleNumericalWorker.

(** ** Vocabulary of the further statements *)

(** Every future holds, if anything, a result that carries the trace id. *)
Definition traced (tr : string) (f : future) : Prop :=
  forall r, fut_outcome f = Returns r -> WorkerResult.trace_id r = tr.

(** The [aggregation_method] a strategy writes. *)
Definition strategy_name (s : strategy) : string :=
  match s with
  | WeightedAverage _ => "weighted_average"
  | MajorityVoting _ => "majority_voting"
  | ConfidenceBased => "confidence_based"
  | Median => "median"
  end.

(** The result of a strategy that found no valid result. *)
Definition nothing_to_aggregate (s : strategy) (results : list WorkerResult.t)
  (t_start t_end : Q) : AggregatedResult.t :=
  AggregatedResult.make VNone 0 results [] (strategy_name s) ((t_end - t_start) * 1000)
    [("error", MStr "No valid results to aggregate")].

(** The score by which the confidence-based strategy ranks a result. *)
Definition weighted_confidence (weights : option (dict string Q)) (r : WorkerResult.t) : Q :=
  WorkerResult.confidence r * base_weight_of weights (WorkerResult.worker_id r).

(** A result whose payload is a number. *)
Definition numeric (r : WorkerResult.t) : Prop :=
  exists q, WorkerResult.value r = VNum q.


(** A failed result of worker [wid]. *)
Definition failed_result_of (wid : string) : WorkerResult.t :=
  WorkerResult.make wid VNone 0 1 FAILED [] "trace".

(** No supplied weight is negative. *)
Definition nonnegative (weights : option (dict string Q)) : Prop :=
  match weights with
  | Some provided => Forall (fun item => 0 <= snd item) provided
  | None => True
  end.

(** The result of a strategy that met a payload it cannot compute with;
    [e] is the exception it caught. *)
Definition not_numerical (s : strategy) (results : list WorkerResult.t)
  (t_start t_end : Q) (e : exn) : AggregatedResult.t :=
  AggregatedResult.make VNone 0 results [] (strategy_name s) ((t_end - t_start) * 1000)
    [("error", MErr "Non-numerical values: " e)].

(** What the loop of [select_best] holds after the results [seen]: nothing,
    with the score -1.0, as long as no score exceeded -1.0; else the first
    result of maximal score. *)
Definition selected (weights : option (dict string Q)) (seen : list WorkerResult.t)
  (st : option WorkerResult.t * Q) : Prop :=
  match fst st with
  | None => snd st = -1 /\ forall y, In y seen -> weighted_confidence weights y <= -1
  | Some best =>
      snd st = weighted_confidence weights best
      /\ -1 < snd st
      /\ exists before after,
          seen = (before ++ best :: after)%list
          /\ (forall y, In y before ->
                        weighted_confidence weights y < weighted_confidence weights best)
          /\ (forall y, In y after ->
                        weighted_confidence weights y <= weighted_confidence weights best)
  end.

(** The metrics a run of observations holds for worker [wid], in order. *)
Definition observations_of (wid : string) (obs : list (string * PerformanceMetric.t))
  : list PerformanceMetric.t :=
  map snd (filter (fun o => String.eqb (fst o) wid) obs).

(** The calls of [update_weight] a batch amounts to, in order. *)
Definition in_sequence (metrics : dict string (list PerformanceMetric.t))
  : list (string * PerformanceMetric.t) :=
  flat_map (fun item => map (fun m => (fst item, m)) (snd item)) metrics.

(** The dict that [batch_update] fills holds weights the learner has. *)
Definition up_to_date (st : BayesianWeightLearner.t * dict string Q) : Prop :=
  forall wid w,
    dict_get String.eqb (snd st) wid = Some w ->
    BayesianWeightLearner.get_weight (fst st) wid = w.

(** * The arithmetic of the code in IEEE binary64

    Python's [float] is the IEEE binary64 format, in which the primitive
    floats compute.  The functions below are the arithmetic of the update
    rule, the normalization, the scores and the adapted learning rate,
    operation by operation and in the order in which the source has them.
    They show where rounding and overflow make the code differ from exact
    arithmetic. *)

Module Binary64.
Import PrimFloat.
#[local] Set Warnings "-inexact-float".

(** Python's two-argument [max(a, b)] and [min(a, b)] *)
Definition py_max (a b : float) : float := if ltb a b then b else a.

Definition py_min (a b : float) : float := if ltb b a then b else a.

(** [sum(xs)]: the additions from left to right, starting from 0.  (Newer
    interpreters compensate the rounding errors of a sum of floats; a sum of
    two floats, which is all the statements below use, is the same either
    way.) *)
Definition fsum (xs : list float) : float := fold_left add xs 0%float.

(** [len(xs)] as a divisor of a float *)
Definition flen (A : Type) (xs : list A) : float :=
  of_uint63 (Uint63.of_Z (Z.of_nat (List.length xs))).

(** The arithmetic of [BayesianWeightLearner.update_weight]. *)
Definition updated_weight (alpha min_weight : float) (confidence_scaling : bool)
  (current_weight confidence accuracy : float) : float :=
  let effective_alpha := if confidence_scaling then (alpha * confidence)%float else alpha in
  let new_weight :=
    (current_weight * (1 - effective_alpha) + accuracy * effective_alpha)%float in
  py_max new_weight min_weight.

(** The effective weight of a result and the score of a vote:
    [base_weight * result.confidence], or the base weight alone. *)
Definition effective_weight (use_confidence : bool) (base_weight confidence : float)
  : float :=
  if use_confidence then (base_weight * confidence)%float else base_weight.

(** The [# Normalize weights] block of [WeightedAverageAggregation.aggregate],
    on the values of [effective_weights] in the order of the dict. *)
Definition normalized_weights (effective : list float) : list float :=
  let total_weight := fsum effective in
  if ltb 0 total_weight then map (fun w => (w / total_weight)%float) effective
  else map (fun _ => (1 / flen effective)%float) effective.

(** The entry of [vote_scores] for one value after the loop of
    [MajorityVotingAggregation.aggregate]: [vote_scores.get(value, 0.0) + score]
    for each vote for that value, in order; a vote is a base weight and a
    confidence. *)
Definition vote_score (use_confidence : bool) (votes : list (float * float)) : float :=
  fold_left
    (fun acc vote => (acc + effective_weight use_confidence (fst vote) (snd vote))%float)
    votes 0%float.

(** [score = result.confidence * base_weights[result.worker_id]] of
    [ConfidenceBasedAggregation.aggregate]. *)
Definition weighted_confidence (confidence base_weight : float) : float :=
  (confidence * base_weight)%float.

(** The arithmetic of [AdaptiveBayesianLearner._adapt_alpha]. *)
Definition adapted_alpha (min_alpha max_alpha stability : float) : float :=
  let adapted_alpha := (min_alpha + (max_alpha - min_alpha) * stability)%float in
  py_max min_alpha (py_min max_alpha adapted_alpha).

End Binary64.

(** * Properties *)

(** ** Numbers and outcomes *)

Lemma Qlt_bool_iff (a b : Q) : Qlt_bool a b = true <-> a < b.
Proof.
  unfold Qlt_bool. rewrite negb_true_iff.
  destruct (Qle_bool b a) eqn:E.
  - apply Qle_bool_iff in E. split; [discriminate | intro H; exfalso; lra].
  - split; [intros _ | reflexivity].
    apply Qnot_le_lt. intro H. apply Qle_bool_iff in H. congruence.
Qed.

Lemma Qlt_bool_false_iff (a b : Q) : Qlt_bool a b = false <-> b <= a.
Proof.
  unfold Qlt_bool. rewrite negb_false_iff. apply Qle_bool_iff.
Qed.

Lemma Qle_bool_false_iff (a b : Q) : Qle_bool a b = false <-> b < a.
Proof.
  rewrite <- Qlt_bool_iff. unfold Qlt_bool.
  destruct (Qle_bool a b); simpl; intuition congruence.
Qed.

Lemma in_unit_interval_iff (c : Q) :
  Qle_bool 0 c && Qle_bool c 1 = true <-> 0 <= c <= 1.
Proof.
  rewrite andb_true_iff, !Qle_bool_iff. reflexivity.
Qed.

Lemma not_raised_Returns (A : Type) (a : A) : ~ raised (Returns a).
Proof. intros [e H]. discriminate. Qed.

Lemma raised_Raises (A : Type) (e : exn) : raised (@Raises A e).
Proof. exists e. reflexivity. Qed.

Lemma py_max_ge_r (a b : Q) : b <= py_max a b.
Proof.
  unfold py_max. destruct (Qlt_bool a b) eqn:E.
  - lra.
  - apply Qlt_bool_false_iff in E. exact E.
Qed.

Lemma py_max_ge_l (a b : Q) : a <= py_max a b.
Proof.
  unfold py_max. destruct (Qlt_bool a b) eqn:E.
  - apply Qlt_bool_iff in E. lra.
  - lra.
Qed.

Lemma truediv_Returns (a b : Q) : ~ b == 0 -> truediv a b = Returns (a / b).
Proof.
  intro H. unfold truediv.
  destruct (Qeq_bool b 0) eqn:E; [apply Qeq_bool_iff in E; contradiction | reflexivity].
Qed.

(** ** Construction of the records *)

Lemma WorkerResult_new_raised (worker_id : string) (value : pyvalue) (c pt : Q)
  (st : ResultStatus) (md : metadata_t) (tr : string) :
  raised (WorkerResult.new worker_id value c pt st md tr) <-> ~ (0 <= c <= 1) \/ pt < 0.
Proof.
  unfold WorkerResult.new, WorkerResult.__post_init__. simpl.
  destruct (Qle_bool 0 c && Qle_bool c 1) eqn:Ec; simpl.
  - apply in_unit_interval_iff in Ec.
    destruct (Qlt_bool pt 0) eqn:Ep.
    + apply Qlt_bool_iff in Ep. split; [intros _; right; exact Ep | intros _; apply raised_Raises].
    + apply Qlt_bool_false_iff in Ep. split.
      * intro H. exfalso. exact (not_raised_Returns H).
      * intros [H | H]; [contradiction | exfalso; lra].
  - split; [intros _; left | intros _; apply raised_Raises].
    intro H. apply in_unit_interval_iff in H. congruence.
Qed.

Lemma WorkerResult_new_Returns (worker_id : string) (value : pyvalue) (c pt : Q)
  (st : ResultStatus) (md : metadata_t) (tr : string) (r : WorkerResult.t) :
  WorkerResult.new worker_id value c pt st md tr = Returns r ->
  r = WorkerResult.make worker_id value c pt st md tr /\ 0 <= c <= 1 /\ 0 <= pt.
Proof.
  unfold WorkerResult.new, WorkerResult.__post_init__. simpl.
  destruct (Qle_bool 0 c && Qle_bool c 1) eqn:Ec; simpl; [| discriminate].
  destruct (Qlt_bool pt 0) eqn:Ep; [discriminate |].
  intro H. injection H as <-.
  apply in_unit_interval_iff in Ec. apply Qlt_bool_false_iff in Ep. auto.
Qed.

Lemma WorkerResult_new_ok (worker_id : string) (value : pyvalue) (c pt : Q)
  (st : ResultStatus) (md : metadata_t) (tr : string) :
  0 <= c <= 1 -> 0 <= pt ->
  WorkerResult.new worker_id value c pt st md tr
  = Returns (WorkerResult.make worker_id value c pt st md tr).
Proof.
  intros Hc Hp. unfold WorkerResult.new, WorkerResult.__post_init__. simpl.
  apply in_unit_interval_iff in Hc. rewrite Hc. simpl.
  apply Qlt_bool_false_iff in Hp. rewrite Hp. reflexivity.
Qed.

Lemma AggregatedResult_new_raised (value : pyvalue) (c : Q) (rs : list WorkerResult.t)
  (ws : dict string Q) (m : string) (pt : Q) (md : metadata_t) :
  raised (AggregatedResult.new value c rs ws m pt md) <-> ~ (0 <= c <= 1).
Proof.
  unfold AggregatedResult.new, AggregatedResult.__post_init__. simpl.
  destruct (Qle_bool 0 c && Qle_bool c 1) eqn:Ec; simpl.
  - apply in_unit_interval_iff in Ec. split.
    + intro H. exfalso. exact (not_raised_Returns H).
    + intro H. contradiction.
  - split; [intros _ | intros _; apply raised_Raises].
    intro H. apply in_unit_interval_iff in H. congruence.
Qed.

Lemma AggregatedResult_new_ok (value : pyvalue) (c : Q) (rs : list WorkerResult.t)
  (ws : dict string Q) (m : string) (pt : Q) (md : metadata_t) :
  0 <= c <= 1 ->
  AggregatedResult.new value c rs ws m pt md
  = Returns (AggregatedResult.make value c rs ws m pt md).
Proof.
  intro Hc. unfold AggregatedResult.new, AggregatedResult.__post_init__. simpl.
  apply in_unit_interval_iff in Hc. rewrite Hc. reflexivity.
Qed.

Lemma AggregatedResult_new_Returns (value : pyvalue) (c : Q) (rs : list WorkerResult.t)
  (ws : dict string Q) (m : string) (pt : Q) (md : metadata_t) (r : AggregatedResult.t) :
  AggregatedResult.new value c rs ws m pt md = Returns r ->
  r = AggregatedResult.make value c rs ws m pt md /\ 0 <= c <= 1.
Proof.
  unfold AggregatedResult.new, AggregatedResult.__post_init__. simpl.
  destruct (Qle_bool 0 c && Qle_bool c 1) eqn:Ec; simpl; [| discriminate].
  intro H. injection H as <-. apply in_unit_interval_iff in Ec. auto.
Qed.

(** C4, as the code has it: construction of a [WorkerResult] fails exactly
    when the confidence lies outside [0, 1] or the processing time is
    negative, and construction of an [AggregatedResult] fails exactly when the
    confidence lies outside [0, 1]; its processing time is not checked.  A
    record that is constructed holds the values it was given, unclamped, with
    the confidence in [0, 1] (and, for a [WorkerResult], a processing time
    that is not negative). *)
Theorem C4_construction_checks :
  forall (wid : string) (v : pyvalue) (c pt : Q) (st : ResultStatus) (md : metadata_t)
         (tr : string) (rs : list WorkerResult.t) (ws : dict string Q) (m : string),
    (raised (WorkerResult.new wid v c pt st md tr) <-> ~ (0 <= c <= 1) \/ pt < 0)
    /\ (forall r, WorkerResult.new wid v c pt st md tr = Returns r ->
                  WorkerResult.confidence r = c /\ WorkerResult.processing_time_ms r = pt
                  /\ 0 <= WorkerResult.confidence r <= 1
                  /\ 0 <= WorkerResult.processing_time_ms r)
    /\ (raised (AggregatedResult.new v c rs ws m pt md) <-> ~ (0 <= c <= 1))
    /\ (forall r, AggregatedResult.new v c rs ws m pt md = Returns r ->
                  AggregatedResult.confidence r = c
                  /\ AggregatedResult.processing_time_ms r = pt
                  /\ 0 <= AggregatedResult.confidence r <= 1).
Proof.
  intros. split; [apply WorkerResult_new_raised |].
  split.
  - intros r H. apply WorkerResult_new_Returns in H. destruct H as (-> & Hc & Hp).
    simpl. auto.
  - split; [apply AggregatedResult_new_raised |].
    intros r H. apply AggregatedResult_new_Returns in H. destruct H as (-> & Hc).
    simpl. auto.
Qed.

(** C4 as stated fails: an [AggregatedResult] with a negative processing time
    (and a confidence of 1/2) is constructed, not rejected. *)
Lemma C4_negative_time_is_accepted :
  ~ (raised (AggregatedResult.new VNone (1 # 2) [] [] "median" (-1) [])
     <-> (~ (0 <= 1 # 2 <= 1) \/ -1 < 0)).
Proof.
  intros [_ H].
  assert (R : raised (AggregatedResult.new VNone (1 # 2) [] [] "median" (-1) [])).
  { apply H. right. lra. }
  destruct R as [e R]. vm_compute in R. discriminate.
Qed.

(** ** Dictionaries keyed by strings *)

Section StringDict.
Variable V : Type.
Implicit Types (d : dict string V) (k : string) (v : V).

Lemma dict_get_set_same d k v : dict_get String.eqb (dict_set String.eqb d k v) k = Some v.
Proof.
  induction d as [| [k' v'] d IH]; simpl.
  - rewrite String.eqb_refl. reflexivity.
  - destruct (String.eqb k' k) eqn:E; simpl; rewrite E; auto.
Qed.

Lemma dict_get_set_other d k k' v :
  k' <> k -> dict_get String.eqb (dict_set String.eqb d k v) k' = dict_get String.eqb d k'.
Proof.
  intro Hne. induction d as [| [k0 v0] d IH]; simpl.
  - destruct (String.eqb k k') eqn:E; [apply String.eqb_eq in E; congruence | reflexivity].
  - destruct (String.eqb k0 k) eqn:E; simpl.
    + apply String.eqb_eq in E. subst k0.
      destruct (String.eqb k k') eqn:E'; [apply String.eqb_eq in E'; congruence | reflexivity].
    + rewrite IH. reflexivity.
Qed.

Lemma dict_len_set_present d k v :
  dict_mem String.eqb d k = true -> dict_len (dict_set String.eqb d k v) = dict_len d.
Proof.
  unfold dict_mem, dict_len. induction d as [| [k' v'] d IH]; simpl.
  - discriminate.
  - destruct (String.eqb k' k) eqn:E; simpl; [reflexivity |].
    intro H. rewrite IH; auto.
Qed.

Lemma dict_len_set_absent d k v :
  dict_mem String.eqb d k = false -> dict_len (dict_set String.eqb d k v) = S (dict_len d).
Proof.
  unfold dict_mem, dict_len. induction d as [| [k' v'] d IH]; simpl.
  - reflexivity.
  - destruct (String.eqb k' k) eqn:E; simpl; [discriminate |].
    intro H. rewrite IH; auto.
Qed.

Lemma dict_keys_set_present d k v :
  dict_mem String.eqb d k = true -> dict_keys (dict_set String.eqb d k v) = dict_keys d.
Proof.
  unfold dict_mem, dict_keys. induction d as [| [k' v'] d IH]; simpl.
  - discriminate.
  - destruct (String.eqb k' k) eqn:E; simpl; [reflexivity |].
    intro H. rewrite IH; auto.
Qed.

Lemma dict_keys_set_absent d k v :
  dict_mem String.eqb d k = false ->
  dict_keys (dict_set String.eqb d k v) = (dict_keys d ++ [k])%list.
Proof.
  unfold dict_mem, dict_keys. induction d as [| [k' v'] d IH]; simpl.
  - reflexivity.
  - destruct (String.eqb k' k) eqn:E; simpl; [discriminate |].
    intro H. rewrite IH; auto.
Qed.

Lemma dict_mem_in_keys d k : dict_mem String.eqb d k = true <-> In k (dict_keys d).
Proof.
  unfold dict_mem, dict_keys. induction d as [| [k' v'] d IH]; simpl.
  - split; [discriminate | tauto].
  - destruct (String.eqb k' k) eqn:E.
    + apply String.eqb_eq in E. split; auto.
    + rewrite IH. apply String.eqb_neq in E. split; [auto | intros [H | H]; [congruence | auto]].
Qed.

Lemma dict_keys_set_NoDup d k v :
  NoDup (dict_keys d) -> NoDup (dict_keys (dict_set String.eqb d k v)).
Proof.
  intro H. destruct (dict_mem String.eqb d k) eqn:E.
  - rewrite dict_keys_set_present; assumption.
  - rewrite dict_keys_set_absent by assumption.
    apply NoDup_app; [assumption | constructor; [intros [] | constructor] |].
    intros x Hx [<- | []]. apply dict_mem_in_keys in Hx. congruence.
Qed.

End StringDict.

(** ** The registry *)

(** C10: registering a worker whose id is already in the registry replaces the
    worker stored under that id and leaves the number of registered workers
    (and their ids, in their order) unchanged; [register_worker] is a total
    function, it has no failing path. *)
Theorem C10_register_replaces (pool : WorkerPool.t) (w : Worker.t) :
  dict_mem String.eqb (WorkerPool.workers pool) (Worker.worker_id w) = true ->
  let pool' := WorkerPool.register_worker pool w in
  WorkerPool.get_worker pool' (Worker.worker_id w) = Some w
  /\ dict_len (WorkerPool.workers pool') = dict_len (WorkerPool.workers pool)
  /\ dict_keys (WorkerPool.workers pool') = dict_keys (WorkerPool.workers pool)
  /\ (forall wid, wid <> Worker.worker_id w ->
        WorkerPool.get_worker pool' wid = WorkerPool.get_worker pool wid).
Proof.
  intros Hmem pool'. unfold pool', WorkerPool.get_worker, WorkerPool.register_worker. simpl.
  repeat split.
  - apply dict_get_set_same.
  - apply dict_len_set_present. exact Hmem.
  - apply dict_keys_set_present. exact Hmem.
  - intros wid Hne. apply dict_get_set_other. exact Hne.
Qed.

Lemma C10_register_replaces_witness :
  dict_mem String.eqb (WorkerPool.workers mixed_pool) "on" = true
  /\ WorkerPool.get_worker
       (WorkerPool.register_worker mixed_pool (constant_worker "on" true 5 (VNum 9) 1)) "on"
     = Some (constant_worker "on" true 5 (VNum 9) 1)
  /\ dict_len
       (WorkerPool.workers
          (WorkerPool.register_worker mixed_pool (constant_worker "on" true 5 (VNum 9) 1)))
     = dict_len (WorkerPool.workers mixed_pool).
Proof.
  split; [reflexivity |].
  destruct (@C10_register_replaces mixed_pool (constant_worker "on" true 5 (VNum 9) 1) eq_refl)
    as (H1 & H2 & _).
  split; [exact H1 | exact H2].
Defined.

(** ** The Bayesian update *)

Module LearnerFacts.
Import BayesianWeightLearner.

Lemma updated_weight_floor (l : t) (cur : Q) (m : PerformanceMetric.t) :
  min_weight l <= updated_weight l cur m.
Proof. unfold updated_weight. apply py_max_ge_r. Qed.

Lemma update_weight_min_weight (l : t) (wid : string) (m : PerformanceMetric.t) :
  min_weight (fst (update_weight l wid m)) = min_weight l.
Proof. reflexivity. Qed.

Lemma update_weight_stores (l : t) (wid : string) (m : PerformanceMetric.t) :
  get_weight (fst (update_weight l wid m)) wid = snd (update_weight l wid m).
Proof.
  unfold get_weight, update_weight, dict_get_default. simpl.
  rewrite dict_get_set_same. reflexivity.
Qed.

Lemma update_weight_floored (l : t) (wid : string) (m : PerformanceMetric.t) :
  floored l -> floored (fst (update_weight l wid m)).
Proof.
  intros Hl k w. unfold update_weight. simpl.
  destruct (string_dec k wid) as [-> | Hne].
  - rewrite dict_get_set_same. intro H. injection H as <-. apply updated_weight_floor.
  - rewrite dict_get_set_other by assumption. apply Hl.
Qed.

Lemma update_weight_snd (l : t) (wid : string) (m : PerformanceMetric.t) :
  snd (update_weight l wid m) = updated_weight l (get_weight l wid) m.
Proof. reflexivity. Qed.

Lemma update_weight_config (l : t) (wid : string) (m : PerformanceMetric.t) :
  alpha (fst (update_weight l wid m)) = alpha l
  /\ confidence_scaling (fst (update_weight l wid m)) = confidence_scaling l.
Proof. split; reflexivity. Qed.

(** Without confidence scaling and above the floor, the update is the moving
    average of the rule. *)
Lemma updated_weight_unscaled (l : t) (cur : Q) (m : PerformanceMetric.t) (a c acc : Q) :
  confidence_scaling l = false ->
  alpha l == a -> cur == c -> PerformanceMetric.accuracy m == acc ->
  min_weight l <= c * (1 - a) + acc * a ->
  updated_weight l cur m == c * (1 - a) + acc * a.
Proof.
  intros Hs Ha Hc Hacc Hfloor. unfold updated_weight, py_max. rewrite Hs.
  destruct (Qlt_bool _ (min_weight l)) eqn:E.
  - apply Qlt_bool_iff in E. rewrite Ha, Hc, Hacc in E. exfalso. lra.
  - rewrite Ha, Hc, Hacc. reflexivity.
Qed.

Lemma update_all_floored (obs : list (string * PerformanceMetric.t)) (l : t) :
  floored l -> floored (update_all l obs) /\ min_weight (update_all l obs) = min_weight l.
Proof.
  unfold update_all. revert l.
  induction obs as [| [wid m] obs IH]; intros l Hl; simpl.
  - auto.
  - destruct (IH (fst (update_weight l wid m)) (update_weight_floored wid m Hl)) as [H1 H2].
    split; [exact H1 | exact (eq_trans H2 eq_refl)].
Qed.

Lemma new_floored (a p mw : Q) (cs : bool) (l : t) :
  __init__ a p mw cs = Returns l -> floored l /\ min_weight l = mw.
Proof.
  unfold __init__. destruct (negb _); [discriminate |].
  destruct (Qle_bool p 0); [discriminate |].
  intro H. injection H as <-. split; [| reflexivity].
  intros k w. simpl. discriminate.
Qed.

End LearnerFacts.

(** ** The update rule, exactly and in binary64 *)

Module Binary64Facts.
Import Floats.

(** No float is smaller than itself, [nan] included. *)
Lemma ltb_irrefl (x : float) : ltb x x = false.
Proof.
  rewrite ltb_spec. unfold SFltb.
  destruct (SFcompare (Prim2SF x) (Prim2SF x)) as [[| |] |] eqn:E; try reflexivity.
  exfalso. revert E. generalize (Prim2SF x). intros s.
  destruct s as [[|] | [|] | | [|] m e]; simpl; try discriminate.
  all: rewrite ?Z.compare_refl, ?Pos.compare_refl; simpl; try discriminate.
  all: rewrite ?Pos.compare_cont_refl; try discriminate.
Qed.

(** [max(a, b) < b] is false. *)
Lemma py_max_floor (a b : float) : ltb (Binary64.py_max a b) b = false.
Proof.
  unfold Binary64.py_max. destruct (ltb a b) eqn:E; [apply ltb_irrefl | exact E].
Qed.

End Binary64Facts.

Section UpdateRule.
Import PrimFloat.
#[local] Set Warnings "-inexact-float".

(** C3, as the code has it.  In exact arithmetic a learner built with
    [alpha = 0.2], [prior_weight = 1.0] and confidence scaling off (and a floor
    of at most 0.82, as the default 0.01 is) moves the weight of a worker from
    1.0 to 0.9 on one observation of accuracy 0.5 and to 0.82 on a second one;
    and whatever the configuration and the observations, every weight a
    learner has stored after any run of updates, and every weight an update
    returns, is at least [min_weight].  In binary64 the first update gives the
    double 0.9 and the second the double 0.8200000000000001; the floor holds
    there too: no update gives a weight that is smaller than [min_weight]. *)
Theorem C3_bayesian_update :
  (forall (mw : Q) (wid : string) (m1 m2 : PerformanceMetric.t),
      mw <= 0.82 ->
      PerformanceMetric.accuracy m1 == 0.5 ->
      PerformanceMetric.accuracy m2 == 0.5 ->
      exists l0,
        BayesianWeightLearner.__init__ 0.2 1 mw false = Returns l0
        /\ BayesianWeightLearner.get_weight l0 wid == 1
        /\ let (l1, w1) := BayesianWeightLearner.update_weight l0 wid m1 in
           w1 == 0.9 /\ BayesianWeightLearner.get_weight l1 wid == 0.9
           /\ let (l2, w2) := BayesianWeightLearner.update_weight l1 wid m2 in
              w2 == 0.82 /\ BayesianWeightLearner.get_weight l2 wid == 0.82)
  /\ (forall (a p mw : Q) (cs : bool) (l0 : BayesianWeightLearner.t)
             (obs : list (string * PerformanceMetric.t)),
         BayesianWeightLearner.__init__ a p mw cs = Returns l0 ->
         (forall wid w,
             dict_get String.eqb
               (BayesianWeightLearner.weights (BayesianWeightLearner.update_all l0 obs)) wid
             = Some w ->
             mw <= w)
         /\ (forall wid m,
                mw <= snd (BayesianWeightLearner.update_weight
                             (BayesianWeightLearner.update_all l0 obs) wid m)))
  /\ (forall c1 c2 : float,
         eqb (Binary64.updated_weight 0.2 0.01 false 1 c1 0.5) 0.9 = true
         /\ eqb (Binary64.updated_weight 0.2 0.01 false
                   (Binary64.updated_weight 0.2 0.01 false 1 c1 0.5) c2 0.5)
              0.8200000000000001 = true)
  /\ (forall (alpha min_weight : float) (confidence_scaling : bool)
             (current_weight confidence accuracy : float),
         ltb (Binary64.updated_weight alpha min_weight confidence_scaling
                current_weight confidence accuracy) min_weight = false).
Proof.
  split; [| split; [| split]].
  - intros mw wid m1 m2 Hmw Ha1 Ha2.
    eexists. split; [reflexivity |].
    split; [reflexivity |].
    set (l0 := BayesianWeightLearner.make 0.2 1 mw false [] [] []).
    pose proof (LearnerFacts.update_weight_stores l0 wid m1) as S1.
    pose proof (LearnerFacts.update_weight_snd l0 wid m1) as V1.
    destruct (BayesianWeightLearner.update_weight l0 wid m1) as [l1 w1] eqn:U1.
    simpl in S1, V1.
    assert (E1 : w1 == 0.9).
    { rewrite V1.
      rewrite (@LearnerFacts.updated_weight_unscaled l0 _ m1 0.2 1 0.5);
        try reflexivity; try assumption; simpl; lra. }
    split; [exact E1 |].
    split; [rewrite S1; exact E1 |].
    pose proof (LearnerFacts.update_weight_stores l1 wid m2) as S2.
    pose proof (LearnerFacts.update_weight_snd l1 wid m2) as V2.
    assert (C1 : BayesianWeightLearner.alpha l1 = 0.2
                 /\ BayesianWeightLearner.confidence_scaling l1 = false
                 /\ BayesianWeightLearner.min_weight l1 = mw).
    { replace l1 with (fst (BayesianWeightLearner.update_weight l0 wid m1))
        by (rewrite U1; reflexivity).
      repeat split. }
    destruct C1 as (Ca & Cs & Cm).
    destruct (BayesianWeightLearner.update_weight l1 wid m2) as [l2 w2] eqn:U2.
    simpl in S2, V2.
    assert (E2 : w2 == 0.82).
    { rewrite V2.
      rewrite (@LearnerFacts.updated_weight_unscaled l1 _ m2 0.2 0.9 0.5);
        try assumption.
      - lra.
      - rewrite Ca. reflexivity.
      - rewrite S1. exact E1.
      - rewrite Cm. lra. }
    split; [exact E2 | rewrite S2; exact E2].
  - intros a p mw cs l0 obs Hnew.
    destruct (LearnerFacts.new_floored _ _ _ _ Hnew) as [Hf Hmw].
    destruct (LearnerFacts.update_all_floored obs Hf) as [Hf' Hmw'].
    split.
    + intros wid w Hget. rewrite <- Hmw, <- Hmw'. exact (Hf' wid w Hget).
    + intros wid m. rewrite <- Hmw, <- Hmw'.
      unfold BayesianWeightLearner.update_weight. simpl.
      apply LearnerFacts.updated_weight_floor.
  - intros c1 c2. split; vm_compute; reflexivity.
  - intros. unfold Binary64.updated_weight. apply Binary64Facts.py_max_floor.
Qed.

Lemma C3_bayesian_update_witness :
  0.01 <= 0.82
  /\ exists l0,
      BayesianWeightLearner.__init__ 0.2 1 0.01 false = Returns l0
      /\ BayesianWeightLearner.get_weight l0 "w" == 1
      /\ let (l1, w1) :=
           BayesianWeightLearner.update_weight l0 "w"
             (PerformanceMetric.make "w" (VNum 1) (VNum 2) 1 0.5) in
         w1 == 0.9 /\ BayesianWeightLearner.get_weight l1 "w" == 0.9
         /\ let (l2, w2) :=
              BayesianWeightLearner.update_weight l1 "w"
                (PerformanceMetric.make "w" (VNum 1) (VNum 2) 1 0.5) in
            w2 == 0.82 /\ BayesianWeightLearner.get_weight l2 "w" == 0.82.
Proof.
  assert (H : 0.01 <= 0.82) by (unfold Qle; simpl; lia).
  split; [exact H |].
  apply (proj1 C3_bayesian_update 0.01 "w"
           (PerformanceMetric.make "w" (VNum 1) (VNum 2) 1 0.5)
           (PerformanceMetric.make "w" (VNum 1) (VNum 2) 1 0.5) H);
    reflexivity.
Defined.

(** C3 as stated fails on the floats of the code: after the second
    observation the weight is not the double 0.82 but the next one above it. *)
Lemma C3_second_update_is_not_0_82 :
  eqb (Binary64.updated_weight 0.2 0.01 false
         (Binary64.updated_weight 0.2 0.01 false 1 1 0.5) 1 0.5)
    0.82 = false
  /\ ltb 0.82
       (Binary64.updated_weight 0.2 0.01 false
          (Binary64.updated_weight 0.2 0.01 false 1 1 0.5) 1 0.5) = true.
Proof. split; vm_compute; reflexivity. Qed.

End UpdateRule.

(** ** Worker.execute *)

Module WorkerFacts.
Import Worker.

Lemma execute_handler_Returns (w : t) (trace_id : string) (t_start t_err : Q) (e : exn) :
  t_start <= t_err ->
  snd (execute_handler w trace_id t_start t_err e)
  = Returns (failed_result w trace_id t_start t_err e (S (failure_count w))).
Proof.
  intro Hclock. unfold execute_handler. simpl.
  apply WorkerResult_new_ok; lra.
Qed.

(** The handler marks the worker as failed and counts the failure. *)
Lemma execute_handler_state (w : t) (trace_id : string) (t_start t_err : Q) (e : exn) :
  status (fst (execute_handler w trace_id t_start t_err e)) = WorkerStatus.FAILED
  /\ failure_count (fst (execute_handler w trace_id t_start t_err e)) = S (failure_count w).
Proof. split; reflexivity. Qed.

(** An exception that derives from [Exception] enters the handler. *)
Lemma execute_except_caught (w : t) (trace_id : string) (t_start t_err : Q) (e : exn) :
  is_Exception e = true ->
  execute_except w trace_id t_start t_err e = execute_handler w trace_id t_start t_err e.
Proof. intro H. unfold execute_except. rewrite H. reflexivity. Qed.

(** Any other exception leaves [execute], and the worker as it is. *)
Lemma execute_except_escapes (w : t) (trace_id : string) (t_start t_err : Q) (e : exn) :
  is_Exception e = false ->
  execute_except w trace_id t_start t_err e = (w, Raises e).
Proof. intro H. unfold execute_except. rewrite H. reflexivity. Qed.

Lemma execute_except_worker_id (w : t) (trace_id : string) (t_start t_err : Q) (e : exn) :
  worker_id (fst (execute_except w trace_id t_start t_err e)) = worker_id w.
Proof. unfold execute_except. destruct (is_Exception e); reflexivity. Qed.

(** The constructor of a result raises nothing but [ValueError]. *)
Lemma WorkerResult_new_Raises (wid : string) (value : pyvalue) (c pt : Q)
  (st : ResultStatus) (md : metadata_t) (tr : string) (e : exn) :
  WorkerResult.new wid value c pt st md tr = Raises e -> is_Exception e = true.
Proof.
  unfold WorkerResult.new, WorkerResult.__post_init__. simpl.
  destruct (negb _); [intro H; injection H as <-; reflexivity |].
  destruct (Qlt_bool pt 0); [intro H; injection H as <-; reflexivity | discriminate].
Qed.

Lemma execute_worker_id (w : t) (data : pyvalue) (trace_id : option string)
  (fresh_uuid : string) (t_start t_ok t_err : Q) :
  worker_id (fst (execute w data trace_id fresh_uuid t_start t_ok t_err)) = worker_id w.
Proof.
  unfold execute. simpl.
  destruct (process w data) as [v | e];
    [| rewrite execute_except_worker_id; reflexivity].
  destruct (get_confidence w data v) as [c | e];
    [| rewrite execute_except_worker_id; reflexivity].
  destruct (WorkerResult.new _ v c _ SUCCESS _ _);
    [reflexivity | rewrite execute_except_worker_id; reflexivity].
Qed.

(** With a clock that does not run backwards [execute] returns a result of
    this worker, which is [SUCCESS] or [FAILED]. *)
Lemma execute_Returns (w : t) (data : pyvalue) (trace_id : option string)
  (fresh_uuid : string) (t_start t_ok t_err : Q) :
  t_start <= t_err ->
  catchable w data ->
  exists r,
    snd (execute w data trace_id fresh_uuid t_start t_ok t_err) = Returns r
    /\ WorkerResult.worker_id r = worker_id w
    /\ (WorkerResult.status r = SUCCESS \/ WorkerResult.status r = FAILED).
Proof.
  intros Herr Hcatch. unfold catchable, fails_with in Hcatch. unfold execute. simpl.
  destruct (process w data) as [v | e] eqn:Hp.
  - destruct (get_confidence w data v) as [c | e] eqn:Hc.
    + destruct (WorkerResult.new _ v c _ SUCCESS _ _) as [r | e] eqn:Hnew.
      * apply WorkerResult_new_Returns in Hnew. destruct Hnew as (-> & _).
        simpl. eexists. split; [reflexivity |]. simpl. auto.
      * rewrite execute_except_caught by exact (WorkerResult_new_Raises _ _ _ _ _ _ _ Hnew).
        rewrite execute_handler_Returns by exact Herr.
        eexists. split; [reflexivity |]. simpl. auto.
    + rewrite execute_except_caught
        by (apply Hcatch; right; exists v; split; [reflexivity | exact Hc]).
      rewrite execute_handler_Returns by exact Herr.
      eexists. split; [reflexivity |]. simpl. auto.
  - rewrite execute_except_caught by (apply Hcatch; left; reflexivity).
    rewrite execute_handler_Returns by exact Herr.
    eexists. split; [reflexivity |]. simpl. auto.
Qed.

(** [execute] leaves the two methods of the worker alone. *)
Lemma execute_methods (w : t) (data : pyvalue) (trace_id : option string)
  (fresh_uuid : string) (t_start t_ok t_err : Q) :
  process (fst (execute w data trace_id fresh_uuid t_start t_ok t_err)) = process w
  /\ get_confidence (fst (execute w data trace_id fresh_uuid t_start t_ok t_err))
     = get_confidence w.
Proof.
  unfold execute, execute_except. simpl.
  destruct (process w data) as [v | e]; [| destruct (is_Exception e); split; reflexivity].
  destruct (get_confidence w data v) as [c | e];
    [| destruct (is_Exception e); split; reflexivity].
  destruct (WorkerResult.new _ v c _ SUCCESS _ _) as [r | e];
    [| destruct (is_Exception e)]; split; reflexivity.
Qed.

Lemma execute_catchable (w : t) (data data' : pyvalue) (trace_id : option string)
  (fresh_uuid : string) (t_start t_ok t_err : Q) :
  catchable w data' ->
  catchable (fst (execute w data trace_id fresh_uuid t_start t_ok t_err)) data'.
Proof.
  destruct (execute_methods w data trace_id fresh_uuid t_start t_ok t_err) as [Hp Hc].
  unfold catchable, fails_with. rewrite Hp, Hc. auto.
Qed.

(** What [execute] gives, whatever the clock and the worker: a [SUCCESS] or
    [FAILED] result, or an exception that is not a [TimeoutError]. *)
Lemma execute_outcome (w : t) (data : pyvalue) (trace_id : option string)
  (fresh_uuid : string) (t_start t_ok t_err : Q) :
  match snd (execute w data trace_id fresh_uuid t_start t_ok t_err) with
  | Returns r => WorkerResult.status r = SUCCESS \/ WorkerResult.status r = FAILED
  | Raises e => e <> TimeoutError
  end.
Proof.
  assert (H : forall self tr e,
             match snd (execute_except self tr t_start t_err e) with
             | Returns r => WorkerResult.status r = SUCCESS \/ WorkerResult.status r = FAILED
             | Raises e' => e' <> TimeoutError
             end).
  { intros self tr e. unfold execute_except.
    destruct (is_Exception e) eqn:E.
    - unfold execute_handler. cbn [snd].
      destruct (WorkerResult.new _ VNone 0 _ FAILED _ tr) as [r | e'] eqn:Hnew.
      + apply WorkerResult_new_Returns in Hnew. destruct Hnew as (-> & _). right. reflexivity.
      + intros ->. revert Hnew.
        unfold WorkerResult.new, WorkerResult.__post_init__. simpl.
        destruct (Qlt_bool _ 0); discriminate.
    - cbn [snd]. intros ->. discriminate. }
  unfold execute. simpl.
  destruct (process w data) as [v | e]; [| apply H].
  destruct (get_confidence w data v) as [c | e]; [| apply H].
  destruct (WorkerResult.new _ v c _ SUCCESS _ _) as [r | e] eqn:Hnew; [| apply H].
  apply WorkerResult_new_Returns in Hnew. destruct Hnew as (-> & _). left. reflexivity.
Qed.

End WorkerFacts.

(** C1, as the code has it: with a clock that does not run backwards,
    [execute] returns a [WorkerResult] on every worker and every input on
    which [process] and [get_confidence] raise nothing but exceptions that
    derive from [Exception].  When one of them raises, the result is [FAILED]
    with confidence 0, no value and [str(e)] under ["error"] in the metadata;
    when both return and the confidence lies in [0, 1], the result is
    [SUCCESS] with that value and confidence.  (A confidence outside [0, 1]
    makes the constructor raise inside the [try], which the handler turns
    into a [FAILED] result too.)  An exception that does not derive from
    [Exception], such as [KeyboardInterrupt], is not caught: it leaves
    [execute], and the worker [ACTIVE]. *)
Theorem C1_execute_never_raises (w : Worker.t) (data : pyvalue) (trace_id : option string)
  (fresh_uuid : string) (t_start t_ok t_err : Q) :
  t_start <= t_ok -> t_start <= t_err ->
  (catchable w data ->
   exists r,
     snd (Worker.execute w data trace_id fresh_uuid t_start t_ok t_err) = Returns r
     /\ WorkerResult.worker_id r = Worker.worker_id w
     /\ (forall e, fails_with w data e ->
           WorkerResult.status r = FAILED
           /\ WorkerResult.confidence r = 0
           /\ WorkerResult.value r = VNone
           /\ dict_get String.eqb (WorkerResult.metadata r) "error" = Some (MErr "" e))
     /\ (forall v c,
           Worker.process w data = Returns v ->
           Worker.get_confidence w data v = Returns c ->
           (0 <= c <= 1 ->
            WorkerResult.status r = SUCCESS
            /\ WorkerResult.value r = v /\ WorkerResult.confidence r = c)
           /\ (~ (0 <= c <= 1) ->
               WorkerResult.status r = FAILED /\ WorkerResult.confidence r = 0
               /\ WorkerResult.value r = VNone)))
  /\ (forall e,
        fails_with w data e -> is_Exception e = false ->
        snd (Worker.execute w data trace_id fresh_uuid t_start t_ok t_err) = Raises e
        /\ Worker.status (fst (Worker.execute w data trace_id fresh_uuid t_start t_ok t_err))
           = WorkerStatus.ACTIVE).
Proof.
  intros Hok Herr. split.
  - intro Hcatch. unfold catchable in Hcatch. unfold Worker.execute, fails_with in *. simpl.
    destruct (Worker.process w data) as [v | e] eqn:Hp.
    + destruct (Worker.get_confidence w data v) as [c | e] eqn:Hc.
      * destruct (WorkerResult.new _ v c _ SUCCESS _ _) as [r | e] eqn:Hnew.
        -- apply WorkerResult_new_Returns in Hnew. destruct Hnew as (-> & Hrange & _).
           simpl. eexists. split; [reflexivity |]. split; [reflexivity |]. split.
           ++ intros e [H | (v' & H1 & H2)]; [discriminate |].
              injection H1 as <-. rewrite Hc in H2. discriminate.
           ++ intros v' c' H1 H2. injection H1 as <-. rewrite Hc in H2. injection H2 as <-.
              split; [intros _; simpl; auto | intro H; contradiction].
        -- assert (Hbad : ~ (0 <= c <= 1)).
           { pose proof (proj1 (WorkerResult_new_raised _ v c _ SUCCESS _ _)
                           (ex_intro _ e Hnew)) as [H | H]; [exact H |].
             exfalso. lra. }
           rewrite WorkerFacts.execute_except_caught
             by exact (WorkerFacts.WorkerResult_new_Raises _ _ _ _ _ _ _ Hnew).
           rewrite WorkerFacts.execute_handler_Returns by exact Herr.
           eexists. split; [reflexivity |]. split; [reflexivity |]. split.
           ++ intros e' [H | (v' & H1 & H2)]; [discriminate |].
              injection H1 as <-. rewrite Hc in H2. discriminate.
           ++ intros v' c' H1 H2. injection H1 as <-. rewrite Hc in H2. injection H2 as <-.
              split; [intro H; contradiction | intros _; simpl; auto].
      * rewrite WorkerFacts.execute_except_caught
          by (apply Hcatch; right; exists v; split; [reflexivity | exact Hc]).
        rewrite WorkerFacts.execute_handler_Returns by exact Herr.
        eexists. split; [reflexivity |]. split; [reflexivity |]. split.
        -- intros e' [H | (v' & H1 & H2)]; [discriminate |].
           injection H1 as <-. rewrite Hc in H2. injection H2 as <-.
           simpl. auto.
        -- intros v' c' H1 H2. injection H1 as <-. rewrite Hc in H2. discriminate.
    + rewrite WorkerFacts.execute_except_caught by (apply Hcatch; left; reflexivity).
      rewrite WorkerFacts.execute_handler_Returns by exact Herr.
      eexists. split; [reflexivity |]. split; [reflexivity |]. split.
      * intros e' [H | (v' & H1 & H2)]; [| discriminate].
        injection H as <-. simpl. auto.
      * intros v' c' H1. discriminate.
  - intros e Hfails Hbase. unfold Worker.execute. simpl.
    destruct Hfails as [Hp | (v & Hp & Hc)].
    + rewrite Hp. rewrite WorkerFacts.execute_except_escapes by exact Hbase.
      split; reflexivity.
    + rewrite Hp, Hc. rewrite WorkerFacts.execute_except_escapes by exact Hbase.
      split; reflexivity.
Qed.

Lemma C1_execute_never_raises_witness :
  0 <= 1
  /\ (exists r,
        snd (Worker.execute (raising_worker "bad" (Exception "RuntimeError" "boom"))
               VNone None "u" 0 1 1) = Returns r
        /\ WorkerResult.status r = FAILED
        /\ WorkerResult.confidence r = 0
        /\ WorkerResult.value r = VNone
        /\ dict_get String.eqb (WorkerResult.metadata r) "error"
           = Some (MErr "" (Exception "RuntimeError" "boom")))
  /\ (exists r,
        snd (Worker.execute (constant_worker "on" true 30 (VNum 1) 1) VNone None "u" 0 1 1)
        = Returns r
        /\ WorkerResult.status r = SUCCESS
        /\ WorkerResult.value r = VNum 1
        /\ WorkerResult.confidence r = 1)
  /\ snd (Worker.execute (raising_worker "bad" SystemExit) VNone None "u" 0 1 1)
     = Raises SystemExit.
Proof.
  assert (H : 0 <= 1) by (unfold Qle; simpl; lia).
  split; [exact H |]. split; [| split].
  - destruct (proj1 (@C1_execute_never_raises
                       (raising_worker "bad" (Exception "RuntimeError" "boom"))
                       VNone None "u" 0 1 1 H H)) as (r & Hr & _ & Hfail & _).
    + intros e [He | (v & Hv & _)]; [| discriminate].
      injection He as <-. reflexivity.
    + exists r. split; [exact Hr |].
      apply Hfail. left. reflexivity.
  - destruct (proj1 (@C1_execute_never_raises (constant_worker "on" true 30 (VNum 1) 1)
                       VNone None "u" 0 1 1 H H)) as (r & Hr & _ & _ & Hok).
    + intros e [He | (v & _ & He)]; discriminate.
    + exists r. split; [exact Hr |].
      apply (proj1 (Hok (VNum 1) 1 eq_refl eq_refl)).
      split; unfold Qle; simpl; lia.
  - apply (proj2 (@C1_execute_never_raises (raising_worker "bad" SystemExit)
                    VNone None "u" 0 1 1 H H) SystemExit).
    + left. reflexivity.
    + reflexivity.
Defined.

(** C1 as stated fails: [except Exception] does not catch a
    [KeyboardInterrupt] that [process] raises, so [execute] returns no
    result; the exception leaves it. *)
Lemma C1_keyboard_interrupt_escapes :
  ~ (exists r,
        snd (Worker.execute (raising_worker "bad" KeyboardInterrupt) VNone None "u" 0 1 1)
        = Returns r).
Proof.
  intros (r & H). vm_compute in H. discriminate.
Qed.

(** Nor does [execute] return when the clock is set back during the call:
    the processing time is negative then, and the constructor of the
    [FAILED] result raises [ValueError] in the handler. *)
Lemma C1_clock_set_back :
  ~ (exists r,
        snd (Worker.execute (raising_worker "bad" (Exception "RuntimeError" "boom"))
               VNone None "u" 1 0 0)
        = Returns r).
Proof.
  intros (r & H). vm_compute in H. discriminate.
Qed.

(** ** The pool *)

Module PoolFacts.
Import WorkerPool.

Lemma keyed_nil : keyed [].
Proof. intros k w. discriminate. Qed.

Lemma keyed_set (store : dict string Worker.t) (k : string) (w : Worker.t) :
  Worker.worker_id w = k -> keyed store -> keyed (dict_set String.eqb store k w).
Proof.
  intros Hk Hs k' w'. destruct (string_dec k' k) as [-> | Hne].
  - rewrite dict_get_set_same. intro H. injection H as <-. exact Hk.
  - rewrite dict_get_set_other by exact Hne. apply Hs.
Qed.

Lemma register_worker_keyed (pool : t) (w : Worker.t) :
  keyed (workers pool) -> keyed (workers (register_worker pool w)).
Proof. intro H. apply keyed_set; [reflexivity | exact H]. Qed.

Lemma get_active_workers_spec (pool : t) (w : Worker.t) :
  In w (get_active_workers pool)
  <-> In w (dict_values (workers pool)) /\ Worker.is_active w = true.
Proof. unfold get_active_workers. apply filter_In. Qed.

Lemma named_workers_spec (pool : t) (ids : list string) (w : Worker.t) :
  In w (flat_map
          (fun wid =>
             match dict_get String.eqb (workers pool) wid with
             | Some w => [w]
             | None => []
             end) ids)
  <-> exists wid, In wid ids /\ get_worker pool wid = Some w.
Proof.
  rewrite in_flat_map. unfold get_worker. split.
  - intros (wid & Hin & Hw). exists wid. split; [exact Hin |].
    destruct (dict_get String.eqb (workers pool) wid) as [w' |]; [| contradiction].
    destruct Hw as [-> | []]. reflexivity.
  - intros (wid & Hin & Hw). exists wid. split; [exact Hin |].
    rewrite Hw. left. reflexivity.
Qed.

Lemma dict_values_set_In (V : Type) (d : dict string V) (k : string) (v x : V) :
  In x (dict_values (dict_set String.eqb d k v)) -> x = v \/ In x (dict_values d).
Proof.
  unfold dict_values. induction d as [| [k0 v0] d IH]; simpl.
  - intros [H | []]. left. symmetry. exact H.
  - destruct (String.eqb k0 k); simpl.
    + intros [H | H]; [left; symmetry; exact H | right; right; exact H].
    + intros [H | H]; [right; left; exact H |].
      destruct (IH H) as [H' | H']; [left; exact H' | right; right; exact H'].
Qed.

Lemma dict_get_In_values (V : Type) (d : dict string V) (k : string) (v : V) :
  dict_get String.eqb d k = Some v -> In v (dict_values d).
Proof.
  unfold dict_values. induction d as [| [k0 v0] d IH]; simpl; [discriminate |].
  destruct (String.eqb k0 k).
  - intro H. injection H as <-. left. reflexivity.
  - intro H. right. apply IH. exact H.
Qed.

Lemma run_submitted_spec (data : pyvalue) (trace_id : string)
  (tasks : list (Worker.t * timing)) :
  forall store,
    keyed store ->
    well_behaved store data ->
    Forall (fun task => catchable (fst task) data) tasks ->
    Forall (fun task => started (snd task) <= finished (snd task)) tasks ->
    keyed (fst (run_submitted store data trace_id tasks))
    /\ map fut_worker (snd (run_submitted store data trace_id tasks)) = map fst tasks
    /\ Forall settled (snd (run_submitted store data trace_id tasks)).
Proof.
  induction tasks as [| [w tm] tasks IH]; intros store Hk Hwb Hc Hs; simpl.
  - repeat split; [exact Hk | constructor].
  - inversion Hs as [| ? ? Htm Hs']; subst. simpl in Htm.
    inversion Hc as [| ? ? Hcw Hc']; subst. simpl in Hcw.
    set (cur := dict_get_default String.eqb store (Worker.worker_id w) w).
    assert (Hcur : Worker.worker_id cur = Worker.worker_id w).
    { unfold cur, dict_get_default.
      destruct (dict_get String.eqb store (Worker.worker_id w)) eqn:E; [| reflexivity].
      apply Hk in E. exact E. }
    assert (Hcatch : catchable cur data).
    { unfold cur, dict_get_default.
      destruct (dict_get String.eqb store (Worker.worker_id w)) eqn:E; [| exact Hcw].
      apply Hwb. apply dict_get_In_values with (k := Worker.worker_id w). exact E. }
    pose proof (WorkerFacts.execute_worker_id cur data (Some trace_id) trace_id
                  (started tm) (finished tm) (finished tm)) as Hid.
    assert (Hcatch' : catchable (fst (Worker.execute cur data (Some trace_id) trace_id
                                        (started tm) (finished tm) (finished tm))) data)
      by (apply WorkerFacts.execute_catchable; exact Hcatch).
    destruct (@WorkerFacts.execute_Returns cur data (Some trace_id) trace_id
                (started tm) (finished tm) (finished tm) Htm Hcatch)
      as (r & Hr & Hrid & Hst).
    destruct (Worker.execute cur data (Some trace_id) trace_id
                (started tm) (finished tm) (finished tm)) as [w' out].
    simpl in Hid, Hr, Hcatch'. subst out.
    specialize (IH (dict_set String.eqb store (Worker.worker_id w) w')).
    destruct IH as (IH1 & IH2 & IH3).
    { apply keyed_set; [congruence | exact Hk]. }
    { intros x Hx. apply dict_values_set_In in Hx. destruct Hx as [-> | Hx];
        [exact Hcatch' | apply Hwb; exact Hx]. }
    { exact Hc'. }
    { exact Hs'. }
    destruct (run_submitted _ data trace_id tasks) as [store' futs]. simpl in *.
    repeat split.
    + exact IH1.
    + rewrite IH2. reflexivity.
    + constructor; [| exact IH3].
      exists r. simpl. repeat split; [congruence | exact Hst].
Qed.

Lemma insert_completed_perm (f : future) (fs : list future) :
  Permutation (insert_completed f fs) (f :: fs).
Proof.
  induction fs as [| g fs IH]; simpl.
  - apply Permutation_refl.
  - destruct (Qlt_bool (fut_done_at f) (fut_done_at g)).
    + apply Permutation_refl.
    + eapply perm_trans; [apply perm_skip; exact IH | apply perm_swap].
Qed.

Lemma as_completed_perm (fs : list future) : Permutation (as_completed fs) fs.
Proof.
  unfold as_completed. induction fs as [| f fs IH]; simpl.
  - constructor.
  - eapply perm_trans; [apply insert_completed_perm | apply perm_skip; exact IH].
Qed.

(** A future the loop has received has completed: [result] gives its outcome,
    whatever the timeout. *)
Lemma future_result_yielded (now : Q) (f : future) (timeout : Q) :
  future_result (yielded_at now f) f timeout = fut_outcome f.
Proof.
  unfold future_result, yielded_at.
  destruct (Qle_bool (fut_done_at f) (py_max now (fut_done_at f))) eqn:E; [reflexivity |].
  apply Qle_bool_false_iff in E. pose proof (py_max_ge_r now (fut_done_at f)). exfalso. lra.
Qed.

Lemma collect_settled (trace_id : string) (fs : list future) :
  Forall settled fs ->
  forall now,
    exists rs,
      collect trace_id now fs = Returns rs
      /\ map WorkerResult.worker_id rs = map (fun f => Worker.worker_id (fut_worker f)) fs
      /\ Forall2 (fun f r => fut_outcome f = Returns r) fs rs.
Proof.
  induction 1 as [| f fs (r & Hr & Hid & Hst) Hfs IH]; intro now; simpl.
  - exists []. repeat split. constructor.
  - unfold collect_one. rewrite future_result_yielded, Hr. simpl.
    destruct (IH (yielded_at now f)) as (rs & Hrs & Hids & Hall).
    rewrite Hrs. simpl. exists (r :: rs). repeat split.
    + simpl. rewrite Hid, Hids. reflexivity.
    + constructor; assumption.
Qed.

Lemma map_snd_combine_seq (A : Type) (l : list A) (d : timing) (schedule : list timing) :
  forall start,
    map fst
      (map (fun iw : nat * A => (snd iw, nth (fst iw) schedule d))
         (combine (seq start (List.length l)) l))
    = l.
Proof.
  induction l as [| x l IH]; intro start; simpl.
  - reflexivity.
  - rewrite IH. reflexivity.
Qed.

Lemma tasks_sane (A : Type) (l : list A) (d : timing) (schedule : list timing) :
  started d <= finished d -> sane schedule ->
  forall start,
    Forall (fun task : A * timing => started (snd task) <= finished (snd task))
      (map (fun iw : nat * A => (snd iw, nth (fst iw) schedule d))
         (combine (seq start (List.length l)) l)).
Proof.
  intros Hd Hs. induction l as [| x l IH]; intro start; simpl.
  - constructor.
  - constructor; [| apply IH]. simpl.
    destruct (Nat.lt_ge_cases start (List.length schedule)) as [Hlt | Hge].
    + unfold sane in Hs. rewrite Forall_forall in Hs. apply Hs. apply nth_In. exact Hlt.
    + rewrite nth_overflow by exact Hge. exact Hd.
Qed.

Lemma dispatched_in_registry (pool : t) (worker_ids : option (list string)) (w : Worker.t) :
  In w (workers_to_execute pool worker_ids) -> In w (dict_values (workers pool)).
Proof.
  assert (Hactive : In w (get_active_workers pool) -> In w (dict_values (workers pool))).
  { intro H. apply get_active_workers_spec in H. exact (proj1 H). }
  unfold workers_to_execute. destruct worker_ids as [[| wid ids] |]; auto.
  intro Hin. apply (named_workers_spec pool (wid :: ids) w) in Hin.
  destruct Hin as (k & _ & Hget). exact (dict_get_In_values _ _ Hget).
Qed.

(** What [execute_parallel] returns on a pool whose workers are stored under
    their ids and raise nothing but [Exception]s: one result per dispatched
    worker, each the [SUCCESS] or [FAILED] result of that worker's own
    [execute]. *)
Lemma execute_parallel_Returns (pool : t) (data : pyvalue) (worker_ids : option (list string))
  (trace_id : option string) (fresh_uuid : string) (t_submit : Q) (schedule : list timing) :
  keyed (workers pool) -> sane schedule -> well_behaved (workers pool) data ->
  exists rs,
    snd (execute_parallel pool data worker_ids trace_id fresh_uuid t_submit schedule)
    = Returns rs
    /\ Permutation (map WorkerResult.worker_id rs)
         (map Worker.worker_id (workers_to_execute pool worker_ids))
    /\ Forall (fun r => WorkerResult.status r = SUCCESS \/ WorkerResult.status r = FAILED) rs.
Proof.
  intros Hk Hs Hwb. unfold execute_parallel.
  set (tr := match trace_id with None => fresh_uuid | Some s => s end).
  pose proof (fun w => @dispatched_in_registry pool worker_ids w) as Hreg.
  destruct (workers_to_execute pool worker_ids) as [| w0 ws] eqn:Hto.
  - exists []. simpl. repeat split; constructor.
  - rewrite <- Hto. rewrite <- Hto in Hreg. set (todo := workers_to_execute pool worker_ids) in *.
    set (tasks := map _ (combine _ todo)).
    assert (Htasks : map fst tasks = todo) by apply map_snd_combine_seq.
    assert (Hsane : Forall (fun task : Worker.t * timing =>
                              started (snd task) <= finished (snd task)) tasks).
    { apply tasks_sane; [simpl; lra | exact Hs]. }
    assert (Hcatch : Forall (fun task : Worker.t * timing => catchable (fst task) data) tasks).
    { apply Forall_forall. intros task Ht. apply Hwb, Hreg. rewrite <- Htasks.
      apply in_map. exact Ht. }
    destruct (run_submitted_spec tr (tasks := tasks) Hk Hwb Hcatch Hsane) as (_ & Hmap & Hset).
    destruct (run_submitted (workers pool) data tr tasks) as [store futs]. simpl in *.
    assert (Hset' : Forall settled (as_completed futs)).
    { eapply Permutation_Forall; [apply Permutation_sym, as_completed_perm | exact Hset]. }
    destruct (collect_settled tr Hset' t_submit) as (rs & Hrs & Hids & Hall).
    exists rs. split; [exact Hrs |]. split.
    + rewrite Hids, <- Htasks, <- Hmap, map_map.
      apply Permutation_map. apply as_completed_perm.
    + clear Hrs Hids. induction Hall as [| f r fs rs' Hfr Hall IH]; [constructor |].
      inversion Hset' as [| ? ? (r' & Hr' & _ & Hst) Hrest]; subst.
      constructor; [| apply IH; exact Hrest].
      rewrite Hfr in Hr'. injection Hr' as <-. exact Hst.
Qed.

(** Whatever the workers and the schedule, no submitted call gives a
    [TIMEOUT] result or raises a [TimeoutError]. *)
Lemma run_submitted_outcomes (data : pyvalue) (trace_id : string)
  (tasks : list (Worker.t * timing)) :
  forall store,
    Forall
      (fun f =>
         match fut_outcome f with
         | Returns r => WorkerResult.status r = SUCCESS \/ WorkerResult.status r = FAILED
         | Raises e => e <> TimeoutError
         end)
      (snd (run_submitted store data trace_id tasks)).
Proof.
  induction tasks as [| [w tm] tasks IH]; intro store; simpl; [constructor |].
  set (cur := dict_get_default String.eqb store (Worker.worker_id w) w).
  pose proof (WorkerFacts.execute_outcome cur data (Some trace_id) trace_id
                (started tm) (finished tm) (finished tm)) as Hout.
  destruct (Worker.execute cur data (Some trace_id) trace_id
              (started tm) (finished tm) (finished tm)) as [w' out].
  specialize (IH (dict_set String.eqb store (Worker.worker_id w) w')).
  destruct (run_submitted _ data trace_id tasks) as [store' futs]. simpl in *.
  constructor; [exact Hout | exact IH].
Qed.

Lemma collect_no_timeout (trace_id : string) (fs : list future) :
  Forall
    (fun f =>
       match fut_outcome f with
       | Returns r => WorkerResult.status r = SUCCESS \/ WorkerResult.status r = FAILED
       | Raises e => e <> TimeoutError
       end) fs ->
  forall now rs,
    collect trace_id now fs = Returns rs ->
    Forall (fun r => WorkerResult.status r <> TIMEOUT) rs.
Proof.
  induction 1 as [| f fs Hf Hfs IH]; intros now rs; simpl.
  - intro H. injection H as <-. constructor.
  - unfold collect_one. rewrite future_result_yielded.
    assert (Hrest : forall r,
               WorkerResult.status r <> TIMEOUT ->
               (rs0 <- collect trace_id (yielded_at now f) fs ;; Returns (r :: rs0))
               = Returns rs ->
               Forall (fun r => WorkerResult.status r <> TIMEOUT) rs).
    { intros r Hr. destruct (collect trace_id (yielded_at now f) fs) as [rs' | e'] eqn:E;
        simpl; [| discriminate].
      intro H. injection H as <-. constructor; [exact Hr | exact (IH _ _ E)]. }
    destruct (fut_outcome f) as [r | e].
    + cbn [bind]. apply Hrest. destruct Hf as [-> | ->]; discriminate.
    + destruct e; try (exfalso; apply Hf; reflexivity); cbn [is_Exception];
        try (cbn [bind]; discriminate);
        (destruct (WorkerResult.new _ VNone 0 0 FAILED _ trace_id) as [r | e'] eqn:En;
         cbn [bind]; [| discriminate];
         apply WorkerResult_new_Returns in En; destruct En as (-> & _);
         apply Hrest; discriminate).
Qed.

Lemma execute_parallel_no_timeout (pool : t) (data : pyvalue)
  (worker_ids : option (list string)) (trace_id : option string) (fresh_uuid : string)
  (t_submit : Q) (schedule : list timing) (rs : list WorkerResult.t) :
  snd (execute_parallel pool data worker_ids trace_id fresh_uuid t_submit schedule)
  = Returns rs ->
  Forall (fun r => WorkerResult.status r <> TIMEOUT) rs.
Proof.
  unfold execute_parallel.
  set (tr := match trace_id with None => fresh_uuid | Some s => s end).
  destruct (workers_to_execute pool worker_ids) as [| w0 ws].
  - simpl. intro H. injection H as <-. constructor.
  - set (tasks := map _ (combine _ (w0 :: ws))).
    pose proof (run_submitted_outcomes data tr tasks (workers pool)) as Hout.
    destruct (run_submitted (workers pool) data tr tasks) as [store futs]. simpl in *.
    apply collect_no_timeout.
    eapply Permutation_Forall; [apply Permutation_sym, as_completed_perm | exact Hout].
Qed.

Lemma is_active_iff (w : Worker.t) : Worker.is_active w = true <-> active w.
Proof.
  unfold Worker.is_active, active.
  destruct (WorkerConfig.enabled (Worker.config w)); destruct (Worker.status w); simpl;
    split; try discriminate; try (intros (H & _); discriminate);
    try (intros _; repeat split; discriminate);
    intros (_ & H1 & H2); congruence.
Qed.

(** In a registry without duplicate keys every entry is what a lookup of its
    key gives. *)
Lemma keyed_entries (store : dict string Worker.t) :
  keyed store -> NoDup (dict_keys store) ->
  Forall (fun kw => Worker.worker_id (snd kw) = fst kw) store.
Proof.
  intros Hk Hnd. apply Forall_forall. intros [k w] Hin. simpl.
  apply Hk. clear Hk. induction store as [| [k0 w0] store IH]; simpl in *; [contradiction |].
  inversion Hnd as [| ? ? Hnotin Hnd']; subst.
  destruct Hin as [Hin | Hin].
  - injection Hin as -> ->. rewrite String.eqb_refl. reflexivity.
  - destruct (String.eqb k0 k) eqn:E; [| apply IH; assumption].
    apply String.eqb_eq in E. subst k0. exfalso. apply Hnotin.
    unfold dict_keys. change k with (fst (k, w)). apply in_map. exact Hin.
Qed.

(** How often an id occurs among the active workers of the registry. *)
Lemma count_active (store : dict string Worker.t) (wid : string) :
  Forall (fun kw => Worker.worker_id (snd kw) = fst kw) store ->
  NoDup (dict_keys store) ->
  count_occ string_dec
    (map Worker.worker_id (filter Worker.is_active (dict_values store))) wid
  = match dict_get String.eqb store wid with
    | Some w => if Worker.is_active w then 1%nat else 0%nat
    | None => 0%nat
    end.
Proof.
  unfold dict_values, dict_keys.
  induction store as [| [k0 w0] store IH]; intros Hall Hnd; [reflexivity |].
  pose proof (Forall_inv Hall) as Hid. simpl in Hid.
  pose proof (Forall_inv_tail Hall) as Hall'.
  cbn [map fst] in Hnd. apply NoDup_cons_iff in Hnd. destruct Hnd as [Hnotin Hnd'].
  specialize (IH Hall' Hnd'). cbn [map filter snd fst dict_get].
  destruct (String.eqb k0 wid) eqn:E.
  - apply String.eqb_eq in E. subst wid.
    assert (Hnone : dict_get String.eqb store k0 = None).
    { destruct (dict_get String.eqb store k0) eqn:G; [| reflexivity].
      exfalso. apply Hnotin. apply dict_mem_in_keys. unfold dict_mem. rewrite G. reflexivity. }
    rewrite Hnone in IH.
    destruct (Worker.is_active w0); [| exact IH].
    cbn [map]. rewrite count_occ_cons_eq by exact Hid. rewrite IH. reflexivity.
  - apply String.eqb_neq in E.
    destruct (Worker.is_active w0); [| exact IH].
    cbn [map]. rewrite count_occ_cons_neq by congruence. exact IH.
Qed.

(** How often an id occurs among the workers a list of ids names. *)
Lemma count_named (store : dict string Worker.t) (ids : list string) (wid : string) :
  keyed store ->
  count_occ string_dec
    (map Worker.worker_id
       (flat_map
          (fun k =>
             match dict_get String.eqb store k with
             | Some w => [w]
             | None => []
             end) ids)) wid
  = match dict_get String.eqb store wid with
    | Some _ => count_occ string_dec ids wid
    | None => 0%nat
    end.
Proof.
  intro Hk. induction ids as [| k ids IH]; simpl.
  - destruct (dict_get String.eqb store wid); reflexivity.
  - rewrite map_app, count_occ_app, IH.
    destruct (dict_get String.eqb store k) as [w |] eqn:E; simpl.
    + rewrite (Hk _ _ E). destruct (string_dec k wid) as [-> | Hne].
      * rewrite E. reflexivity.
      * destruct (dict_get String.eqb store wid); reflexivity.
    + destruct (string_dec k wid) as [-> | Hne].
      * rewrite E. reflexivity.
      * destruct (dict_get String.eqb store wid); reflexivity.
Qed.

Lemma mixed_pool_keyed : keyed (workers mixed_pool).
Proof. unfold mixed_pool. do 2 apply register_worker_keyed. apply keyed_nil. Qed.

Lemma mixed_pool_NoDup : NoDup (dict_keys (workers mixed_pool)).
Proof.
  simpl. constructor; [intros [H | []]; discriminate |].
  constructor; [intros [] | constructor].
Qed.

Lemma mixed_pool_well_behaved (data : pyvalue) : well_behaved (workers mixed_pool) data.
Proof.
  intros w [<- | [<- | []]] e [H | (v & _ & H)]; discriminate.
Qed.

End PoolFacts.

(** C7, as the code has it: without worker ids ([None] or an empty list)
    [execute_parallel] returns one result for every registered worker that is
    active and none for any other id; with a non-empty list of ids it returns,
    for every registered id, as many results as the list names it, whether
    the worker is active or not, and none for an id that is not registered.
    (The registry holds each worker under its id; no call returns before it
    starts and no worker raises anything but [Exception]s.) *)
Theorem C7_dispatch (pool : WorkerPool.t) (data : pyvalue) (worker_ids : option (list string))
  (trace_id : option string) (fresh_uuid : string) (t_submit : Q) (schedule : list timing) :
  keyed (WorkerPool.workers pool) -> NoDup (dict_keys (WorkerPool.workers pool)) ->
  sane schedule -> well_behaved (WorkerPool.workers pool) data ->
  exists rs,
    snd (WorkerPool.execute_parallel pool data worker_ids trace_id fresh_uuid
           t_submit schedule) = Returns rs
    /\ (worker_ids = None \/ worker_ids = Some [] ->
        forall wid,
          (forall w,
              dict_get String.eqb (WorkerPool.workers pool) wid = Some w -> active w ->
              results_of wid rs = 1%nat)
          /\ ((forall w,
                  dict_get String.eqb (WorkerPool.workers pool) wid = Some w -> ~ active w) ->
              results_of wid rs = 0%nat))
    /\ (forall wid0 ids,
          worker_ids = Some (wid0 :: ids) ->
          forall wid,
            (dict_get String.eqb (WorkerPool.workers pool) wid <> None ->
             results_of wid rs = count_occ string_dec (wid0 :: ids) wid)
            /\ (dict_get String.eqb (WorkerPool.workers pool) wid = None ->
                results_of wid rs = 0%nat)).
Proof.
  intros Hk Hnd Hs Hwb.
  destruct (@PoolFacts.execute_parallel_Returns pool data worker_ids trace_id
              fresh_uuid t_submit schedule Hk Hs Hwb) as (rs & Hrs & Hperm & _).
  exists rs. split; [exact Hrs |].
  assert (Hcount : forall wid,
             results_of wid rs
             = count_occ string_dec
                 (map Worker.worker_id (WorkerPool.workers_to_execute pool worker_ids)) wid).
  { intro wid. unfold results_of.
    apply (proj1 (Permutation_count_occ string_dec _ _) Hperm). }
  split.
  - intros Hnone wid. rewrite Hcount.
    assert (Hto : WorkerPool.workers_to_execute pool worker_ids
                  = WorkerPool.get_active_workers pool)
      by (destruct Hnone as [-> | ->]; reflexivity).
    rewrite Hto. unfold WorkerPool.get_active_workers.
    rewrite PoolFacts.count_active by (try apply PoolFacts.keyed_entries; assumption).
    split.
    + intros w Hw Hact. rewrite Hw.
      apply PoolFacts.is_active_iff in Hact. rewrite Hact. reflexivity.
    + intro Hno. destruct (dict_get String.eqb (WorkerPool.workers pool) wid) as [w |] eqn:E;
        [| reflexivity].
      destruct (Worker.is_active w) eqn:Ea; [| reflexivity].
      exfalso. apply (Hno w eq_refl). apply PoolFacts.is_active_iff. exact Ea.
  - intros wid0 ids -> wid. rewrite Hcount. unfold WorkerPool.workers_to_execute.
    rewrite PoolFacts.count_named by exact Hk.
    split.
    + intro Hreg. destruct (dict_get String.eqb (WorkerPool.workers pool) wid);
        [reflexivity | congruence].
    + intros ->. reflexivity.
Qed.

Lemma C7_dispatch_witness :
  keyed (WorkerPool.workers mixed_pool)
  /\ NoDup (dict_keys (WorkerPool.workers mixed_pool))
  /\ sane [] /\ well_behaved (WorkerPool.workers mixed_pool) VNone
  /\ (exists rs,
        snd (WorkerPool.execute_parallel mixed_pool VNone None None "u" 0 []) = Returns rs
        /\ results_of "on" rs = 1%nat /\ results_of "off" rs = 0%nat)
  /\ (exists rs,
        snd (WorkerPool.execute_parallel mixed_pool VNone (Some ["off"; "off"; "gone"]) None
               "u" 0 []) = Returns rs
        /\ results_of "off" rs = 2%nat /\ results_of "on" rs = 0%nat
        /\ results_of "gone" rs = 0%nat).
Proof.
  assert (Hs : sane []) by constructor.
  split; [exact PoolFacts.mixed_pool_keyed |].
  split; [exact PoolFacts.mixed_pool_NoDup |].
  split; [exact Hs |].
  split; [exact (@PoolFacts.mixed_pool_well_behaved VNone) |].
  split.
  - destruct (@C7_dispatch mixed_pool VNone None None "u" 0 []
                PoolFacts.mixed_pool_keyed PoolFacts.mixed_pool_NoDup Hs
                (@PoolFacts.mixed_pool_well_behaved VNone)) as (rs & Hrs & Hnone & _).
    exists rs. split; [exact Hrs |]. split.
    + apply (proj1 (Hnone (or_introl eq_refl) "on") _ eq_refl).
      repeat split; discriminate.
    + apply (proj2 (Hnone (or_introl eq_refl) "off")).
      intros w Hw. vm_compute in Hw. injection Hw as <-.
      intros (H & _). discriminate.
  - destruct (@C7_dispatch mixed_pool VNone (Some ["off"; "off"; "gone"]) None "u" 0 []
                PoolFacts.mixed_pool_keyed PoolFacts.mixed_pool_NoDup Hs
                (@PoolFacts.mixed_pool_well_behaved VNone)) as (rs & Hrs & _ & Hnamed).
    exists rs. split; [exact Hrs |].
    specialize (Hnamed "off" ["off"; "gone"] eq_refl).
    split; [apply (proj1 (Hnamed "off")); discriminate |].
    split; [apply (proj1 (Hnamed "on")); discriminate |].
    apply (proj2 (Hnamed "gone")). reflexivity.
Defined.

(** C7 as stated fails: a disabled worker that is named in [worker_ids] is
    dispatched and its result returned. *)
Lemma C7_named_disabled_worker_runs :
  ~ (forall rs,
        snd (WorkerPool.execute_parallel mixed_pool VNone (Some ["off"]) (Some "t") "u" 0 [])
        = Returns rs ->
        Forall
          (fun r =>
             exists w,
               WorkerPool.get_worker mixed_pool (WorkerResult.worker_id r) = Some w
               /\ Worker.is_active w = true)
          rs).
Proof.
  intro H.
  destruct (@PoolFacts.execute_parallel_Returns mixed_pool VNone (Some ["off"]) (Some "t") "u"
              0 [])
    as (rs & Hrs & Hperm & _).
  { exact PoolFacts.mixed_pool_keyed. }
  { constructor. }
  { exact (@PoolFacts.mixed_pool_well_behaved VNone). }
  specialize (H rs Hrs).
  simpl in Hperm. apply Permutation_sym, Permutation_length_1_inv in Hperm.
  destruct rs as [| r [| ? ?]]; try discriminate.
  injection Hperm as Hr.
  inversion H as [| ? ? (w & Hw & Hact) _]; subst.
  rewrite Hr in Hw. vm_compute in Hw. injection Hw as <-.
  vm_compute in Hact. discriminate.
Qed.

(** C2, on the code: a worker whose call runs for five seconds under a timeout
    of one second is waited for and reported with its own [SUCCESS] result and
    its own processing time, not with a [TIMEOUT] result; and on no pool and
    under no schedule does [execute_parallel] return a [TIMEOUT] result, since
    the loop asks only completed futures for their result: whenever the call
    returns, no result is a [TIMEOUT], and it does return when the workers are
    stored under their ids, no call returns before it starts and no worker
    raises anything but [Exception]s. *)
Theorem C2_timeout_is_never_reported :
  (exists r,
      snd (WorkerPool.execute_parallel slow_pool VNone None (Some "t") "u" 0
             [Build_timing 0 5]) = Returns [r]
      /\ WorkerResult.worker_id r = "slow"
      /\ WorkerResult.status r = SUCCESS
      /\ WorkerResult.confidence r == 1
      /\ WorkerResult.processing_time_ms r == 5000)
  /\ (forall pool data worker_ids trace_id fresh_uuid t_submit schedule,
         keyed (WorkerPool.workers pool) -> sane schedule ->
         well_behaved (WorkerPool.workers pool) data ->
         exists rs,
           snd (WorkerPool.execute_parallel pool data worker_ids trace_id fresh_uuid
                  t_submit schedule) = Returns rs
           /\ Forall (fun r => WorkerResult.status r <> TIMEOUT) rs)
  /\ (forall pool data worker_ids trace_id fresh_uuid t_submit schedule rs,
         snd (WorkerPool.execute_parallel pool data worker_ids trace_id fresh_uuid
                t_submit schedule) = Returns rs ->
         Forall (fun r => WorkerResult.status r <> TIMEOUT) rs).
Proof.
  split; [| split].
  - eexists. split; [vm_compute; reflexivity |]. simpl. repeat split; reflexivity.
  - intros pool data worker_ids trace_id fresh_uuid t_submit schedule Hk Hs Hwb.
    destruct (@PoolFacts.execute_parallel_Returns pool data worker_ids trace_id
                fresh_uuid t_submit schedule Hk Hs Hwb) as (rs & Hrs & _ & Hst).
    exists rs. split; [exact Hrs |].
    eapply Forall_impl; [| exact Hst].
    intros r [H | H]; rewrite H; discriminate.
  - intros pool data worker_ids trace_id fresh_uuid t_submit schedule rs.
    apply PoolFacts.execute_parallel_no_timeout.
Qed.

(** ** Loops and dictionaries, in general *)

Lemma for_each_Returns (A S : Type) (body : S -> A -> outcome S) (f : S -> A -> S)
  (xs : list A) :
  (forall s x, In x xs -> body s x = Returns (f s x)) ->
  forall s, for_each body xs s = Returns (fold_left f xs s).
Proof.
  induction xs as [| x xs IH]; intros Hbody s; simpl.
  - reflexivity.
  - rewrite Hbody by (left; reflexivity). simpl.
    apply IH. intros s' y Hy. apply Hbody. right. exact Hy.
Qed.

Lemma Qsum_app (l1 l2 : list Q) : Qsum (l1 ++ l2) == Qsum l1 + Qsum l2.
Proof.
  induction l1 as [| x l1 IH]; simpl.
  - lra.
  - rewrite IH. lra.
Qed.

Lemma Qsum_map_div (A : Type) (f : A -> Q) (t : Q) (l : list A) :
  Qsum (map (fun x => f x / t) l) == Qsum (map f l) / t.
Proof.
  induction l as [| x l IH]; simpl.
  - unfold Qdiv. lra.
  - rewrite IH. unfold Qdiv. lra.
Qed.

Lemma Qsum_map_const (A : Type) (c : Q) (l : list A) :
  Qsum (map (fun _ => c) l) == Qlen l * c.
Proof.
  unfold Qlen. induction l as [| x l IH].
  - cbn [map Qsum List.length Z.of_nat]. change (inject_Z 0) with 0. ring.
  - cbn [map Qsum List.length]. rewrite IH, Nat2Z.inj_succ, <- Z.add_1_r, inject_Z_plus.
    change (inject_Z 1) with 1. ring.
Qed.

Lemma Qsum_nonneg (l : list Q) : Forall (fun x => 0 <= x) l -> 0 <= Qsum l.
Proof.
  induction 1 as [| x l Hx Hl IH]; simpl; lra.
Qed.

Lemma Qsum_ge_member (l : list Q) (x : Q) :
  Forall (fun y => 0 <= y) l -> In x l -> x <= Qsum l.
Proof.
  induction 1 as [| y l Hy Hl IH]; simpl; intros Hin; [contradiction |].
  destruct Hin as [-> | Hin].
  - pose proof (Qsum_nonneg Hl). lra.
  - specialize (IH Hin). lra.
Qed.

Lemma Qlen_pos (A : Type) (l : list A) : l <> [] -> 0 < Qlen l.
Proof.
  destruct l as [| x l]; [congruence | intros _].
  unfold Qlen. cbn [List.length]. rewrite Nat2Z.inj_succ.
  change 0 with (inject_Z 0). rewrite <- Zlt_Qlt. lia.
Qed.

Section DictFacts.
Variables K V : Type.
Variable eqb : K -> K -> bool.
Hypothesis eqb_sym : forall a b, eqb a b = eqb b a.
Hypothesis eqb_trans : forall a b c, eqb a b = true -> eqb b c = true -> eqb a c = true.
Implicit Types (d : dict K V) (k : K) (v : V).

Lemma eqb_compat (a b c : K) : eqb a b = true -> eqb c a = eqb c b.
Proof.
  intro Hab. destruct (eqb c b) eqn:E.
  - apply eqb_trans with b; [exact E | rewrite eqb_sym; exact Hab].
  - destruct (eqb c a) eqn:E'; [| reflexivity].
    rewrite (eqb_trans E' Hab) in E. discriminate.
Qed.

Lemma dict_get_compat d k k' :
  eqb k k' = true -> dict_get eqb d k = dict_get eqb d k'.
Proof.
  intro H. induction d as [| [k0 v0] d IH]; simpl; [reflexivity |].
  rewrite (eqb_compat k0 H), IH. reflexivity.
Qed.

Lemma dict_get_set_eq d k k' v :
  eqb k k' = true -> dict_get eqb (dict_set eqb d k v) k' = Some v.
Proof.
  intro H. induction d as [| [k0 v0] d IH]; simpl.
  - rewrite H. reflexivity.
  - destruct (eqb k0 k) eqn:E; simpl.
    + rewrite (eqb_trans E H). reflexivity.
    + rewrite <- (eqb_compat k0 H), E. exact IH.
Qed.

Lemma dict_get_set_neq d k k' v :
  eqb k k' = false -> dict_get eqb (dict_set eqb d k v) k' = dict_get eqb d k'.
Proof.
  intro H. induction d as [| [k0 v0] d IH]; simpl.
  - rewrite H. reflexivity.
  - destruct (eqb k0 k) eqn:E; simpl.
    + destruct (eqb k0 k') eqn:E'; [| reflexivity].
      rewrite eqb_sym in E. rewrite (eqb_trans E E') in H. discriminate.
    + rewrite IH. reflexivity.
Qed.

Lemma dict_mem_keys d k :
  dict_mem eqb d k = existsb (fun k0 => eqb k0 k) (dict_keys d).
Proof.
  unfold dict_mem, dict_keys. induction d as [| [k0 v0] d IH]; simpl; [reflexivity |].
  destruct (eqb k0 k); [reflexivity | exact IH].
Qed.

Lemma dict_keys_set d k v :
  dict_keys (dict_set eqb d k v)
  = if dict_mem eqb d k then dict_keys d else (dict_keys d ++ [k])%list.
Proof.
  unfold dict_mem, dict_keys. induction d as [| [k0 v0] d IH]; simpl; [reflexivity |].
  destruct (eqb k0 k) eqn:E; simpl; [reflexivity |].
  rewrite IH. destruct (dict_get eqb d k); reflexivity.
Qed.

Lemma dict_set_absent d k v :
  dict_mem eqb d k = false -> dict_set eqb d k v = (d ++ [(k, v)])%list.
Proof.
  unfold dict_mem. induction d as [| [k0 v0] d IH]; simpl; [reflexivity |].
  destruct (eqb k0 k) eqn:E; [discriminate |].
  intro H. rewrite IH by exact H. reflexivity.
Qed.

Lemma dict_set_not_nil d k v : dict_set eqb d k v <> [].
Proof.
  destruct d as [| [k0 v0] d]; simpl; [discriminate |].
  destruct (eqb k0 k); discriminate.
Qed.

End DictFacts.

Lemma value_eqb_sym (a b : pyvalue) : value_eqb a b = value_eqb b a.
Proof.
  destruct a, b; simpl; try reflexivity.
  - destruct (Qeq_bool q q0) eqn:E1, (Qeq_bool q0 q) eqn:E2; try reflexivity.
    + apply Qeq_bool_iff in E1. symmetry in E1. apply Qeq_bool_iff in E1. congruence.
    + apply Qeq_bool_iff in E2. symmetry in E2. apply Qeq_bool_iff in E2. congruence.
  - apply String.eqb_sym.
Qed.

Lemma value_eqb_trans (a b c : pyvalue) :
  value_eqb a b = true -> value_eqb b c = true -> value_eqb a c = true.
Proof.
  destruct a, b, c; simpl; try discriminate; try reflexivity.
  - rewrite !Qeq_bool_iff. intros H1 H2. rewrite H1. exact H2.
  - rewrite !String.eqb_eq. congruence.
Qed.

Lemma value_eqb_refl (a : pyvalue) : value_eqb a a = true.
Proof.
  destruct a; simpl; [reflexivity | apply Qeq_bool_iff; reflexivity | apply String.eqb_refl].
Qed.

Lemma string_eqb_trans (a b c : string) :
  String.eqb a b = true -> String.eqb b c = true -> String.eqb a c = true.
Proof. rewrite !String.eqb_eq. congruence. Qed.

(** ** Base and effective weights *)

Module WeightFacts.
Import WeightedAverageAggregation.

Lemma fold_set_get (A V : Type) (key : A -> string) (g : string -> V) (xs : list A) :
  forall d0 k,
    dict_get String.eqb d0 k = Some (g k) \/ In k (map key xs) ->
    dict_get String.eqb
      (fold_left (fun d x => dict_set String.eqb d (key x) (g (key x))) xs d0) k
    = Some (g k).
Proof.
  induction xs as [| x xs IH]; intros d0 k H; simpl.
  - destruct H as [H | []]. exact H.
  - apply IH. destruct (string_dec k (key x)) as [-> | Hne].
    + left. apply dict_get_set_same.
    + destruct H as [H | [H | H]]; [| congruence | right; exact H].
      left. rewrite dict_get_set_other by exact Hne. exact H.
Qed.

Lemma get_weights_lookup (results : list WorkerResult.t) (weights : option (dict string Q))
  (r : WorkerResult.t) :
  In r results ->
  dict_lookup (_get_weights results weights) (WorkerResult.worker_id r)
  = Returns (base_weight_of weights (WorkerResult.worker_id r)).
Proof.
  intro Hin. unfold dict_lookup.
  assert (Hk : In (WorkerResult.worker_id r) (map WorkerResult.worker_id results))
    by (apply in_map; exact Hin).
  assert (H : dict_get String.eqb (_get_weights results weights) (WorkerResult.worker_id r)
              = Some (base_weight_of weights (WorkerResult.worker_id r))).
  { unfold _get_weights, base_weight_of, dict_comp.
    destruct weights as [[| p provided] |].
    - apply (fold_set_get WorkerResult.worker_id (fun _ => 1)). right. exact Hk.
    - apply (fold_set_get WorkerResult.worker_id
               (fun wid => dict_get_default String.eqb (p :: provided) wid 1)).
      right. exact Hk.
    - apply (fold_set_get WorkerResult.worker_id (fun _ => 1)). right. exact Hk. }
  rewrite H. reflexivity.
Qed.

Lemma fold_set_keys_NoDup (A V : Type) (key : A -> string) (val : A -> V) (xs : list A) :
  forall d0 : dict string V,
    NoDup (dict_keys d0) ->
    NoDup (dict_keys (fold_left (fun d x => dict_set String.eqb d (key x) (val x)) xs d0)).
Proof.
  induction xs as [| x xs IH]; intros d0 H; simpl; [exact H |].
  apply IH. apply dict_keys_set_NoDup. exact H.
Qed.

Lemma fold_set_not_nil (A V : Type) (key : A -> string) (val : A -> V) (xs : list A) :
  forall d0 : dict string V,
    d0 <> [] \/ xs <> [] ->
    fold_left (fun d x => dict_set String.eqb d (key x) (val x)) xs d0 <> [].
Proof.
  induction xs as [| x xs IH]; intros d0 H; simpl.
  - destruct H as [H | H]; [exact H | congruence].
  - apply IH. left. apply dict_set_not_nil.
Qed.

(** Assignments under keys that are new and distinct append in order. *)
Lemma fold_set_fresh (A V : Type) (key : A -> string) (val : A -> V) (xs : list A) :
  forall d0 : dict string V,
    NoDup (dict_keys d0 ++ map key xs) ->
    fold_left (fun d x => dict_set String.eqb d (key x) (val x)) xs d0
    = (d0 ++ map (fun x => (key x, val x)) xs)%list.
Proof.
  induction xs as [| x xs IH]; intros d0 H; simpl.
  - rewrite app_nil_r. reflexivity.
  - assert (Hfresh : dict_mem String.eqb d0 (key x) = false).
    { destruct (dict_mem String.eqb d0 (key x)) eqn:E; [| reflexivity].
      apply dict_mem_in_keys in E. simpl in H.
      apply NoDup_remove_2 in H. exfalso. apply H. apply in_or_app. left. exact E. }
    rewrite (dict_set_absent String.eqb d0 (key x) (val x) Hfresh).
    rewrite IH.
    + rewrite <- app_assoc. reflexivity.
    + unfold dict_keys in *. rewrite map_app, <- app_assoc. simpl. exact H.
Qed.

(** The loop of [effective_weights] is the dict comprehension over the valid
    results. *)
Lemma effective_weights_eq (uc : bool) (valid : list WorkerResult.t)
  (weights : option (dict string Q)) :
  effective_weights uc valid (_get_weights valid weights)
  = Returns (dict_comp String.eqb WorkerResult.worker_id (contribution uc weights) valid).
Proof.
  unfold effective_weights, dict_comp.
  apply for_each_Returns. intros s r Hin.
  rewrite get_weights_lookup by exact Hin. simpl.
  unfold contribution. destruct uc; reflexivity.
Qed.

Lemma normalized_weights_eq (eff : dict string Q) :
  NoDup (dict_keys eff) -> eff <> [] ->
  normalized_weights eff = Returns (normalized_of eff).
Proof.
  intros Hnd Hne. unfold normalized_weights, normalized_of.
  destruct (Qlt_bool 0 (Qsum (dict_values eff))) eqn:E.
  - apply Qlt_bool_iff in E.
    rewrite for_each_Returns
      with (f := fun d item =>
                   dict_set String.eqb d (fst item) (snd item / Qsum (dict_values eff))).
    + unfold dict_items.
      rewrite (fold_set_fresh fst (fun item => snd item / Qsum (dict_values eff)));
        [reflexivity | exact Hnd].
    + intros s x _. rewrite truediv_Returns; [reflexivity | lra].
  - pose proof (Qlen_pos Hne) as Hlen.
    rewrite for_each_Returns
      with (f := fun d wid => dict_set String.eqb d wid (1 / Qlen eff)).
    + rewrite (fold_set_fresh (fun k : string => k) (fun _ => 1 / Qlen eff)).
      * unfold dict_keys. rewrite map_map. reflexivity.
      * simpl. rewrite map_id. exact Hnd.
    + intros s x _. rewrite truediv_Returns; [reflexivity | lra].
Qed.

Lemma normalized_of_sum (eff : dict string Q) :
  eff <> [] -> Qsum (dict_values (normalized_of eff)) == 1.
Proof.
  intro Hne. unfold normalized_of, dict_values.
  destruct (Qlt_bool 0 (Qsum (map snd eff))) eqn:E.
  - apply Qlt_bool_iff in E. rewrite map_map. simpl.
    rewrite (Qsum_map_div snd). field. lra.
  - pose proof (Qlen_pos Hne) as Hlen. rewrite map_map. simpl.
    rewrite (Qsum_map_const (1 / Qlen eff) eff). field. lra.
Qed.

Lemma normalized_of_keys (eff : dict string Q) :
  dict_keys (normalized_of eff) = dict_keys eff.
Proof.
  unfold normalized_of, dict_keys.
  destruct (Qlt_bool 0 (Qsum (dict_values eff))); rewrite map_map; reflexivity.
Qed.

Lemma normalized_of_equal (eff : dict string Q) :
  Qsum (dict_values eff) <= 0 ->
  Forall (fun w => w == 1 / Qlen (normalized_of eff)) (dict_values (normalized_of eff)).
Proof.
  intro Htot. unfold normalized_of.
  destruct (Qlt_bool 0 (Qsum (dict_values eff))) eqn:E.
  - apply Qlt_bool_iff in E. exfalso. lra.
  - unfold dict_values, Qlen. rewrite map_map, !length_map. simpl.
    apply Forall_forall. intros w Hw. apply in_map_iff in Hw.
    destruct Hw as (x & <- & _). reflexivity.
Qed.

(** What [weights_of] computes for an input with a valid result. *)
Lemma weights_of_eq (uc : bool) (results : list WorkerResult.t)
  (weights : option (dict string Q)) :
  _filter_valid_results results <> [] ->
  weights_of uc results weights
  = Returns
      (normalized_of
         (dict_comp String.eqb WorkerResult.worker_id (contribution uc weights)
            (_filter_valid_results results))).
Proof.
  intro Hne. unfold weights_of. rewrite effective_weights_eq. simpl.
  apply normalized_weights_eq.
  - apply fold_set_keys_NoDup. constructor.
  - apply fold_set_not_nil. right. exact Hne.
Qed.

(** The filter of the strategies keeps the valid results. *)
Lemma filter_valid_eq (results : list WorkerResult.t) :
  _filter_valid_results results = filter valid_result results.
Proof.
  unfold _filter_valid_results. apply filter_ext. intro r.
  unfold WorkerResult.is_valid, valid_result.
  destruct (WorkerResult.status r); reflexivity.
Qed.

Lemma dict_keys_set_In (V : Type) (d : dict string V) (k k' : string) (v : V) :
  In k (dict_keys (dict_set String.eqb d k' v)) <-> In k (dict_keys d) \/ k = k'.
Proof.
  rewrite <- !dict_mem_in_keys. unfold dict_mem.
  destruct (string_dec k k') as [-> | Hne].
  - rewrite dict_get_set_same. split; auto.
  - rewrite dict_get_set_other by exact Hne. split; [auto | intros [H | H]; congruence].
Qed.

Lemma fold_set_keys_In (A V : Type) (key : A -> string) (val : A -> V) (xs : list A) :
  forall (d0 : dict string V) (k : string),
    In k (dict_keys (fold_left (fun d x => dict_set String.eqb d (key x) (val x)) xs d0))
    <-> In k (dict_keys d0) \/ In k (map key xs).
Proof.
  induction xs as [| x xs IH]; intros d0 k; simpl.
  - tauto.
  - rewrite IH, dict_keys_set_In. split.
    + intros [[H | H] | H]; auto.
    + intros [H | [H | H]]; auto.
Qed.

(** The normalized weights have one entry per valid worker. *)
Lemma comp_keys_valid_worker_ids (V : Type) (val : WorkerResult.t -> V)
  (results : list WorkerResult.t) :
  Permutation
    (dict_keys (dict_comp String.eqb WorkerResult.worker_id val
                  (filter valid_result results)))
    (valid_worker_ids results).
Proof.
  unfold valid_worker_ids, dict_comp. apply NoDup_Permutation.
  - apply fold_set_keys_NoDup. constructor.
  - apply NoDup_nodup.
  - intro k. rewrite fold_set_keys_In, nodup_In. simpl. tauto.
Qed.

End WeightFacts.

(** C5, in exact arithmetic: for every input with at least one valid result
    (status [SUCCESS] and confidence above 0) and every weight map,
    weighted-average aggregation computes normalized weights that sum to 1,
    one per valid worker; when the total effective weight is 0 (or below),
    every valid worker gets the weight 1/n, [n] the number of valid workers.
    The effective weight of a worker is its base weight times its confidence
    (when the valid results come from distinct workers, one entry per
    result). *)
Theorem C5_normalized_weights_sum_to_one (use_confidence : bool)
  (results : list WorkerResult.t) (weights : option (dict string Q)) :
  let valid := filter valid_result results in
  valid <> [] ->
  exists eff nw,
    WeightedAverageAggregation.effective_weights use_confidence valid
      (AggregationStrategy._get_weights valid weights) = Returns eff
    /\ WeightedAverageAggregation.weights_of use_confidence results weights = Returns nw
    /\ Qsum (dict_values nw) == 1
    /\ dict_keys nw = dict_keys eff
    /\ Permutation (dict_keys nw) (valid_worker_ids results)
    /\ (Qsum (dict_values eff) <= 0 ->
        Forall (fun w => w == 1 / Qlen (valid_worker_ids results)) (dict_values nw))
    /\ (NoDup (map WorkerResult.worker_id valid) ->
        eff = map (fun r => (WorkerResult.worker_id r, contribution use_confidence weights r))
                valid
        /\ Qlen nw = Qlen valid).
Proof.
  intros valid Hne. subst valid.
  rewrite <- (WeightFacts.filter_valid_eq results) in *.
  set (valid := AggregationStrategy._filter_valid_results results) in *.
  set (eff := dict_comp String.eqb WorkerResult.worker_id
                (contribution use_confidence weights) valid).
  assert (Heff : eff <> []).
  { unfold eff, dict_comp. apply WeightFacts.fold_set_not_nil. right. exact Hne. }
  assert (Hkeys : Permutation (dict_keys (normalized_of eff)) (valid_worker_ids results)).
  { rewrite WeightFacts.normalized_of_keys. unfold eff, valid.
    rewrite WeightFacts.filter_valid_eq. apply WeightFacts.comp_keys_valid_worker_ids. }
  exists eff, (normalized_of eff).
  split; [apply WeightFacts.effective_weights_eq |].
  split; [apply WeightFacts.weights_of_eq; exact Hne |].
  split; [apply WeightFacts.normalized_of_sum; exact Heff |].
  split; [apply WeightFacts.normalized_of_keys |].
  split; [exact Hkeys |].
  split.
  { intro Htot. pose proof (WeightFacts.normalized_of_equal eff Htot) as Hall.
    assert (Hlen : Qlen (normalized_of eff) = Qlen (valid_worker_ids results)).
    { unfold Qlen. f_equal. f_equal. rewrite <- (Permutation_length Hkeys).
      unfold dict_keys. rewrite length_map. reflexivity. }
    rewrite <- Hlen. exact Hall. }
  intro Hnd.
  assert (E : eff = map (fun r => (WorkerResult.worker_id r,
                                   contribution use_confidence weights r)) valid).
  { unfold eff, dict_comp. rewrite WeightFacts.fold_set_fresh; [reflexivity | exact Hnd]. }
  split; [exact E |].
  unfold Qlen. f_equal. f_equal.
  transitivity (List.length (dict_keys (normalized_of eff))).
  - unfold dict_keys. rewrite length_map. reflexivity.
  - rewrite WeightFacts.normalized_of_keys, E. unfold dict_keys. rewrite !length_map.
    reflexivity.
Qed.

Lemma C5_normalized_weights_sum_to_one_witness :
  filter valid_result two_results <> []
  /\ (exists nw,
        WeightedAverageAggregation.weights_of true two_results None = Returns nw
        /\ Qsum (dict_values nw) == 1
        /\ Permutation (dict_keys nw) ["a"; "b"])
  /\ (exists nw,
        WeightedAverageAggregation.weights_of true two_results (Some [("a", 0); ("b", 0)])
        = Returns nw
        /\ Qsum (dict_values nw) == 1
        /\ Forall (fun w => w == 1 / 2) (dict_values nw)).
Proof.
  assert (H : filter valid_result two_results <> [])
    by (vm_compute; discriminate).
  split; [exact H |]. split.
  - destruct (@C5_normalized_weights_sum_to_one true two_results None H)
      as (eff & nw & _ & Hnw & Hsum & _ & Hkeys & _).
    exists nw. split; [exact Hnw |]. split; [exact Hsum | exact Hkeys].
  - destruct (@C5_normalized_weights_sum_to_one true two_results
                (Some [("a", 0); ("b", 0)]) H)
      as (eff & nw & Heff & Hnw & Hsum & _ & _ & Hequal & _).
    exists nw. split; [exact Hnw |]. split; [exact Hsum |].
    vm_compute in Heff. injection Heff as <-.
    apply Hequal. vm_compute. discriminate.
Defined.

Section NormalizationInBinary64.
Import PrimFloat.
#[local] Set Warnings "-inexact-float".

(** C5 as stated fails on the floats of the code.  Two valid results of
    confidence 1.0 whose workers have the weight 1e308: the total effective
    weight overflows to infinity, both normalized weights are 0.0 and so is
    their sum.  Two valid results of confidence 1.0 whose workers have the
    weights 1.5000000000000004 and -1.4999999999999998: the total is positive
    and the normalized weights sum to 0.75. *)
Lemma C5_weights_do_not_sum_to_one :
  Binary64.normalized_weights
    [Binary64.effective_weight true 1e308 1; Binary64.effective_weight true 1e308 1]
  = [0%float; 0%float]
  /\ ltb 1e-9
       (abs (Binary64.fsum
               (Binary64.normalized_weights
                  [Binary64.effective_weight true 1e308 1;
                   Binary64.effective_weight true 1e308 1]) - 1)) = true
  /\ eqb (Binary64.fsum
            (Binary64.normalized_weights
               [Binary64.effective_weight true 1.5000000000000004 1;
                Binary64.effective_weight true (-1.4999999999999998) 1]))
       0.75 = true.
Proof. repeat split; vm_compute; reflexivity. Qed.

(** The weights that weighted-average aggregation records need not sum to 1
    on the floats of the code either: the effective weights 0.1 and 0.3 give
    the normalized weights 0.25 and 0.7499999999999999, whose sum is
    0.9999999999999999. *)
Lemma recorded_weights_sum_in_binary64 :
  Binary64.normalized_weights [0.1; 0.3]%float = [0.25; 0.7499999999999999]%float
  /\ eqb (Binary64.fsum (Binary64.normalized_weights [0.1; 0.3]%float)) 1 = false
  /\ eqb (Binary64.fsum (Binary64.normalized_weights [0.1; 0.3]%float))
       0.9999999999999999 = true.
Proof. repeat split; vm_compute; reflexivity. Qed.

End NormalizationInBinary64.

(** ** The first maximum and dictionaries with distinct keys *)

Section FirstMax.
Variable A : Type.
Implicit Types (x y : A * Q) (l : list (A * Q)).

Lemma max_fold_first_max (rest : list (A * Q)) :
  forall before best after,
    (forall y, In y before -> snd y < snd best) ->
    (forall y, In y after -> snd y <= snd best) ->
    first_max (before ++ best :: after ++ rest) (fold_left max_step rest best).
Proof.
  induction rest as [| z rest IH]; intros before best after Hb Ha; simpl.
  - rewrite app_nil_r. exists before, after. auto.
  - unfold max_step at 2. destruct (Qlt_bool (snd best) (snd z)) eqn:E.
    + apply Qlt_bool_iff in E.
      replace (before ++ best :: after ++ z :: rest)%list
        with ((before ++ best :: after) ++ z :: [] ++ rest)%list
        by (rewrite <- app_assoc; reflexivity).
      apply IH.
      * intros y Hy. apply in_app_or in Hy. destruct Hy as [Hy | [<- | Hy]].
        -- specialize (Hb y Hy). lra.
        -- exact E.
        -- specialize (Ha y Hy). lra.
      * intros y [].
    + apply Qlt_bool_false_iff in E.
      replace (before ++ best :: after ++ z :: rest)%list
        with (before ++ best :: (after ++ [z]) ++ rest)%list
        by (rewrite <- app_assoc; reflexivity).
      apply IH; [exact Hb |].
      intros y Hy. apply in_app_or in Hy. destruct Hy as [Hy | [<- | []]]; [auto | exact E].
Qed.

Lemma max_by_snd_first_max l :
  l <> [] -> exists w, max_by_snd l = Returns w /\ first_max l w.
Proof.
  destruct l as [| x rest]; [congruence | intros _].
  exists (fold_left max_step rest x). split; [reflexivity |].
  apply (max_fold_first_max rest [] x []); intros y [].
Qed.

End FirstMax.

Section DistinctKeys.
Variables K V : Type.
Variable eqb : K -> K -> bool.
Hypothesis eqb_refl : forall a, eqb a a = true.
Hypothesis eqb_sym : forall a b, eqb a b = eqb b a.
Hypothesis eqb_trans : forall a b c, eqb a b = true -> eqb b c = true -> eqb a c = true.

Lemma distinct_snoc (ks : list K) (k : K) :
  distinct eqb ks -> existsb (fun k0 => eqb k0 k) ks = false -> distinct eqb (ks ++ [k]).
Proof.
  induction ks as [| k0 ks IH]; simpl; intros Hd Hk.
  - auto.
  - apply orb_false_iff in Hk. destruct Hk as [Hk0 Hk]. destruct Hd as [Hd0 Hd].
    split; [| apply IH; assumption].
    rewrite existsb_app, Hd0. simpl. rewrite Hk0. reflexivity.
Qed.

Lemma dict_set_distinct (d : dict K V) (k : K) (v : V) :
  distinct eqb (dict_keys d) -> distinct eqb (dict_keys (dict_set eqb d k v)).
Proof.
  intro Hd. rewrite dict_keys_set. destruct (dict_mem eqb d k) eqn:E; [exact Hd |].
  apply distinct_snoc; [exact Hd |]. rewrite <- dict_mem_keys. exact E.
Qed.

Lemma dict_get_item (d : dict K V) (k : K) (v : V) :
  distinct eqb (dict_keys d) -> In (k, v) d -> dict_get eqb d k = Some v.
Proof.
  induction d as [| [k0 v0] d IH]; simpl; intros Hd Hin; [contradiction |].
  destruct Hd as [Hd0 Hd]. destruct Hin as [Hin | Hin].
  - injection Hin as -> ->. rewrite eqb_refl. reflexivity.
  - destruct (eqb k0 k) eqn:E.
    + exfalso. assert (Hex : existsb (fun k' => eqb k0 k') (dict_keys d) = true).
      { apply existsb_exists. exists k. split; [| exact E].
        unfold dict_keys. change k with (fst (k, v)). apply in_map. exact Hin. }
      congruence.
    + apply IH; assumption.
Qed.

End DistinctKeys.

(** ** Majority voting *)

Module VoteFacts.
Import MajorityVotingAggregation.

Lemma vote_scores_eq (uc : bool) (valid : list WorkerResult.t)
  (weights : option (dict string Q)) :
  vote_scores uc valid (_get_weights valid weights)
  = Returns (votes_from uc weights [] valid).
Proof.
  unfold vote_scores, votes_from. apply for_each_Returns.
  intros s r Hin. unfold score_of.
  rewrite WeightFacts.get_weights_lookup by exact Hin. simpl.
  unfold vote_step, contribution. destruct uc; reflexivity.
Qed.

Lemma votes_from_keys (uc : bool) (weights : option (dict string Q))
  (valid : list WorkerResult.t) :
  forall d0,
    dict_keys (votes_from uc weights d0 valid)
    = first_seen_from (dict_keys d0) (map WorkerResult.value valid).
Proof.
  unfold votes_from, first_seen_from.
  induction valid as [| r valid IH]; intro d0; simpl; [reflexivity |].
  rewrite IH. unfold vote_step. rewrite dict_keys_set, dict_mem_keys.
  destruct (existsb _ (dict_keys d0)); reflexivity.
Qed.

Lemma votes_from_distinct (uc : bool) (weights : option (dict string Q))
  (valid : list WorkerResult.t) :
  forall d0,
    distinct value_eqb (dict_keys d0) ->
    distinct value_eqb (dict_keys (votes_from uc weights d0 valid)).
Proof.
  unfold votes_from.
  induction valid as [| r valid IH]; intros d0 H; simpl; [exact H |].
  apply IH. apply dict_set_distinct. exact H.
Qed.

Lemma votes_from_not_nil (uc : bool) (weights : option (dict string Q))
  (valid : list WorkerResult.t) :
  forall d0, d0 <> [] \/ valid <> [] -> votes_from uc weights d0 valid <> [].
Proof.
  unfold votes_from.
  induction valid as [| r valid IH]; intros d0 H; simpl.
  - destruct H as [H | H]; [exact H | congruence].
  - apply IH. left. apply dict_set_not_nil.
Qed.

Lemma vote_step_get (uc : bool) (weights : option (dict string Q))
  (d : dict pyvalue Q) (r : WorkerResult.t) (v : pyvalue) :
  dict_get_default value_eqb (vote_step uc weights d r) v 0
  == dict_get_default value_eqb d v 0
     + (if value_eqb (WorkerResult.value r) v then contribution uc weights r else 0).
Proof.
  unfold vote_step, dict_get_default.
  destruct (value_eqb (WorkerResult.value r) v) eqn:E.
  - rewrite (@dict_get_set_eq _ _ value_eqb value_eqb_sym value_eqb_trans _ _ _ _ E).
    rewrite (@dict_get_compat _ _ value_eqb value_eqb_sym value_eqb_trans d _ _ E). reflexivity.
  - rewrite (@dict_get_set_neq _ _ value_eqb value_eqb_sym value_eqb_trans _ _ _ _ E). lra.
Qed.

Lemma votes_from_get (uc : bool) (weights : option (dict string Q))
  (valid : list WorkerResult.t) (v : pyvalue) :
  forall d0,
    dict_get_default value_eqb (votes_from uc weights d0 valid) v 0
    == dict_get_default value_eqb d0 v 0 + score uc weights valid v.
Proof.
  unfold votes_from, score.
  induction valid as [| r valid IH]; intro d0; simpl.
  - lra.
  - rewrite IH, vote_step_get.
    destruct (value_eqb (WorkerResult.value r) v); simpl; lra.
Qed.

Lemma vote_step_sum (uc : bool) (weights : option (dict string Q))
  (d : dict pyvalue Q) (r : WorkerResult.t) :
  Qsum (dict_values (vote_step uc weights d r))
  == Qsum (dict_values d) + contribution uc weights r.
Proof.
  unfold vote_step, dict_values, dict_get_default.
  induction d as [| [k0 v0] d IH]; simpl.
  - lra.
  - destruct (value_eqb k0 (WorkerResult.value r)) eqn:E; simpl.
    + lra.
    + rewrite IH. lra.
Qed.

Lemma votes_from_sum (uc : bool) (weights : option (dict string Q))
  (valid : list WorkerResult.t) :
  forall d0,
    Qsum (dict_values (votes_from uc weights d0 valid))
    == Qsum (dict_values d0) + total_score uc weights valid.
Proof.
  unfold votes_from, total_score.
  induction valid as [| r valid IH]; intro d0; simpl.
  - lra.
  - rewrite IH, vote_step_sum. lra.
Qed.

(** Every entry of [vote_scores] holds the score of its value. *)
Lemma votes_item_score (uc : bool) (weights : option (dict string Q))
  (valid : list WorkerResult.t) (v : pyvalue) (q : Q) :
  In (v, q) (votes_from uc weights [] valid) -> q == score uc weights valid v.
Proof.
  intro Hin.
  pose proof (votes_from_get uc weights valid v []) as Hget.
  assert (Hd : distinct value_eqb (dict_keys (votes_from uc weights [] valid)))
    by (apply votes_from_distinct; exact I).
  unfold dict_get_default in Hget at 1.
  rewrite (@dict_get_item _ _ value_eqb value_eqb_refl _ _ _ Hd Hin) in Hget.
  rewrite Hget. unfold dict_get_default. simpl. lra.
Qed.

Lemma Qsum_pos_max (l : list Q) (m : Q) :
  (forall y, In y l -> y <= m) -> 0 < Qsum l -> 0 < m.
Proof.
  intros Hmax Hpos. apply Qnot_le_lt. intro Hm.
  assert (Hle : Qsum l <= 0).
  { clear Hpos. induction l as [| y l IH]; simpl; [lra |].
    assert (y <= m) by (apply Hmax; left; reflexivity).
    assert (Qsum l <= 0) by (apply IH; intros z Hz; apply Hmax; right; exact Hz).
    lra. }
  lra.
Qed.

(** [aggregate] up to the constructor call: the winner is the first entry of
    [vote_scores] with a maximal score. *)
Lemma aggregate_eq (uc : bool) (results : list WorkerResult.t)
  (weights : option (dict string Q)) (t_start t_end : Q) :
  let valid := _filter_valid_results results in
  let votes := votes_from uc weights [] valid in
  valid <> [] ->
  exists w,
    first_max (dict_items votes) w
    /\ aggregate uc results weights t_start t_end
       = AggregatedResult.new (fst w)
           (if Qlt_bool 0 (Qsum (dict_values votes))
            then snd w / Qsum (dict_values votes) else 0)
           results (_get_weights valid weights) "majority_voting"
           ((t_end - t_start) * 1000)
           (vote_metadata uc valid results votes
              (Qlen (agreeing valid (fst w)) / Qlen valid)).
Proof.
  intros valid votes. subst votes valid. unfold aggregate.
  destruct (_filter_valid_results results) as [| r0 valid0] eqn:Hv; [congruence |].
  intros Hne. set (valid := r0 :: valid0) in *.
  set (votes := votes_from uc weights [] valid).
  assert (Hitems : dict_items votes <> []).
  { apply votes_from_not_nil. right. exact Hne. }
  destruct (max_by_snd_first_max Hitems) as (w & Hw & Hfm).
  exists w. split; [exact Hfm |].
  rewrite vote_scores_eq. cbn [bind]. fold votes.
  rewrite Hw. cbn [bind].
  assert (Hconf : confidence_of (snd w) (Qsum (dict_values votes))
                  = Returns (if Qlt_bool 0 (Qsum (dict_values votes))
                             then snd w / Qsum (dict_values votes) else 0)).
  { unfold confidence_of. destruct (Qlt_bool 0 (Qsum (dict_values votes))) eqn:E;
      [| reflexivity].
    apply Qlt_bool_iff in E. apply truediv_Returns. lra. }
  rewrite Hconf. cbn [bind].
  rewrite truediv_Returns; [reflexivity |].
  pose proof (Qlen_pos Hne). lra.
Qed.

(** The first maximal entry of [vote_scores], read on the scores of the
    values in first-seen order. *)
Lemma first_max_scores (uc : bool) (weights : option (dict string Q))
  (valid : list WorkerResult.t) (w : pyvalue * Q) :
  first_max (dict_items (votes_from uc weights [] valid)) w ->
  snd w == score uc weights valid (fst w)
  /\ exists before after,
      first_seen (map WorkerResult.value valid) = (before ++ fst w :: after)%list
      /\ (forall v, In v before -> score uc weights valid v < score uc weights valid (fst w))
      /\ (forall v, In v after -> score uc weights valid v <= score uc weights valid (fst w)).
Proof.
  intros (before & after & Hsplit & Hb & Ha). unfold dict_items in Hsplit.
  assert (Hitem : forall y, In y (votes_from uc weights [] valid) ->
                            snd y == score uc weights valid (fst y)).
  { intros [v q] Hy. apply votes_item_score. exact Hy. }
  assert (Hw : snd w == score uc weights valid (fst w)).
  { apply Hitem. rewrite Hsplit. apply in_or_app. right. left. reflexivity. }
  split; [exact Hw |].
  exists (map fst before), (map fst after). split; [| split].
  - pose proof (votes_from_keys uc weights valid []) as Hk.
    change (dict_keys (@nil (pyvalue * Q))) with (@nil pyvalue) in Hk.
    unfold first_seen. rewrite <- Hk.
    unfold dict_keys. rewrite Hsplit, map_app. reflexivity.
  - intros v Hv. apply in_map_iff in Hv. destruct Hv as (y & <- & Hy).
    rewrite <- Hw, <- (Hitem y).
    + apply Hb. exact Hy.
    + rewrite Hsplit. apply in_or_app. left. exact Hy.
  - intros v Hv. apply in_map_iff in Hv. destruct Hv as (y & <- & Hy).
    rewrite <- Hw, <- (Hitem y).
    + apply Ha. exact Hy.
    + rewrite Hsplit. apply in_or_app. right. right. exact Hy.
Qed.

(** No score exceeds the winner's. *)
Lemma first_max_is_max (A : Type) (l : list (A * Q)) (w : A * Q) :
  first_max l w -> forall y, In y l -> snd y <= snd w.
Proof.
  intros (before & after & -> & Hb & Ha) y Hy.
  apply in_app_or in Hy. destruct Hy as [Hy | [<- | Hy]].
  - specialize (Hb y Hy). lra.
  - lra.
  - apply Ha. exact Hy.
Qed.

Lemma first_max_In (A : Type) (l : list (A * Q)) (w : A * Q) : first_max l w -> In w l.
Proof.
  intros (before & after & -> & _). apply in_or_app. right. left. reflexivity.
Qed.

Lemma contribution_nonneg (uc : bool) (weights : option (dict string Q))
  (results : list WorkerResult.t) (r : WorkerResult.t) :
  In r (_filter_valid_results results) ->
  0 <= base_weight_of weights (WorkerResult.worker_id r) ->
  0 <= contribution uc weights r.
Proof.
  intros Hin Hw. unfold _filter_valid_results in Hin. apply filter_In in Hin.
  destruct Hin as [_ Hvalid]. unfold WorkerResult.is_valid in Hvalid.
  apply andb_true_iff in Hvalid. destruct Hvalid as [_ Hc]. apply Qlt_bool_iff in Hc.
  unfold contribution. destruct uc; [| exact Hw].
  apply Qmult_le_0_compat; lra.
Qed.

End VoteFacts.

(** Majority voting on an input with a valid result: the winner [w] is the
    first-seen value of maximal score; when the total score is not positive,
    or the winner's score does not exceed it (as with weights that are not
    negative), the call returns, with the confidence of the guarded quotient,
    the agreement fraction and the base weights. *)
Lemma majority_vote_spec (uc : bool) (results : list WorkerResult.t)
  (weights : option (dict string Q)) (t_start t_end : Q) :
  let valid := AggregationStrategy._filter_valid_results results in
  let sc := score uc weights valid in
  let total := total_score uc weights valid in
  valid <> [] ->
  exists before w after,
    first_seen (map WorkerResult.value valid) = (before ++ w :: after)%list
    /\ (forall v, In v before -> sc v < sc w)
    /\ (forall v, In v after -> sc v <= sc w)
    /\ ((forall r, In r valid -> 0 <= base_weight_of weights (WorkerResult.worker_id r)) ->
        sc w <= total)
    /\ (total <= 0 \/ sc w <= total ->
        exists a,
          MajorityVotingAggregation.aggregate uc results weights t_start t_end = Returns a
          /\ AggregatedResult.value a = w
          /\ AggregatedResult.weights a = AggregationStrategy._get_weights valid weights
          /\ (0 < total -> AggregatedResult.confidence a == sc w / total)
          /\ (total <= 0 -> AggregatedResult.confidence a == 0)
          /\ exists g,
              dict_get String.eqb (AggregatedResult.metadata a) "agreement" = Some (MNum g)
              /\ g == Qlen (MajorityVotingAggregation.agreeing valid w) / Qlen valid).
Proof.
  intros valid sc total Hne.
  destruct (VoteFacts.aggregate_eq uc results weights t_start t_end Hne) as (w & Hfm & Hagg).
  fold valid in Hfm, Hagg.
  set (votes := votes_from uc weights [] valid) in *.
  destruct (VoteFacts.first_max_scores uc weights valid Hfm)
    as (Hw & before & after & Hsplit & Hb & Ha).
  assert (Htot : Qsum (dict_values votes) == total).
  { unfold votes. rewrite VoteFacts.votes_from_sum. simpl. unfold total. lra. }
  exists before, (fst w), after.
  split; [exact Hsplit |]. split; [exact Hb |]. split; [exact Ha |].
  assert (Hmax : forall q, In q (dict_values votes) -> q <= snd w).
  { intros q Hq. unfold dict_values in Hq. apply in_map_iff in Hq.
    destruct Hq as (y & <- & Hy). exact (VoteFacts.first_max_is_max Hfm y Hy). }
  split.
  - intro Hnonneg. fold sc in Hw. rewrite <- Hw, <- Htot.
    apply Qsum_ge_member.
    + apply Forall_forall. intros q Hq. unfold dict_values in Hq. apply in_map_iff in Hq.
      destruct Hq as ([v q'] & <- & Hy). simpl.
      rewrite (VoteFacts.votes_item_score uc weights valid v q' Hy).
      apply Qsum_nonneg. apply Forall_forall. intros c Hc. apply in_map_iff in Hc.
      destruct Hc as (r & <- & Hr). apply filter_In in Hr. destruct Hr as [Hr _].
      apply VoteFacts.contribution_nonneg with (results := results); [exact Hr |].
      apply Hnonneg. exact Hr.
    + unfold dict_values. apply in_map. exact (VoteFacts.first_max_In Hfm).
  - intro Hcase.
    set (c := if Qlt_bool 0 (Qsum (dict_values votes))
              then snd w / Qsum (dict_values votes) else 0) in *.
    assert (Hc : (0 < total -> c == sc (fst w) / total) /\ (total <= 0 -> c == 0)).
    { unfold c. destruct (Qlt_bool 0 (Qsum (dict_values votes))) eqn:E.
      - apply Qlt_bool_iff in E. split.
        + intros _. rewrite Hw, Htot. reflexivity.
        + intro H. exfalso. lra.
      - apply Qlt_bool_false_iff in E. split.
        + intro H. exfalso. lra.
        + intros _. reflexivity. }
    assert (Hrange : 0 <= c <= 1).
    { destruct (Qlt_le_dec 0 total) as [Hpos | Hnp].
      - rewrite (proj1 Hc Hpos).
        assert (Hwpos : 0 < sc (fst w)).
        { fold sc in Hw. rewrite <- Hw. apply VoteFacts.Qsum_pos_max with (l := dict_values votes).
          - exact Hmax.
          - rewrite Htot. exact Hpos. }
        assert (Hle : sc (fst w) <= total) by (destruct Hcase as [H | H]; [exfalso; lra | exact H]).
        split.
        + apply Qle_shift_div_l; [exact Hpos | lra].
        + apply Qle_shift_div_r; [exact Hpos | lra].
      - rewrite (proj2 Hc Hnp). lra. }
    rewrite (AggregatedResult_new_ok _ _ _ _ _ _ Hrange) in Hagg.
    eexists. split; [exact Hagg |]. simpl.
    split; [reflexivity |]. split; [reflexivity |].
    split; [exact (proj1 Hc) |]. split; [exact (proj2 Hc) |].
    eexists. split; [reflexivity | reflexivity].
Qed.

(** C6, as the code has it and in exact arithmetic: on an input with at least
    one valid result (status [SUCCESS] and confidence above 0), majority
    voting picks the value of maximal score, the first-seen one among equals
    (a value's score is the sum of base weight times confidence over the
    valid results voting for it, the total score the sum over all valid
    results).  It returns confidence [winning_score / total_score] when the
    total score is positive, and 0.0 when it is not (the guard of the
    division); the ["agreement"] entry is the number of valid results whose
    value equals the winner over the number of valid results.  The call
    returns whenever the winner's score does not exceed the total, which is so
    for every weight map without negative weights. *)
Theorem C6_majority_voting (use_confidence : bool) (results : list WorkerResult.t)
  (weights : option (dict string Q)) (t_start t_end : Q) :
  let valid := filter valid_result results in
  let sc := score use_confidence weights valid in
  let total := total_score use_confidence weights valid in
  valid <> [] ->
  exists before w after,
    first_seen (map WorkerResult.value valid) = (before ++ w :: after)%list
    /\ (forall v, In v before -> sc v < sc w)
    /\ (forall v, In v after -> sc v <= sc w)
    /\ ((forall r, In r valid -> 0 <= base_weight_of weights (WorkerResult.worker_id r)) ->
        sc w <= total)
    /\ (total <= 0 \/ sc w <= total ->
        exists a,
          MajorityVotingAggregation.aggregate use_confidence results weights t_start t_end
          = Returns a
          /\ AggregatedResult.value a = w
          /\ (0 < total -> AggregatedResult.confidence a == sc w / total)
          /\ (total <= 0 -> AggregatedResult.confidence a == 0)
          /\ exists g,
              dict_get String.eqb (AggregatedResult.metadata a) "agreement" = Some (MNum g)
              /\ g == Qlen (filter (fun r => value_eqb (WorkerResult.value r) w) valid)
                      / Qlen valid).
Proof.
  intros valid sc total Hne. subst valid sc total.
  rewrite <- (WeightFacts.filter_valid_eq results) in *.
  destruct (majority_vote_spec use_confidence results weights t_start t_end Hne)
    as (before & w & after & H1 & H2 & H3 & H4 & H5).
  exists before, w, after. repeat (split; [assumption |]).
  intro Hcase. destruct (H5 Hcase) as (a & Ha & Hv & _ & Hc1 & Hc2 & Hg).
  exists a. auto.
Qed.

(** C6 as stated fails: with the weight 0.0 for the only voter the total score
    is 0, so there is no quotient [winning_score / total_score] for the
    confidence to equal; the code returns confidence 0.0 there. *)
Lemma C6_zero_total_score :
  ~ (exists a q,
        MajorityVotingAggregation.aggregate true one_vote (Some [("a", 0)]) 0 1 = Returns a
        /\ truediv
             (score true (Some [("a", 0)]) (AggregationStrategy._filter_valid_results one_vote)
                (AggregatedResult.value a))
             (total_score true (Some [("a", 0)])
                (AggregationStrategy._filter_valid_results one_vote))
           = Returns q
        /\ AggregatedResult.confidence a == q).
Proof.
  intros (a & q & Ha & Hq & _).
  vm_compute in Ha. injection Ha as <-.
  vm_compute in Hq. discriminate.
Qed.

Lemma C6_majority_voting_witness :
  filter valid_result two_votes <> []
  /\ filter valid_result one_vote <> []
  /\ (exists a g,
        MajorityVotingAggregation.aggregate true two_votes None 0 1 = Returns a
        /\ AggregatedResult.value a = VStr "x"
        /\ AggregatedResult.confidence a == 1 / 2
        /\ dict_get String.eqb (AggregatedResult.metadata a) "agreement" = Some (MNum g)
        /\ g == 1 / 2)
  /\ (exists a,
        MajorityVotingAggregation.aggregate true one_vote (Some [("a", 0)]) 0 1 = Returns a
        /\ AggregatedResult.value a = VStr "x"
        /\ AggregatedResult.confidence a == 0).
Proof.
  assert (H : filter valid_result two_votes <> [])
    by (vm_compute; discriminate).
  assert (H' : filter valid_result one_vote <> [])
    by (vm_compute; discriminate).
  split; [exact H |]. split; [exact H' |]. split.
  - destruct (@C6_majority_voting true two_votes None 0 1 H)
      as (before & w & after & H1 & H2 & H3 & H4 & H5).
    assert (Hw : w = VStr "x").
    { destruct before as [| v0 [| v1 before]].
      - injection H1 as <- _. reflexivity.
      - exfalso. injection H1 as <- <- _.
        specialize (H2 (VStr "x") (or_introl eq_refl)). vm_compute in H2. discriminate.
      - exfalso. apply (f_equal (@List.length pyvalue)) in H1.
        rewrite length_app in H1. simpl in H1. lia. }
    subst w.
    destruct H5 as (a & Ha & Hv & Hc & _ & g & Hg & Hgv).
    + right. apply H4. intros r _. vm_compute. discriminate.
    + exists a, g. split; [exact Ha |]. split; [exact Hv |].
      split; [| split; [exact Hg |]].
      * rewrite Hc by reflexivity. reflexivity.
      * rewrite Hgv. reflexivity.
  - destruct (@C6_majority_voting true one_vote (Some [("a", 0)]) 0 1 H')
      as (before & w & after & H1 & _ & _ & _ & H5).
    assert (Hw : w = VStr "x").
    { destruct before as [| v0 before].
      - injection H1 as <- _. reflexivity.
      - exfalso. apply (f_equal (@List.length pyvalue)) in H1.
        rewrite length_app in H1. simpl in H1. lia. }
    subst w.
    destruct H5 as (a & Ha & Hv & _ & Hc & _).
    + left. vm_compute. discriminate.
    + exists a. split; [exact Ha |]. split; [exact Hv |].
      apply Hc. vm_compute. discriminate.
Defined.

Section VotesInBinary64.
Import PrimFloat.
#[local] Set Warnings "-inexact-float".

(** Outside exact arithmetic the scores can order the values differently.
    One vote of confidence 0.3 for ["x"], then votes of confidence 0.1 and 0.2
    for ["y"], all of weight 1.0: the scores tie exactly, and ["x"], seen
    first, wins; on the floats of the code the score of ["y"] is
    0.30000000000000004, which is greater. *)
Lemma tied_votes_in_binary64 :
  (exists a,
      MajorityVotingAggregation.aggregate true tied_votes None 0 1 = Returns a
      /\ AggregatedResult.value a = VStr "x")
  /\ ltb (Binary64.vote_score true [(1, 0.3)]%float)
       (Binary64.vote_score true [(1, 0.1); (1, 0.2)]%float) = true.
Proof.
  split; [| vm_compute; reflexivity].
  eexists. split; [vm_compute; reflexivity | reflexivity].
Qed.

End VotesInBinary64.

(** ** Median of a single result *)

(** C9, as the code has it: when exactly one result is valid and its value is
    a number, median aggregation returns that value with that worker's own
    confidence (the mean of the confidence with itself). *)
Theorem C9_median_single (results : list WorkerResult.t) (weights : option (dict string Q))
  (t_start t_end : Q) (r : WorkerResult.t) (q : Q) :
  AggregationStrategy._filter_valid_results results = [r] ->
  well_formed r ->
  WorkerResult.value r = VNum q ->
  exists a,
    MedianAggregation.aggregate results weights t_start t_end = Returns a
    /\ AggregatedResult.confidence a == WorkerResult.confidence r
    /\ AggregatedResult.value a = VNum q
    /\ AggregatedResult.weights a = AggregationStrategy._get_weights [r] weights.
Proof.
  intros Hvalid [[Hc0 Hc1] _] Hq.
  unfold MedianAggregation.aggregate. rewrite Hvalid.
  cbn [map as_numbers]. rewrite Hq. cbn [bind as_numbers].
  unfold np_median at 1. cbn [Qsort fold_right Qinsert List.length Nat.even].
  cbn [bind]. unfold np_median at 1.
  cbn [map Qsort fold_right Qinsert List.length Nat.even bind].
  change (Nat.div 1 2) with 0%nat. cbn [nth bind].
  unfold MedianAggregation.consistency. cbn [List.length Nat.ltb Nat.leb bind].
  unfold np_mean, Qlen. cbn [Qsum List.length Z.of_nat Pos.of_succ_nat].
  rewrite truediv_Returns by (unfold Qeq; simpl; lia). cbn [bind].
  rewrite truediv_Returns by (unfold Qeq; simpl; lia). cbn [bind].
  set (c := WorkerResult.confidence r) in *.
  assert (Hmean : (c + (c + 0) / inject_Z 1) / 2 == c).
  { change (inject_Z 1) with 1. field. }
  assert (Hrange : 0 <= (c + (c + 0) / inject_Z 1) / 2 <= 1).
  { rewrite Hmean. auto. }
  unfold try_except. rewrite (AggregatedResult_new_ok _ _ _ _ _ _ Hrange).
  eexists. split; [reflexivity |]. simpl. auto.
Qed.

Lemma C9_median_single_witness :
  AggregationStrategy._filter_valid_results [success_result "a" (VNum 10) 0.5]
  = [success_result "a" (VNum 10) 0.5]
  /\ well_formed (success_result "a" (VNum 10) 0.5)
  /\ exists a,
      MedianAggregation.aggregate [success_result "a" (VNum 10) 0.5] None 0 1 = Returns a
      /\ AggregatedResult.confidence a == 0.5.
Proof.
  assert (H1 : AggregationStrategy._filter_valid_results [success_result "a" (VNum 10) 0.5]
               = [success_result "a" (VNum 10) 0.5]) by reflexivity.
  assert (H2 : well_formed (success_result "a" (VNum 10) 0.5)).
  { unfold well_formed, Qle. simpl. lia. }
  split; [exact H1 |]. split; [exact H2 |].
  destruct (@C9_median_single [success_result "a" (VNum 10) 0.5] None 0 1 _ 10 H1 H2 eq_refl)
    as (a & Ha & Hc & _).
  exists a. split; [exact Ha | exact Hc].
Defined.

(** C9 as stated fails: a single valid result that carries a label makes the
    median strategy return its sentinel, whose confidence is 0.0 and not the
    worker's 1.0. *)
Lemma C9_single_label_gives_sentinel :
  ~ (forall r,
        AggregationStrategy._filter_valid_results one_vote = [r] ->
        exists a,
          MedianAggregation.aggregate one_vote None 0 1 = Returns a
          /\ AggregatedResult.confidence a == WorkerResult.confidence r).
Proof.
  intro H. destruct (H _ eq_refl) as (a & Ha & Hc).
  vm_compute in Ha. injection Ha as <-.
  vm_compute in Hc. discriminate.
Qed.

(** ** What the strategies record as weights *)

Lemma bind_Returns_inv (A B : Type) (m : outcome A) (k : A -> outcome B) (b : B) :
  bind m k = Returns b -> exists a, m = Returns a /\ k a = Returns b.
Proof.
  destruct m as [a | e]; simpl; [| discriminate]. intro H. exists a. auto.
Qed.

Lemma try_except_Returns_inv (A : Type) (body : outcome A) (catches : exn -> bool)
  (handler : exn -> outcome A) (a : A) :
  try_except body catches handler = Returns a ->
  body = Returns a \/ exists e, body = Raises e /\ handler e = Returns a.
Proof.
  unfold try_except. destruct body as [a' | e].
  - intro H. left. exact H.
  - destruct (catches e); [| discriminate]. intro H. right. exists e. auto.
Qed.

Lemma sentinel_has_error (method : string) (results : list WorkerResult.t)
  (t_start t_end : Q) (error : mvalue) (a : AggregatedResult.t) :
  AggregationStrategy.sentinel method results t_start t_end error = Returns a ->
  dict_mem String.eqb (AggregatedResult.metadata a) "error" = true.
Proof.
  unfold AggregationStrategy.sentinel. intro H.
  apply AggregatedResult_new_Returns in H. destruct H as [-> _]. reflexivity.
Qed.

Ltac bind_inv H :=
  repeat
    match type of H with
    | bind _ _ = Returns _ =>
        let x := fresh "x" in
        let E := fresh "E" in
        apply bind_Returns_inv in H; destruct H as (x & E & H)
    end.

Module RecordedWeights.

Lemma weighted_average (uc : bool) (results : list WorkerResult.t)
  (weights : option (dict string Q)) (t_start t_end : Q) (a : AggregatedResult.t) :
  AggregationStrategy._filter_valid_results results <> [] ->
  WeightedAverageAggregation.aggregate uc results weights t_start t_end = Returns a ->
  proper a ->
  WeightedAverageAggregation.weights_of uc results weights
  = Returns (AggregatedResult.weights a)
  /\ Qsum (dict_values (AggregatedResult.weights a)) == 1.
Proof.
  intros Hne Hagg Hproper. unfold WeightedAverageAggregation.aggregate in Hagg.
  destruct (AggregationStrategy._filter_valid_results results) as [| r0 valid0] eqn:Hv;
    [congruence |].
  rewrite <- Hv in *.
  pose proof (WeightFacts.weights_of_eq uc results weights Hne) as Hw.
  rewrite Hw in Hagg. cbn [bind] in Hagg.
  apply try_except_Returns_inv in Hagg. destruct Hagg as [Hagg | (e & _ & Hagg)].
  - bind_inv Hagg. apply AggregatedResult_new_Returns in Hagg. destruct Hagg as [-> _].
    simpl. split; [exact Hw |].
    apply WeightFacts.normalized_of_sum.
    unfold dict_comp. apply WeightFacts.fold_set_not_nil. right. exact Hne.
  - apply sentinel_has_error in Hagg. unfold proper in Hproper. congruence.
Qed.

Lemma majority_voting (uc : bool) (results : list WorkerResult.t)
  (weights : option (dict string Q)) (t_start t_end : Q) (a : AggregatedResult.t) :
  AggregationStrategy._filter_valid_results results <> [] ->
  MajorityVotingAggregation.aggregate uc results weights t_start t_end = Returns a ->
  AggregatedResult.weights a
  = AggregationStrategy._get_weights (AggregationStrategy._filter_valid_results results)
      weights.
Proof.
  intros Hne Hagg.
  destruct (VoteFacts.aggregate_eq uc results weights t_start t_end Hne) as (w & _ & Heq).
  rewrite Heq in Hagg. apply AggregatedResult_new_Returns in Hagg.
  destruct Hagg as [-> _]. reflexivity.
Qed.

Lemma confidence_based (results : list WorkerResult.t)
  (weights : option (dict string Q)) (t_start t_end : Q) (a : AggregatedResult.t) :
  AggregationStrategy._filter_valid_results results <> [] ->
  ConfidenceBasedAggregation.aggregate results weights t_start t_end = Returns a ->
  AggregatedResult.weights a
  = AggregationStrategy._get_weights (AggregationStrategy._filter_valid_results results)
      weights.
Proof.
  intros Hne Hagg. unfold ConfidenceBasedAggregation.aggregate in Hagg.
  destruct (AggregationStrategy._filter_valid_results results) as [| r0 valid0] eqn:Hv;
    [congruence |].
  rewrite <- Hv in *. bind_inv Hagg.
  destruct (fst x) as [best |]; [| discriminate].
  apply AggregatedResult_new_Returns in Hagg. destruct Hagg as [-> _]. reflexivity.
Qed.

Lemma median (results : list WorkerResult.t)
  (weights : option (dict string Q)) (t_start t_end : Q) (a : AggregatedResult.t) :
  AggregationStrategy._filter_valid_results results <> [] ->
  MedianAggregation.aggregate results weights t_start t_end = Returns a ->
  proper a ->
  AggregatedResult.weights a
  = AggregationStrategy._get_weights (AggregationStrategy._filter_valid_results results)
      weights.
Proof.
  intros Hne Hagg Hproper. unfold MedianAggregation.aggregate in Hagg.
  destruct (AggregationStrategy._filter_valid_results results) as [| r0 valid0] eqn:Hv;
    [congruence |].
  rewrite <- Hv in *.
  apply try_except_Returns_inv in Hagg. destruct Hagg as [Hagg | (e & _ & Hagg)].
  - bind_inv Hagg. apply AggregatedResult_new_Returns in Hagg. destruct Hagg as [-> _].
    reflexivity.
  - apply sentinel_has_error in Hagg. unfold proper in Hproper. congruence.
Qed.

End RecordedWeights.

(** ** When the strategies return *)

Module ReturnFacts.
Import RecordedWeights.

Lemma valid_is_valid (results : list WorkerResult.t) (r : WorkerResult.t) :
  In r (AggregationStrategy._filter_valid_results results) ->
  In r results /\ 0 < WorkerResult.confidence r.
Proof.
  intro Hin. apply filter_In in Hin. destruct Hin as [Hin Hvalid]. split; [exact Hin |].
  unfold WorkerResult.is_valid in Hvalid. apply andb_true_iff in Hvalid.
  destruct Hvalid as [_ Hc]. apply Qlt_bool_iff in Hc. exact Hc.
Qed.

Lemma select_best_eq (valid : list WorkerResult.t) (weights : option (dict string Q)) :
  ConfidenceBasedAggregation.select_best valid (AggregationStrategy._get_weights valid weights)
  = Returns (fold_left (best_step weights) valid (None, -1)).
Proof.
  unfold ConfidenceBasedAggregation.select_best. apply for_each_Returns.
  intros s r Hin. rewrite WeightFacts.get_weights_lookup by exact Hin. reflexivity.
Qed.

Lemma best_step_keeps (weights : option (dict string Q)) (P : WorkerResult.t -> Prop)
  (xs : list WorkerResult.t) :
  forall best r0,
    fst best = Some r0 -> P r0 -> (forall x, In x xs -> P x) ->
    exists r, fst (fold_left (best_step weights) xs best) = Some r /\ P r.
Proof.
  induction xs as [| x xs IH]; intros best r0 Hbest Hr0 Hxs; simpl.
  - exists r0. auto.
  - unfold best_step at 2.
    destruct (Qlt_bool (snd best) _).
    + apply IH with x; [reflexivity | apply Hxs; left; reflexivity |].
      intros y Hy. apply Hxs. right. exact Hy.
    + apply IH with r0; [exact Hbest | exact Hr0 |].
      intros y Hy. apply Hxs. right. exact Hy.
Qed.

(** With weights that are not negative the confidence-based strategy selects
    one of the valid results and returns. *)
Lemma confidence_based_Returns (results : list WorkerResult.t)
  (weights : option (dict string Q)) (t_start t_end : Q) :
  let valid := AggregationStrategy._filter_valid_results results in
  valid <> [] ->
  Forall well_formed results ->
  (forall r, In r valid -> 0 <= base_weight_of weights (WorkerResult.worker_id r)) ->
  exists a best,
    ConfidenceBasedAggregation.aggregate results weights t_start t_end = Returns a
    /\ proper a
    /\ In best valid
    /\ AggregatedResult.value a = WorkerResult.value best
    /\ AggregatedResult.confidence a = WorkerResult.confidence best.
Proof.
  intros valid Hne Hwf Hnonneg. subst valid.
  unfold ConfidenceBasedAggregation.aggregate.
  destruct (AggregationStrategy._filter_valid_results results) as [| r0 valid0] eqn:Hv;
    [congruence |].
  set (valid := r0 :: valid0) in *.
  rewrite select_best_eq. cbn [bind].
  assert (Hbest : exists r, fst (fold_left (best_step weights) valid (None, -1)) = Some r
                            /\ In r valid).
  { unfold valid at 1. cbn [fold_left]. unfold best_step at 2. cbn [snd].
    assert (H0 : In r0 (AggregationStrategy._filter_valid_results results))
      by (rewrite Hv; left; reflexivity).
    destruct (valid_is_valid results r0 H0) as [_ Hc].
    assert (Hw : 0 <= base_weight_of weights (WorkerResult.worker_id r0))
      by (apply Hnonneg; left; reflexivity).
    assert (Hs : Qlt_bool (-1) (WorkerResult.confidence r0
                                * base_weight_of weights (WorkerResult.worker_id r0)) = true).
    { apply Qlt_bool_iff.
      assert (0 <= WorkerResult.confidence r0
                   * base_weight_of weights (WorkerResult.worker_id r0))
        by (apply Qmult_le_0_compat; lra).
      lra. }
    rewrite Hs.
    apply best_step_keeps with r0; [reflexivity | left; reflexivity |].
    intros x Hx. right. exact Hx. }
  destruct Hbest as (best & Hfst & Hin). rewrite Hfst.
  assert (Hrange : 0 <= WorkerResult.confidence best <= 1).
  { rewrite Forall_forall in Hwf.
    assert (Hin' : In best (AggregationStrategy._filter_valid_results results))
      by (rewrite Hv; exact Hin).
    destruct (valid_is_valid results best Hin') as [Hres _].
    exact (proj1 (Hwf best Hres)). }
  rewrite (AggregatedResult_new_ok _ _ _ _ _ _ Hrange).
  eexists. exists best. split; [reflexivity |]. simpl. unfold proper. simpl. auto.
Qed.

End ReturnFacts.

Module AverageFacts.
Import RecordedWeights.

Lemma lookup_map_NoDup (A : Type) (key : A -> string) (g : A -> Q) (xs : list A) (x : A) :
  NoDup (map key xs) -> In x xs ->
  dict_lookup (map (fun y => (key y, g y)) xs) (key x) = Returns (g x).
Proof.
  unfold dict_lookup. induction xs as [| y xs IH]; simpl; intros Hnd Hin; [contradiction |].
  inversion Hnd as [| ? ? Hnotin Hnd']; subst.
  destruct (String.eqb (key y) (key x)) eqn:E.
  - apply String.eqb_eq in E. destruct Hin as [-> | Hin]; [reflexivity |].
    exfalso. apply Hnotin. rewrite E. apply in_map. exact Hin.
  - destruct Hin as [-> | Hin]; [rewrite String.eqb_refl in E; discriminate |].
    apply IH; assumption.
Qed.

Lemma sum_over_Returns (A : Type) (f : A -> outcome Q) (h : A -> Q) (xs : list A) :
  (forall x, In x xs -> f x = Returns (h x)) ->
  exists s, sum_over f xs = Returns s /\ s == Qsum (map h xs).
Proof.
  unfold sum_over. intro Hf.
  assert (H : forall acc,
             exists s,
               for_each (fun acc x => y <- f x ;; Returns (acc + y)) xs acc = Returns s
               /\ s == acc + Qsum (map h xs)).
  { induction xs as [| x xs IH]; intro acc; simpl.
    - exists acc. split; [reflexivity | lra].
    - rewrite Hf by (left; reflexivity). cbn [bind].
      destruct (IH (fun y Hy => Hf y (or_intror Hy)) (acc + h x)) as (s & Hs & Heq).
      exists s. split; [exact Hs | rewrite Heq; lra]. }
  destruct (H 0) as (s & Hs & Heq). exists s. split; [exact Hs | rewrite Heq; lra].
Qed.

(** A convex combination of numbers of [0, 1] lies in [0, 1]. *)
Lemma convex_bound (A : Type) (c g : A -> Q) (xs : list A) :
  (forall x, In x xs -> 0 <= c x <= 1 /\ 0 <= g x) ->
  0 <= Qsum (map (fun x => c x * g x) xs) <= Qsum (map g xs).
Proof.
  induction xs as [| x xs IH]; simpl; intro H; [lra |].
  destruct (H x (or_introl eq_refl)) as [[Hc0 Hc1] Hg].
  destruct (IH (fun y Hy => H y (or_intror Hy))) as [IH0 IH1].
  assert (0 <= c x * g x) by (apply Qmult_le_0_compat; assumption).
  assert (c x * g x <= g x).
  { setoid_replace (g x) with (1 * g x) at 2 by ring.
    apply Qmult_le_compat_r; assumption. }
  lra.
Qed.

Lemma normalized_of_distinct (uc : bool) (weights : option (dict string Q))
  (valid : list WorkerResult.t) :
  NoDup (map WorkerResult.worker_id valid) ->
  normalized_of
    (dict_comp String.eqb WorkerResult.worker_id (contribution uc weights) valid)
  = map (fun r => (WorkerResult.worker_id r, share uc weights valid r)) valid.
Proof.
  intro Hnd. unfold dict_comp. rewrite WeightFacts.fold_set_fresh by exact Hnd.
  cbn [app]. unfold normalized_of, share, dict_values, Qlen.
  rewrite !map_map, !length_map. cbn [snd fst].
  destruct (Qlt_bool 0 (Qsum (map (contribution uc weights) valid))); reflexivity.
Qed.

Lemma share_nonneg (uc : bool) (weights : option (dict string Q))
  (results : list WorkerResult.t) (r : WorkerResult.t) :
  let valid := AggregationStrategy._filter_valid_results results in
  In r valid ->
  (forall x, In x valid -> 0 <= base_weight_of weights (WorkerResult.worker_id x)) ->
  0 <= share uc weights valid r.
Proof.
  intros valid Hin Hnonneg. unfold share.
  destruct (Qlt_bool 0 (Qsum (map (contribution uc weights) valid))) eqn:E.
  - apply Qlt_bool_iff in E. apply Qle_shift_div_l; [exact E |].
    assert (0 <= contribution uc weights r).
    { apply VoteFacts.contribution_nonneg with (results := results); [exact Hin |].
      apply Hnonneg. exact Hin. }
    lra.
  - assert (Hne : valid <> []) by (intro H0; rewrite H0 in Hin; contradiction).
    pose proof (Qlen_pos Hne). apply Qle_shift_div_l; [assumption | lra].
Qed.

(** On numeric results of distinct workers and weights that are not negative
    the weighted average returns: the value and the confidence are the sums
    weighted by the normalized weights. *)
Lemma weighted_average_Returns (uc : bool) (results : list WorkerResult.t)
  (weights : option (dict string Q)) (t_start t_end : Q) :
  let valid := AggregationStrategy._filter_valid_results results in
  valid <> [] ->
  Forall well_formed results ->
  NoDup (map WorkerResult.worker_id valid) ->
  (forall r, In r valid -> 0 <= base_weight_of weights (WorkerResult.worker_id r)) ->
  (forall r, In r valid -> exists q, WorkerResult.value r = VNum q) ->
  exists a v,
    WeightedAverageAggregation.aggregate uc results weights t_start t_end = Returns a
    /\ proper a
    /\ AggregatedResult.value a = VNum v
    /\ v == Qsum (map (fun r => number_of r * share uc weights valid r) valid)
    /\ AggregatedResult.confidence a
       == Qsum (map (fun r => WorkerResult.confidence r * share uc weights valid r) valid).
Proof.
  intros valid Hne Hwf Hnd Hnonneg Hnum.
  pose proof (WeightFacts.weights_of_eq uc results weights Hne) as Hw.
  pose proof (WeightFacts.normalized_of_sum
                (eff := dict_comp String.eqb WorkerResult.worker_id
                          (contribution uc weights) valid)) as Hsum.
  fold valid in Hw. rewrite (@normalized_of_distinct uc weights valid Hnd) in Hw, Hsum.
  unfold dict_values in Hsum. rewrite map_map in Hsum. cbn [snd] in Hsum.
  assert (Hone : Qsum (map (share uc weights valid) valid) == 1).
  { apply Hsum. unfold dict_comp. apply WeightFacts.fold_set_not_nil. right. exact Hne. }
  clear Hsum.
  unfold WeightedAverageAggregation.aggregate. fold valid.
  destruct valid as [| r0 valid0] eqn:Hv; [congruence |].
  rewrite <- Hv in *. rewrite Hw. cbn [bind].
  set (nw := map (fun r => (WorkerResult.worker_id r, share uc weights valid r)) valid).
  destruct (sum_over_Returns
              (fun result =>
                 w <- dict_lookup nw (WorkerResult.worker_id result) ;;
                 value_times (WorkerResult.value result) w)
              (fun r => number_of r * share uc weights valid r) valid)
    as (v & Hv1 & Hv2).
  { intros r Hr. unfold nw.
    rewrite (@lookup_map_NoDup _ WorkerResult.worker_id (share uc weights valid) valid r Hnd Hr).
    cbn [bind]. unfold number_of. destruct (Hnum r Hr) as (q & ->). reflexivity. }
  destruct (sum_over_Returns
              (fun result =>
                 w <- dict_lookup nw (WorkerResult.worker_id result) ;;
                 Returns (WorkerResult.confidence result * w))
              (fun r => WorkerResult.confidence r * share uc weights valid r) valid)
    as (c & Hc1 & Hc2).
  { intros r Hr. unfold nw.
    rewrite (@lookup_map_NoDup _ WorkerResult.worker_id (share uc weights valid) valid r Hnd Hr).
    reflexivity. }
  rewrite Hv1. cbn [bind]. rewrite Hc1. cbn [bind].
  assert (Hrange : 0 <= c <= 1).
  { rewrite Hc2, <- Hone. apply convex_bound. intros r Hr. split.
    - rewrite Forall_forall in Hwf. apply Hwf.
      apply (ReturnFacts.valid_is_valid results r). exact Hr.
    - apply share_nonneg; assumption. }
  rewrite (AggregatedResult_new_ok _ _ _ _ _ _ Hrange). cbn [try_except].
  eexists. exists v. split; [reflexivity |]. unfold proper. simpl. auto.
Qed.

End AverageFacts.

Module MedianFacts.
Import RecordedWeights.

Lemma as_numbers_numeric (values : list pyvalue) :
  (forall v, In v values -> exists q, v = VNum q) ->
  exists qs, as_numbers values = Returns qs /\ List.length qs = List.length values.
Proof.
  induction values as [| v values IH]; intro H; simpl.
  - exists []. auto.
  - destruct (H v (or_introl eq_refl)) as (q & ->).
    destruct (IH (fun y Hy => H y (or_intror Hy))) as (qs & -> & Hlen).
    exists (q :: qs). simpl. auto.
Qed.

Lemma Qinsert_Forall (P : Q -> Prop) (x : Q) (l : list Q) :
  P x -> Forall P l -> Forall P (Qinsert x l).
Proof.
  intros Hx Hl. induction Hl as [| y l Hy Hl IH]; simpl.
  - constructor; [exact Hx | constructor].
  - destruct (Qle_bool x y); repeat constructor; assumption.
Qed.

Lemma Qsort_Forall (P : Q -> Prop) (l : list Q) : Forall P l -> Forall P (Qsort l).
Proof.
  unfold Qsort. induction 1 as [| x l Hx Hl IH]; simpl.
  - constructor.
  - apply Qinsert_Forall; assumption.
Qed.

Lemma Qinsert_length (x : Q) (l : list Q) : List.length (Qinsert x l) = S (List.length l).
Proof.
  induction l as [| y l IH]; simpl; [reflexivity |].
  destruct (Qle_bool x y); simpl; [reflexivity | rewrite IH; reflexivity].
Qed.

Lemma Qsort_length (l : list Q) : List.length (Qsort l) = List.length l.
Proof.
  unfold Qsort. induction l as [| x l IH]; simpl; [reflexivity |].
  rewrite Qinsert_length, IH. reflexivity.
Qed.

Lemma nth_nonneg (l : list Q) (i : nat) : Forall (fun x => 0 <= x) l -> 0 <= nth i l 0.
Proof.
  intro H. revert i. induction H as [| x l Hx Hl IH]; intros [| i]; simpl.
  - lra.
  - lra.
  - exact Hx.
  - apply IH.
Qed.

Lemma np_median_Returns (l : list Q) :
  l <> [] ->
  exists m, np_median l = Returns m /\ (Forall (fun x => 0 <= x) l -> 0 <= m).
Proof.
  intro Hne. unfold np_median. rewrite Qsort_length.
  destruct (List.length l) as [| n] eqn:Hlen.
  - destruct l; [congruence | discriminate].
  - destruct (Nat.even (S n)); eexists; (split; [reflexivity |]); intro Hpos;
      apply (Qsort_Forall (P := fun x => 0 <= x)) in Hpos.
    + pose proof (nth_nonneg (S n / 2 - 1) Hpos). pose proof (nth_nonneg (S n / 2) Hpos).
      apply Qle_shift_div_l; lra.
    + apply nth_nonneg. exact Hpos.
Qed.

Lemma np_max_Returns (l : list Q) : l <> [] -> exists m, np_max l = Returns m.
Proof. destruct l; [congruence | intros _; eexists; reflexivity]. Qed.

Lemma np_min_Returns (l : list Q) : l <> [] -> exists m, np_min l = Returns m.
Proof. destruct l; [congruence | intros _; eexists; reflexivity]. Qed.

Lemma py_min_unit (x : Q) : 0 <= x -> 0 <= py_min x 1 <= 1.
Proof.
  intro Hx. unfold py_min. destruct (Qlt_bool 1 x) eqn:E.
  - lra.
  - apply Qlt_bool_false_iff in E. lra.
Qed.

Lemma consistency_unit (values confidences : list Q) (mad : Q) :
  values <> [] -> List.length confidences = List.length values ->
  Forall (fun c => 0 <= c <= 1) confidences -> 0 <= mad ->
  exists c, MedianAggregation.consistency values confidences mad = Returns c /\ 0 <= c <= 1.
Proof.
  intros Hne Hlen Hconf Hmad. unfold MedianAggregation.consistency.
  destruct (1 <? List.length values)%nat.
  - destruct (np_max_Returns Hne) as (hi & ->). destruct (np_min_Returns Hne) as (lo & ->).
    cbn [bind]. destruct (Qlt_bool 0 (hi - lo)) eqn:E.
    + apply Qlt_bool_iff in E. rewrite truediv_Returns by lra. cbn [bind].
      eexists. split; [reflexivity |].
      assert (Hratio : 0 <= mad / (hi - lo)) by (apply Qle_shift_div_l; lra).
      pose proof (py_min_unit Hratio). lra.
    + exists 1. split; [reflexivity | lra].
  - destruct confidences as [| c confidences].
    + destruct values; [congruence | discriminate].
    + exists c. split; [reflexivity |]. inversion Hconf; assumption.
Qed.

Lemma Qsum_unit (l : list Q) : Forall (fun c => 0 <= c <= 1) l -> 0 <= Qsum l <= Qlen l.
Proof.
  unfold Qlen. induction 1 as [| x l Hx Hl IH].
  - simpl. change (inject_Z 0) with 0. lra.
  - cbn [Qsum List.length]. rewrite Nat2Z.inj_succ, <- Z.add_1_r, inject_Z_plus.
    change (inject_Z 1) with 1. lra.
Qed.

Lemma np_mean_unit (l : list Q) :
  l <> [] -> Forall (fun c => 0 <= c <= 1) l ->
  exists m, np_mean l = Returns m /\ 0 <= m <= 1.
Proof.
  intros Hne Hl. pose proof (Qlen_pos Hne) as Hpos. pose proof (Qsum_unit Hl) as Hsum.
  unfold np_mean. rewrite truediv_Returns by lra.
  eexists. split; [reflexivity |]. split.
  - apply Qle_shift_div_l; lra.
  - apply Qle_shift_div_r; lra.
Qed.

(** On numeric results the median strategy returns a proper result. *)
Lemma median_Returns (results : list WorkerResult.t)
  (weights : option (dict string Q)) (t_start t_end : Q) :
  let valid := AggregationStrategy._filter_valid_results results in
  valid <> [] ->
  Forall well_formed results ->
  (forall r, In r valid -> exists q, WorkerResult.value r = VNum q) ->
  exists a,
    MedianAggregation.aggregate results weights t_start t_end = Returns a /\ proper a.
Proof.
  intros valid Hne Hwf Hnum. unfold MedianAggregation.aggregate. fold valid.
  destruct valid as [| r0 valid0] eqn:Hv; [congruence |].
  rewrite <- Hv in *.
  destruct (@as_numbers_numeric (map WorkerResult.value valid))
    as (qs & Hqs & Hlen).
  { intros v Hin. apply in_map_iff in Hin. destruct Hin as (r & <- & Hr). exact (Hnum r Hr). }
  rewrite length_map in Hlen.
  assert (Hqne : qs <> []).
  { intro H0. rewrite H0, Hv in Hlen. discriminate. }
  rewrite Hqs. cbn [bind].
  destruct (np_median_Returns Hqne) as (med & Hmed & _). rewrite Hmed. cbn [bind].
  set (devs := map (fun v => Qabs (v - med)) qs).
  assert (Hdne : devs <> []).
  { unfold devs. intro H0. apply map_eq_nil in H0. exact (Hqne H0). }
  destruct (np_median_Returns Hdne) as (mad & Hmad & Hmadpos). rewrite Hmad. cbn [bind].
  assert (Hmad0 : 0 <= mad).
  { apply Hmadpos. unfold devs. apply Forall_forall. intros x Hx.
    apply in_map_iff in Hx. destruct Hx as (v & <- & _). apply Qabs_nonneg. }
  assert (Hconf : Forall (fun c => 0 <= c <= 1) (map WorkerResult.confidence valid)).
  { apply Forall_forall. intros c Hc. apply in_map_iff in Hc. destruct Hc as (r & <- & Hr).
    rewrite Forall_forall in Hwf. apply Hwf.
    apply (ReturnFacts.valid_is_valid results r). exact Hr. }
  destruct (@consistency_unit qs (map WorkerResult.confidence valid) mad Hqne)
    as (c & Hc & Hcunit); [rewrite length_map; congruence | exact Hconf | exact Hmad0 |].
  rewrite Hc. cbn [bind].
  destruct (@np_mean_unit (map WorkerResult.confidence valid)) as (avg & Havg & Havgunit);
    [intro H0; apply map_eq_nil in H0; exact (Hne H0) | exact Hconf |].
  rewrite Havg. cbn [bind].
  rewrite truediv_Returns by lra. cbn [bind].
  assert (Hrange : exists vr,
             (if (1 <? List.length qs)%nat
              then hi <- np_max qs ;; lo <- np_min qs ;; Returns (hi - lo)
              else Returns 0) = Returns vr).
  { destruct (1 <? List.length qs)%nat; [| eexists; reflexivity].
    destruct (np_max_Returns Hqne) as (hi & ->). destruct (np_min_Returns Hqne) as (lo & ->).
    eexists. reflexivity. }
  destruct Hrange as (vr & ->). cbn [bind].
  assert (Hunit : 0 <= (c + avg) / 2 <= 1).
  { split; [apply Qle_shift_div_l | apply Qle_shift_div_r]; lra. }
  rewrite (AggregatedResult_new_ok _ _ _ _ _ _ Hunit). cbn [try_except].
  eexists. split; [reflexivity |]. unfold proper. reflexivity.
Qed.

End MedianFacts.

(** C8, as the code has it and in exact arithmetic: the [weights] field of a
    result that is not a sentinel holds, for each valid worker and no one
    else, the weight the strategy worked with.  For the weighted average
    these are the normalized weights, which sum to 1 over the contributing
    workers: for results of distinct workers, the effective weight of each
    over the total, or 1/n when the total is not positive.  Majority voting,
    confidence-based selection and the median record the base weights (the
    supplied weight of each valid worker, 1.0 by default), which are not
    normalized.  Every strategy returns such a result on well-formed results
    of distinct workers with weights that are not negative (and numeric
    values, for the two numeric strategies). *)
Theorem C8_recorded_weights (s : strategy) (results : list WorkerResult.t)
  (weights : option (dict string Q)) (t_start t_end : Q) :
  let valid := filter valid_result results in
  valid <> [] ->
  (forall a,
      strategy_aggregate s results weights t_start t_end = Returns a ->
      proper a ->
      Permutation (dict_keys (AggregatedResult.weights a)) (valid_worker_ids results)
      /\ match s with
         | WeightedAverage uc =>
             Qsum (dict_values (AggregatedResult.weights a)) == 1
             /\ (NoDup (map WorkerResult.worker_id valid) ->
                 forall r, In r valid ->
                   dict_lookup (AggregatedResult.weights a) (WorkerResult.worker_id r)
                   = Returns (share uc weights valid r))
         | _ =>
             AggregatedResult.weights a = AggregationStrategy._get_weights valid weights
             /\ forall r, In r valid ->
                  dict_lookup (AggregatedResult.weights a) (WorkerResult.worker_id r)
                  = Returns (base_weight_of weights (WorkerResult.worker_id r))
         end)
  /\ (Forall well_formed results ->
      NoDup (map WorkerResult.worker_id valid) ->
      (forall r, In r valid -> 0 <= base_weight_of weights (WorkerResult.worker_id r)) ->
      match s with
      | WeightedAverage _ | Median =>
          forall r, In r valid -> exists q, WorkerResult.value r = VNum q
      | _ => True
      end ->
      exists a,
        strategy_aggregate s results weights t_start t_end = Returns a
        /\ proper a).
Proof.
  intros valid Hne. subst valid.
  assert (Hbasekeys : Permutation
                        (dict_keys (AggregationStrategy._get_weights
                                      (filter valid_result results) weights))
                        (valid_worker_ids results)).
  { unfold AggregationStrategy._get_weights.
    destruct weights as [[| p provided] |]; apply WeightFacts.comp_keys_valid_worker_ids. }
  rewrite <- (WeightFacts.filter_valid_eq results) in *.
  set (valid := AggregationStrategy._filter_valid_results results) in *.
  split.
  - intros a Hagg Hproper.
    assert (Hbase : AggregatedResult.weights a
                    = AggregationStrategy._get_weights valid weights ->
                    Permutation (dict_keys (AggregatedResult.weights a))
                      (valid_worker_ids results)
                    /\ AggregatedResult.weights a
                       = AggregationStrategy._get_weights valid weights
                    /\ forall r, In r valid ->
                         dict_lookup (AggregatedResult.weights a) (WorkerResult.worker_id r)
                         = Returns (base_weight_of weights (WorkerResult.worker_id r))).
    { intro H. split; [rewrite H; exact Hbasekeys |]. split; [exact H |].
      intros r Hr. rewrite H. apply WeightFacts.get_weights_lookup. exact Hr. }
    destruct s as [uc | uc | |]; simpl in Hagg.
    + destruct (RecordedWeights.weighted_average uc results weights t_start t_end Hne Hagg
                  Hproper) as [Hw Hsum].
      rewrite (WeightFacts.weights_of_eq uc results weights Hne) in Hw.
      injection Hw as Hw. fold valid in Hw.
      split; [| split; [exact Hsum |]].
      * rewrite <- Hw, WeightFacts.normalized_of_keys. unfold valid.
        rewrite WeightFacts.filter_valid_eq. apply WeightFacts.comp_keys_valid_worker_ids.
      * intros Hnd r Hr. rewrite <- Hw.
        rewrite (@AverageFacts.normalized_of_distinct uc weights valid Hnd).
        exact (@AverageFacts.lookup_map_NoDup _ WorkerResult.worker_id
                 (share uc weights valid) valid r Hnd Hr).
    + apply Hbase.
      exact (RecordedWeights.majority_voting uc results weights t_start t_end Hne Hagg).
    + apply Hbase.
      exact (RecordedWeights.confidence_based results weights t_start t_end Hne Hagg).
    + apply Hbase.
      exact (RecordedWeights.median results weights t_start t_end Hne Hagg Hproper).
  - intros Hwf Hnd Hnonneg Hnum. destruct s as [uc | uc | |]; simpl.
    + destruct (@AverageFacts.weighted_average_Returns uc results weights t_start t_end
                  Hne Hwf Hnd Hnonneg Hnum) as (a & v & Ha & Hp & _).
      exists a. auto.
    + destruct (majority_vote_spec uc results weights t_start t_end Hne)
        as (before & w & after & _ & _ & _ & Hle & Hret).
      destruct (Hret (or_intror (Hle Hnonneg))) as (a & Ha & _).
      exists a. split; [exact Ha |].
      destruct (VoteFacts.aggregate_eq uc results weights t_start t_end Hne) as (w' & _ & Heq).
      rewrite Heq in Ha. apply AggregatedResult_new_Returns in Ha. destruct Ha as [-> _].
      reflexivity.
    + destruct (@ReturnFacts.confidence_based_Returns results weights t_start t_end
                  Hne Hwf Hnonneg) as (a & best & Ha & Hp & _).
      exists a. auto.
    + exact (@MedianFacts.median_Returns results weights t_start t_end Hne Hwf Hnum).
Qed.

Lemma C8_recorded_weights_witness :
  filter valid_result two_results <> []
  /\ filter valid_result two_votes <> []
  /\ (exists a,
        strategy_aggregate (WeightedAverage true) two_results None 0 1 = Returns a
        /\ Qsum (dict_values (AggregatedResult.weights a)) == 1
        /\ Permutation (dict_keys (AggregatedResult.weights a)) ["a"; "b"]
        /\ exists w,
            dict_lookup (AggregatedResult.weights a) "b" = Returns w /\ w == 1 / 3)
  /\ (forall a,
        strategy_aggregate (MajorityVoting true) two_votes None 0 1 = Returns a ->
        proper a ->
        dict_lookup (AggregatedResult.weights a) "b" = Returns 1).
Proof.
  assert (H : filter valid_result two_results <> [])
    by (vm_compute; discriminate).
  assert (H' : filter valid_result two_votes <> [])
    by (vm_compute; discriminate).
  assert (Hnd : NoDup (map WorkerResult.worker_id (filter valid_result two_results))).
  { simpl. constructor; [intros [E | []]; discriminate |].
    constructor; [intros [] | constructor]. }
  split; [exact H |]. split; [exact H' |]. split.
  - destruct (proj2 (@C8_recorded_weights (WeightedAverage true) two_results None 0 1 H))
      as (a & Ha & Hp).
    + repeat constructor; vm_compute; discriminate.
    + exact Hnd.
    + intros r _. vm_compute. discriminate.
    + intros r [<- | [<- | []]]; eexists; reflexivity.
    + destruct (proj1 (@C8_recorded_weights (WeightedAverage true) two_results None 0 1 H)
                  a Ha Hp) as (Hkeys & Hsum & Hshare).
      exists a. split; [exact Ha |]. split; [exact Hsum |]. split; [exact Hkeys |].
      eexists. split.
      * exact (Hshare Hnd (success_result "b" (VNum 12) 0.5) (or_intror (or_introl eq_refl))).
      * vm_compute. reflexivity.
  - intros a Ha Hp.
    destruct (proj1 (@C8_recorded_weights (MajorityVoting true) two_votes None 0 1 H')
                a Ha Hp) as (_ & _ & Hlookup).
    exact (Hlookup (success_result "b" (VStr "y") 1) (or_intror (or_introl eq_refl))).
Defined.

(** C8 as stated fails: majority voting over two valid results with no
    weights supplied records the weight 1.0 for each, and these sum to 2. *)
Lemma C8_majority_weights_sum_to_two :
  ~ (forall a,
        strategy_aggregate (MajorityVoting true) two_votes None 0 1 = Returns a ->
        Qsum (dict_values (AggregatedResult.weights a)) == 1).
Proof.
  intro H.
  destruct (majority_vote_spec true two_votes None 0 1) as (b & w & af & _ & _ & _ & Hle & Hret).
  { vm_compute. discriminate. }
  destruct Hret as (a & Ha & _ & Hw & _).
  { right. apply Hle. intros r _. vm_compute. discriminate. }
  specialize (H a Ha). rewrite Hw in H. vm_compute in H. discriminate.
Qed.

(** ** The scenarios of the specification, evaluated *)

(** Three numeric workers returning 10, 12 and 14 with equal weights and
    confidence 1.0: the weighted average is 12 with confidence 1. *)
Example scenario_weighted_average :
  exists a,
    WeightedAverageAggregation.aggregate true three_numbers None 0 1 = Returns a
    /\ (exists v, AggregatedResult.value a = VNum v /\ v == 12)
    /\ AggregatedResult.confidence a == 1.
Proof.
  eexists. split; [vm_compute; reflexivity |]. simpl.
  split; [eexists; split; [reflexivity |] |]; reflexivity.
Qed.

(** Two workers vote "high" (0.6 x 0.9 and 0.5 x 0.8), one votes "medium"
    (0.4 x 0.7): "high" wins with confidence 0.94 / 1.22 and agreement 2/3. *)
Example scenario_majority_voting :
  exists a g,
    MajorityVotingAggregation.aggregate true three_labels (Some three_label_weights) 0 1
    = Returns a
    /\ AggregatedResult.value a = VStr "high"
    /\ AggregatedResult.confidence a == 0.94 / 1.22
    /\ dict_get String.eqb (AggregatedResult.metadata a) "agreement" = Some (MNum g)
    /\ g == 2 # 3.
Proof.
  eexists. eexists. split; [vm_compute; reflexivity |]. simpl.
  repeat split; reflexivity.
Qed.

(** A pool without active workers returns an empty list of results. *)
Example scenario_no_active_worker :
  snd (WorkerPool.execute_parallel
         (WorkerPool.register_worker (WorkerPool.__init__ None)
            (constant_worker "off" false 30 (VNum 2) 1))
         VNone None None "u" 0 [])
  = Returns [].
Proof. reflexivity. Qed.

(** * Further properties *)

(** ** The derived values of an aggregated result *)

Module StatsFacts.

Lemma Qnat_Qlen (A : Type) (l : list A) : Qnat (List.length l) = Qlen l.
Proof. reflexivity. Qed.

Lemma Qnat_le (m n : nat) : (m <= n)%nat -> Qnat m <= Qnat n.
Proof. intro H. unfold Qnat. rewrite <- Zle_Qle. lia. Qed.

Lemma Qnat_max_pos (n : nat) : 0 < Qnat (Nat.max n 1).
Proof.
  unfold Qnat. change 0 with (inject_Z 0). rewrite <- Zlt_Qlt. lia.
Qed.

Lemma min_fold_le (rest : list Q) :
  forall m, fold_left (fun m y => if Qlt_bool y m then y else m) rest m <= m.
Proof.
  induction rest as [| y rest IH]; intro m; simpl; [lra |].
  destruct (Qlt_bool y m) eqn:E.
  - apply Qlt_bool_iff in E. specialize (IH y). lra.
  - apply IH.
Qed.

Lemma max_fold_ge (rest : list Q) :
  forall m, m <= fold_left (fun m y => if Qlt_bool m y then y else m) rest m.
Proof.
  induction rest as [| y rest IH]; intro m; simpl; [lra |].
  destruct (Qlt_bool m y) eqn:E.
  - apply Qlt_bool_iff in E. specialize (IH y). lra.
  - apply IH.
Qed.

Lemma min_le_max_default (l : list Q) (d : Q) : min_default l d <= max_default l d.
Proof.
  destruct l as [| x rest]; simpl; [lra |].
  pose proof (min_fold_le rest x). pose proof (max_fold_ge rest x). lra.
Qed.

Lemma confidences_unit (rs : list WorkerResult.t) :
  Forall well_formed rs -> Forall (fun c => 0 <= c <= 1) (map WorkerResult.confidence rs).
Proof.
  intro H. apply Forall_forall. intros c Hc. apply in_map_iff in Hc.
  destruct Hc as (r & <- & Hr). rewrite Forall_forall in H. exact (proj1 (H r Hr)).
Qed.

End StatsFacts.

(** The average confidence of an aggregated result is computed without a
    division by zero: it is 0.0 when there are no worker results, and the mean
    over all worker results, failed ones included, otherwise, which lies in
    [0, 1] when the results are well formed. *)
Theorem average_worker_confidence_total (a : AggregatedResult.t) :
  exists m,
    AggregatedResultStats.average_worker_confidence a = Returns m
    /\ (AggregatedResult.worker_results a = [] -> m = 0)
    /\ (AggregatedResult.worker_results a <> [] ->
        m == Qsum (map WorkerResult.confidence (AggregatedResult.worker_results a))
             / Qlen (AggregatedResult.worker_results a))
    /\ (Forall well_formed (AggregatedResult.worker_results a) -> 0 <= m <= 1).
Proof.
  unfold AggregatedResultStats.average_worker_confidence.
  destruct (AggregatedResult.worker_results a) as [| r rs] eqn:E.
  - exists 0. split; [reflexivity |]. split; [reflexivity |].
    split; [intro H; congruence | intros _; lra].
  - assert (Hne : r :: rs <> []) by discriminate.
    pose proof (Qlen_pos Hne) as Hpos.
    rewrite truediv_Returns by lra.
    eexists. split; [reflexivity |]. split; [discriminate |]. split; [reflexivity |].
    intro Hwf. pose proof (MedianFacts.Qsum_unit (StatsFacts.confidences_unit Hwf)) as Hs.
    unfold Qlen in *. rewrite length_map in Hs. split.
    + apply Qle_shift_div_l; lra.
    + apply Qle_shift_div_r; lra.
Qed.

(** [get_worker_statistics] never fails: it is the empty dict when there are
    no worker results, and otherwise reports the number of results, of valid
    and of failed ones, which add up, and a minimal confidence that does not
    exceed the maximal one (both 0.0 when no result is valid). *)
Theorem get_worker_statistics_counts (a : AggregatedResult.t) :
  exists d,
    AggregatedResultStats.get_worker_statistics a = Returns d
    /\ (AggregatedResult.worker_results a = [] -> d = [])
    /\ (AggregatedResult.worker_results a <> [] ->
        exists valid failed lo hi,
          dict_get String.eqb d "total_workers"
          = Some (MInt (List.length (AggregatedResult.worker_results a)))
          /\ dict_get String.eqb d "valid_workers" = Some (MInt valid)
          /\ dict_get String.eqb d "failed_workers" = Some (MInt failed)
          /\ valid = AggregatedResult.valid_workers a
          /\ (valid + failed = List.length (AggregatedResult.worker_results a))%nat
          /\ dict_get String.eqb d "min_confidence" = Some (MNum lo)
          /\ dict_get String.eqb d "max_confidence" = Some (MNum hi)
          /\ lo <= hi
          /\ (valid = 0%nat -> lo = 0 /\ hi = 0)).
Proof.
  unfold AggregatedResultStats.get_worker_statistics,
    AggregatedResultStats.average_worker_confidence, AggregatedResult.valid_workers,
    AggregatedResult.num_workers.
  destruct (AggregatedResult.worker_results a) as [| r rs] eqn:E.
  - exists []. split; [reflexivity |]. split; [reflexivity | congruence].
  - assert (Hne : r :: rs <> []) by discriminate.
    pose proof (Qlen_pos Hne) as Hpos.
    rewrite truediv_Returns by lra. cbn [bind].
    rewrite truediv_Returns by (rewrite StatsFacts.Qnat_Qlen; lra). cbn [bind].
    eexists. split; [reflexivity |]. split; [discriminate |]. intros _.
    set (valid := filter WorkerResult.is_valid (r :: rs)).
    exists (List.length valid), (List.length (r :: rs) - List.length valid)%nat,
      (min_default (map WorkerResult.confidence valid) 0),
      (max_default (map WorkerResult.confidence valid) 0).
    repeat split; try reflexivity.
    + pose proof (filter_length_le WorkerResult.is_valid (r :: rs)). fold valid in H. lia.
    + apply StatsFacts.min_le_max_default.
    + apply length_zero_iff_nil in H. rewrite H. reflexivity.
    + apply length_zero_iff_nil in H. rewrite H. reflexivity.
Qed.

(** ** The counters and the status of a worker *)

(** [execute] keeps the books: it counts the execution and changes neither
    the id nor the configuration, so a worker never has more failures than
    executions; when it returns, which it does unless the worker raises
    something that does not derive from [Exception], it has counted a failure
    exactly when the result is [FAILED], left the worker [IDLE] after a
    [SUCCESS] and [FAILED] after a failure, and reported the new count in the
    metadata of the result; when it raises, the worker raised something that
    does not derive from [Exception], no failure is counted and the worker
    stays [ACTIVE]. *)
Theorem execute_bookkeeping (w : Worker.t) (data : pyvalue) (trace_id : option string)
  (fresh_uuid : string) (t_start t_ok t_err : Q) :
  t_start <= t_err ->
  let w' := fst (Worker.execute w data trace_id fresh_uuid t_start t_ok t_err) in
  Worker.execution_count w' = S (Worker.execution_count w)
  /\ Worker.worker_id w' = Worker.worker_id w
  /\ Worker.config w' = Worker.config w
  /\ ((Worker.failure_count w <= Worker.execution_count w)%nat ->
      (Worker.failure_count w' <= Worker.execution_count w')%nat)
  /\ (catchable w data ->
      exists r,
        snd (Worker.execute w data trace_id fresh_uuid t_start t_ok t_err) = Returns r
        /\ ((WorkerResult.status r = SUCCESS
             /\ Worker.failure_count w' = Worker.failure_count w
             /\ Worker.status w' = WorkerStatus.IDLE
             /\ dict_get String.eqb (WorkerResult.metadata r) "execution_count"
                = Some (MInt (Worker.execution_count w')))
            \/ (WorkerResult.status r = FAILED
                /\ Worker.failure_count w' = S (Worker.failure_count w)
                /\ Worker.status w' = WorkerStatus.FAILED
                /\ dict_get String.eqb (WorkerResult.metadata r) "failure_count"
                   = Some (MInt (Worker.failure_count w')))))
  /\ (forall e,
        snd (Worker.execute w data trace_id fresh_uuid t_start t_ok t_err) = Raises e ->
        is_Exception e = false
        /\ fails_with w data e
        /\ Worker.failure_count w' = Worker.failure_count w
        /\ Worker.status w' = WorkerStatus.ACTIVE).
Proof.
  intros Herr w'. subst w'. unfold Worker.execute. simpl.
  destruct (Worker.process w data) as [v | e] eqn:Hp.
  - destruct (Worker.get_confidence w data v) as [c | e] eqn:Hc.
    + destruct (WorkerResult.new _ v c _ SUCCESS _ _) as [r | e] eqn:Hnew.
      * apply WorkerResult_new_Returns in Hnew. destruct Hnew as (-> & _). simpl.
        do 3 (split; [reflexivity |]). split; [lia |]. split; [| discriminate].
        intros _. eexists. split; [reflexivity |]. left. repeat split.
      * rewrite WorkerFacts.execute_except_caught
          by exact (WorkerFacts.WorkerResult_new_Raises _ _ _ _ _ _ _ Hnew).
        rewrite WorkerFacts.execute_handler_Returns by exact Herr. simpl.
        do 3 (split; [reflexivity |]). split; [lia |]. split; [| discriminate].
        intros _. eexists. split; [reflexivity |]. right. repeat split.
    + destruct (is_Exception e) eqn:E.
      * rewrite WorkerFacts.execute_except_caught by exact E.
        rewrite WorkerFacts.execute_handler_Returns by exact Herr. simpl.
        do 3 (split; [reflexivity |]). split; [lia |]. split; [| discriminate].
        intros _. eexists. split; [reflexivity |]. right. repeat split.
      * rewrite WorkerFacts.execute_except_escapes by exact E. simpl.
        assert (Hf : fails_with w data e)
          by (right; exists v; split; [exact Hp | exact Hc]).
        do 3 (split; [reflexivity |]). split; [lia |]. split.
        -- intro Hcatch. rewrite (Hcatch e Hf) in E. discriminate.
        -- intros e' H. injection H as <-. repeat split; assumption.
  - destruct (is_Exception e) eqn:E.
    + rewrite WorkerFacts.execute_except_caught by exact E.
      rewrite WorkerFacts.execute_handler_Returns by exact Herr. simpl.
      do 3 (split; [reflexivity |]). split; [lia |]. split; [| discriminate].
      intros _. eexists. split; [reflexivity |]. right. repeat split.
    + rewrite WorkerFacts.execute_except_escapes by exact E. simpl.
      assert (Hf : fails_with w data e) by (left; exact Hp).
      do 3 (split; [reflexivity |]). split; [lia |]. split.
      * intro Hcatch. rewrite (Hcatch e Hf) in E. discriminate.
      * intros e' H. injection H as <-. repeat split; assumption.
Qed.

Lemma execute_bookkeeping_witness :
  0 <= 1
  /\ Worker.execution_count
       (fst (Worker.execute (raising_worker "bad" ZeroDivisionError) VNone None "u" 0 1 1))
     = 1%nat
  /\ (exists r,
        snd (Worker.execute (raising_worker "bad" ZeroDivisionError) VNone None "u" 0 1 1)
        = Returns r
        /\ WorkerResult.status r = FAILED
        /\ Worker.failure_count
             (fst (Worker.execute (raising_worker "bad" ZeroDivisionError) VNone None "u"
                     0 1 1))
           = 1%nat)
  /\ Worker.status
       (fst (Worker.execute (raising_worker "bad" KeyboardInterrupt) VNone None "u" 0 1 1))
     = WorkerStatus.ACTIVE.
Proof.
  assert (H : 0 <= 1) by (unfold Qle; simpl; lia).
  split; [exact H |]. split; [| split].
  - exact (proj1 (@execute_bookkeeping (raising_worker "bad" ZeroDivisionError) VNone None
                    "u" 0 1 1 H)).
  - destruct (@execute_bookkeeping (raising_worker "bad" ZeroDivisionError) VNone None "u"
                0 1 1 H) as (_ & _ & _ & _ & Hret & _).
    destruct Hret as (r & Hr & [(Hs & _) | (Hs & Hf & _)]).
    + intros e [He | (v & Hv & _)]; [| discriminate].
      injection He as <-. reflexivity.
    + exfalso. vm_compute in Hr. injection Hr as <-. discriminate.
    + exists r. split; [exact Hr |]. split; [exact Hs | exact Hf].
  - destruct (@execute_bookkeeping (raising_worker "bad" KeyboardInterrupt) VNone None "u"
                0 1 1 H) as (_ & _ & _ & _ & _ & Hraise).
    exact (proj2 (proj2 (proj2 (Hraise KeyboardInterrupt eq_refl)))).
Defined.

(** [execute] overwrites the status of the worker it runs: whatever the status
    was, [QUARANTINED] and [DISABLED] included, the worker is active afterwards
    exactly when its configuration is enabled, also after a failure.  Its
    status is [IDLE] or [FAILED] when [execute] returns, and when it raises
    the [ValueError] of a clock that was set back; it is [ACTIVE] when
    [execute] raises anything else, which is what the worker raised and does
    not derive from [Exception]. *)
Theorem execute_resets_status (w : Worker.t) (data : pyvalue) (trace_id : option string)
  (fresh_uuid : string) (t_start t_ok t_err : Q) :
  let w' := fst (Worker.execute w data trace_id fresh_uuid t_start t_ok t_err) in
  let out := snd (Worker.execute w data trace_id fresh_uuid t_start t_ok t_err) in
  Worker.is_active w' = WorkerConfig.enabled (Worker.config w)
  /\ (forall r, out = Returns r ->
        (WorkerResult.status r = SUCCESS /\ Worker.status w' = WorkerStatus.IDLE)
        \/ (WorkerResult.status r = FAILED /\ Worker.status w' = WorkerStatus.FAILED))
  /\ (forall e, out = Raises e ->
        (is_Exception e = true /\ Worker.status w' = WorkerStatus.FAILED)
        \/ (is_Exception e = false /\ fails_with w data e
            /\ Worker.status w' = WorkerStatus.ACTIVE))
  /\ (catchable w data ->
      Worker.status w' = WorkerStatus.IDLE \/ Worker.status w' = WorkerStatus.FAILED).
Proof.
  intros w' out. subst w' out.
  unfold Worker.execute, Worker.is_active. simpl.
  assert (Hhandler : forall self tr e,
             Worker.status (fst (Worker.execute_handler self tr t_start t_err e))
             = WorkerStatus.FAILED
             /\ WorkerConfig.enabled
                  (Worker.config (fst (Worker.execute_handler self tr t_start t_err e)))
                = WorkerConfig.enabled (Worker.config self)
             /\ (forall r, snd (Worker.execute_handler self tr t_start t_err e) = Returns r ->
                           WorkerResult.status r = FAILED)
             /\ (forall e', snd (Worker.execute_handler self tr t_start t_err e) = Raises e' ->
                            is_Exception e' = true)).
  { intros self tr e. unfold Worker.execute_handler. cbn [fst snd].
    repeat split.
    - intros r H. apply WorkerResult_new_Returns in H. destruct H as (-> & _). reflexivity.
    - intros e' H. exact (WorkerFacts.WorkerResult_new_Raises _ _ _ _ _ _ _ H). }
  destruct (Worker.process w data) as [v | e] eqn:Hp.
  - destruct (Worker.get_confidence w data v) as [c | e] eqn:Hc.
    + destruct (WorkerResult.new _ v c _ SUCCESS _ _) as [r | e] eqn:Hnew.
      * apply WorkerResult_new_Returns in Hnew. destruct Hnew as (-> & _). simpl.
        rewrite andb_true_r. split; [reflexivity |]. split; [| split].
        -- intros r H. injection H as <-. left. split; reflexivity.
        -- discriminate.
        -- intros _. left. reflexivity.
      * rewrite WorkerFacts.execute_except_caught
          by exact (WorkerFacts.WorkerResult_new_Raises _ _ _ _ _ _ _ Hnew).
        destruct (Hhandler
                    (Worker.set_total_processing_time_ms
                       (Worker.set_execution_count
                          (Worker.set_status w WorkerStatus.ACTIVE)
                          (S (Worker.execution_count w)))
                       (Worker.total_processing_time_ms w + (t_ok - t_start) * 1000))
                    (match trace_id with None => fresh_uuid | Some s => s end) e)
          as (Hst & Hen & Hr & He).
        simpl in Hst, Hen, Hr, He |- *. rewrite andb_true_r.
        split; [reflexivity |]. split; [| split].
        -- intros r H. right. split; [exact (Hr r H) | reflexivity].
        -- intros e' H. left. split; [exact (He e' H) | reflexivity].
        -- intros _. right. reflexivity.
    + destruct (is_Exception e) eqn:E.
      * rewrite WorkerFacts.execute_except_caught by exact E.
        destruct (Hhandler
                    (Worker.set_execution_count
                       (Worker.set_status w WorkerStatus.ACTIVE)
                       (S (Worker.execution_count w)))
                    (match trace_id with None => fresh_uuid | Some s => s end) e)
          as (Hst & Hen & Hr & He).
        simpl in Hst, Hen, Hr, He |- *. rewrite andb_true_r.
        split; [reflexivity |]. split; [| split].
        -- intros r H. right. split; [exact (Hr r H) | reflexivity].
        -- intros e' H. left. split; [exact (He e' H) | reflexivity].
        -- intros _. right. reflexivity.
      * rewrite WorkerFacts.execute_except_escapes by exact E. simpl.
        rewrite andb_true_r.
        assert (Hf : fails_with w data e)
          by (right; exists v; split; [exact Hp | exact Hc]).
        split; [reflexivity |]. split; [| split].
        -- discriminate.
        -- intros e' H. injection H as <-. right. repeat split; assumption.
        -- intro Hcatch. rewrite (Hcatch e Hf) in E. discriminate.
  - destruct (is_Exception e) eqn:E.
    + rewrite WorkerFacts.execute_except_caught by exact E.
      destruct (Hhandler
                  (Worker.set_execution_count
                     (Worker.set_status w WorkerStatus.ACTIVE)
                     (S (Worker.execution_count w)))
                  (match trace_id with None => fresh_uuid | Some s => s end) e)
        as (Hst & Hen & Hr & He).
      simpl in Hst, Hen, Hr, He |- *. rewrite andb_true_r.
      split; [reflexivity |]. split; [| split].
      * intros r H. right. split; [exact (Hr r H) | reflexivity].
      * intros e' H. left. split; [exact (He e' H) | reflexivity].
      * intros _. right. reflexivity.
    + rewrite WorkerFacts.execute_except_escapes by exact E. simpl.
      rewrite andb_true_r.
      assert (Hf : fails_with w data e) by (left; exact Hp).
      split; [reflexivity |]. split; [| split].
      * discriminate.
      * intros e' H. injection H as <-. right. repeat split; assumption.
      * intro Hcatch. rewrite (Hcatch e Hf) in E. discriminate.
Qed.

(** [get_statistics] never divides by zero: for a worker that was never
    executed the failure rate and the average processing time are 0, and for a
    worker with no more failures than executions the failure rate lies in
    [0, 1]. *)
Theorem get_statistics_rates (w : Worker.t) :
  exists d rate average,
    WorkerStats.get_statistics w = Returns d
    /\ dict_get String.eqb d "failure_rate" = Some (MNum rate)
    /\ dict_get String.eqb d "average_processing_time_ms" = Some (MNum average)
    /\ rate == Qnat (Worker.failure_count w) / Qnat (Nat.max (Worker.execution_count w) 1)
    /\ (Worker.execution_count w = 0%nat ->
        average == Worker.total_processing_time_ms w
        /\ rate == Qnat (Worker.failure_count w))
    /\ ((Worker.failure_count w <= Worker.execution_count w)%nat -> 0 <= rate <= 1).
Proof.
  pose proof (StatsFacts.Qnat_max_pos (Worker.execution_count w)) as Hpos.
  unfold WorkerStats.get_statistics.
  rewrite truediv_Returns by lra. cbn [bind].
  rewrite truediv_Returns by lra. cbn [bind].
  eexists. eexists. eexists. split; [reflexivity |].
  split; [reflexivity |]. split; [reflexivity |]. split; [reflexivity |]. split.
  - intros ->. simpl Nat.max. change (Qnat 1) with 1. split; field.
  - intro Hle. split.
    + apply Qle_shift_div_l; [exact Hpos |].
      pose proof (StatsFacts.Qnat_le (Nat.le_0_l (Worker.failure_count w))) as H0.
      change (Qnat 0) with 0 in H0. lra.
    + apply Qle_shift_div_r; [exact Hpos |].
      assert (H1 : (Worker.failure_count w <= Nat.max (Worker.execution_count w) 1)%nat)
        by lia.
      pose proof (StatsFacts.Qnat_le H1). lra.
Qed.

(** ** Deleting from and merging dictionaries *)

Section StringDictMore.
Variable V : Type.
Implicit Types (d : dict string V) (k : string) (v : V).

Lemma dict_get_absent d k : ~ In k (dict_keys d) -> dict_get String.eqb d k = None.
Proof.
  intro H. destruct (dict_get String.eqb d k) eqn:E; [| reflexivity].
  exfalso. apply H. apply dict_mem_in_keys. unfold dict_mem. rewrite E. reflexivity.
Qed.

Lemma dict_get_del_same d k :
  NoDup (dict_keys d) -> dict_get String.eqb (dict_del String.eqb d k) k = None.
Proof.
  induction d as [| [k0 v0] d IH]; simpl; intro Hnd; [reflexivity |].
  inversion Hnd as [| ? ? Hnotin Hnd']; subst.
  destruct (String.eqb k0 k) eqn:E.
  - apply String.eqb_eq in E. subst k0. apply dict_get_absent. exact Hnotin.
  - simpl. rewrite E. apply IH. exact Hnd'.
Qed.

Lemma dict_get_del_other d k k' :
  k' <> k -> dict_get String.eqb (dict_del String.eqb d k) k' = dict_get String.eqb d k'.
Proof.
  intro Hne. induction d as [| [k0 v0] d IH]; simpl; [reflexivity |].
  destruct (String.eqb k0 k) eqn:E.
  - apply String.eqb_eq in E. subst k0.
    destruct (String.eqb k k') eqn:E'; [apply String.eqb_eq in E'; congruence | reflexivity].
  - simpl. rewrite IH. reflexivity.
Qed.

Lemma dict_len_del_present d k :
  dict_mem String.eqb d k = true -> S (dict_len (dict_del String.eqb d k)) = dict_len d.
Proof.
  unfold dict_mem, dict_len. induction d as [| [k0 v0] d IH]; simpl; [discriminate |].
  destruct (String.eqb k0 k) eqn:E; simpl; [reflexivity |].
  intro H. rewrite IH; auto.
Qed.

Lemma dict_del_set_absent d k v :
  dict_mem String.eqb d k = false ->
  dict_del String.eqb (dict_set String.eqb d k v) k = d.
Proof.
  unfold dict_mem. induction d as [| [k0 v0] d IH]; simpl.
  - rewrite String.eqb_refl. reflexivity.
  - destruct (String.eqb k0 k) eqn:E; [discriminate |].
    intro H. simpl. rewrite E, IH; auto.
Qed.

Lemma dict_keys_del_incl d k x :
  In x (dict_keys (dict_del String.eqb d k)) -> In x (dict_keys d).
Proof.
  unfold dict_keys. induction d as [| [k0 v0] d IH]; simpl; [tauto |].
  destruct (String.eqb k0 k); simpl; [auto |]. intros [H | H]; auto.
Qed.

Lemma dict_keys_del_NoDup d k :
  NoDup (dict_keys d) -> NoDup (dict_keys (dict_del String.eqb d k)).
Proof.
  induction d as [| [k0 v0] d IH]; simpl; intro Hnd; [constructor |].
  inversion Hnd as [| ? ? Hnotin Hnd']; subst.
  destruct (String.eqb k0 k); [exact Hnd' |].
  simpl. constructor; [| apply IH; exact Hnd'].
  intro H. apply Hnotin. exact (dict_keys_del_incl _ _ _ H).
Qed.

Lemma dict_merge_get (a b : dict string V) k :
  NoDup (dict_keys b) ->
  dict_get String.eqb (dict_merge a b) k
  = match dict_get String.eqb b k with
    | Some v => Some v
    | None => dict_get String.eqb a k
    end.
Proof.
  unfold dict_merge. revert a.
  induction b as [| [k0 v0] b IH]; intros a Hnd; simpl; [reflexivity |].
  inversion Hnd as [| ? ? Hnotin Hnd']; subst.
  rewrite IH by exact Hnd'. simpl.
  destruct (String.eqb k0 k) eqn:E.
  - apply String.eqb_eq in E. subst k0.
    rewrite (dict_get_absent b k Hnotin). apply dict_get_set_same.
  - apply String.eqb_neq in E.
    destruct (dict_get String.eqb b k); [reflexivity |].
    apply dict_get_set_other. congruence.
Qed.

End StringDictMore.

(** ** Variations of a worker *)

(** [apply_variation] builds a fresh worker of the same class: its id is the
    id of the original followed by [_var_] and eight characters of a uuid, its
    parameters are those of the original overridden by the variation, the rest
    of the configuration (type, schemas, thresholds, enabled flag, timeout
    and retry attempts) is copied, and it starts [IDLE] with counters at
    zero. *)
Theorem apply_variation_config (cls : worker_class) (w : Worker.t) (uuid_hex : string)
  (variation_params : list (string * pyvalue)) :
  NoDup (dict_keys variation_params) ->
  let v := WorkerStats.apply_variation cls w uuid_hex variation_params in
  Worker.worker_id v = Worker.worker_id w ++ "_var_" ++ String.substring 0 8 uuid_hex
  /\ WorkerConfig.worker_id (Worker.config v) = Worker.worker_id v
  /\ (forall k,
        dict_get String.eqb (WorkerConfig.parameters (Worker.config v)) k
        = match dict_get String.eqb variation_params k with
          | Some x => Some x
          | None => dict_get String.eqb (WorkerConfig.parameters (Worker.config w)) k
          end)
  /\ WorkerConfig.enabled (Worker.config v) = WorkerConfig.enabled (Worker.config w)
  /\ WorkerConfig.timeout_seconds (Worker.config v)
     = WorkerConfig.timeout_seconds (Worker.config w)
  /\ WorkerConfig.worker_type (Worker.config v) = WorkerConfig.worker_type (Worker.config w)
  /\ WorkerConfig.input_schema (Worker.config v)
     = WorkerConfig.input_schema (Worker.config w)
  /\ WorkerConfig.output_schema (Worker.config v)
     = WorkerConfig.output_schema (Worker.config w)
  /\ WorkerConfig.thresholds (Worker.config v) = WorkerConfig.thresholds (Worker.config w)
  /\ WorkerConfig.retry_attempts (Worker.config v)
     = WorkerConfig.retry_attempts (Worker.config w)
  /\ Worker.status v = WorkerStatus.IDLE
  /\ Worker.execution_count v = 0%nat /\ Worker.failure_count v = 0%nat
  /\ Worker.process v = cls_process cls (Worker.config v)
  /\ Worker.get_confidence v = cls_get_confidence cls (Worker.config v).
Proof.
  intros Hnd v. subst v. unfold WorkerStats.apply_variation, instantiate. simpl.
  repeat split. intro k. apply dict_merge_get. exact Hnd.
Qed.

Lemma apply_variation_config_witness :
  NoDup (dict_keys [("bias", VNum 2)])
  /\ dict_get String.eqb
       (WorkerConfig.parameters
          (Worker.config
             (WorkerStats.apply_variation ClassificationWorker.cls
                (constant_worker "on" true 30 (VNum 1) 1) "0123456789abcdef"
                [("bias", VNum 2)])))
       "bias"
     = Some (VNum 2).
Proof.
  assert (H : NoDup (dict_keys [("bias", VNum 2)])).
  { simpl. constructor; [intros [] | constructor]. }
  split; [exact H |].
  destruct (@apply_variation_config ClassificationWorker.cls
              (constant_worker "on" true 30 (VNum 1) 1) "0123456789abcdef"
              [("bias", VNum 2)] H) as (_ & _ & Hp & _).
  exact (Hp "bias").
Defined.

(** ** The registry: removing, adding, shutting down *)

(** [unregister_worker] removes the worker stored under the id and nothing
    else: the id is no longer found, every other id is found as before, and
    the registry has one worker less; for an id that is not registered the
    pool is unchanged. *)
Theorem unregister_worker_removes (pool : WorkerPool.t) (worker_id : string) :
  NoDup (dict_keys (WorkerPool.workers pool)) ->
  let pool' := WorkerPool.unregister_worker pool worker_id in
  WorkerPool.get_worker pool' worker_id = None
  /\ (forall wid, wid <> worker_id ->
        WorkerPool.get_worker pool' wid = WorkerPool.get_worker pool wid)
  /\ NoDup (dict_keys (WorkerPool.workers pool'))
  /\ (dict_mem String.eqb (WorkerPool.workers pool) worker_id = true ->
      S (dict_len (WorkerPool.workers pool')) = dict_len (WorkerPool.workers pool))
  /\ (dict_mem String.eqb (WorkerPool.workers pool) worker_id = false -> pool' = pool).
Proof.
  intros Hnd pool'. subst pool'. unfold WorkerPool.unregister_worker, WorkerPool.get_worker.
  destruct (dict_mem String.eqb (WorkerPool.workers pool) worker_id) eqn:E; simpl.
  - split; [apply dict_get_del_same; exact Hnd |].
    split; [intros wid Hne; apply dict_get_del_other; exact Hne |].
    split; [apply dict_keys_del_NoDup; exact Hnd |].
    split; [intros _; apply dict_len_del_present; exact E | discriminate].
  - split.
    + unfold dict_mem in E.
      destruct (dict_get String.eqb (WorkerPool.workers pool) worker_id);
        [discriminate | reflexivity].
    + split; [reflexivity |]. split; [exact Hnd |]. split; [discriminate | reflexivity].
Qed.

Lemma unregister_worker_removes_witness :
  NoDup (dict_keys (WorkerPool.workers mixed_pool))
  /\ WorkerPool.get_worker (WorkerPool.unregister_worker mixed_pool "on") "on" = None
  /\ WorkerPool.get_worker (WorkerPool.unregister_worker mixed_pool "on") "off"
     = WorkerPool.get_worker mixed_pool "off".
Proof.
  assert (H : NoDup (dict_keys (WorkerPool.workers mixed_pool))).
  { simpl. constructor; [intros [H | []]; discriminate |].
    constructor; [intros [] | constructor]. }
  split; [exact H |].
  destruct (@unregister_worker_removes mixed_pool "on" H) as (H1 & H2 & _).
  split; [exact H1 | apply H2; discriminate].
Defined.

(** Registering a worker under an id that is not registered appends it to the
    registry, where it is found, and unregistering that id again gives back
    the pool as it was. *)
Theorem register_unregister_round_trip (pool : WorkerPool.t) (w : Worker.t) :
  dict_mem String.eqb (WorkerPool.workers pool) (Worker.worker_id w) = false ->
  let pool' := WorkerPool.register_worker pool w in
  WorkerPool.get_worker pool' (Worker.worker_id w) = Some w
  /\ WorkerPool.workers pool'
     = (WorkerPool.workers pool ++ [(Worker.worker_id w, w)])%list
  /\ WorkerPool.unregister_worker pool' (Worker.worker_id w) = pool.
Proof.
  intros Hfresh pool'. subst pool'.
  unfold WorkerPool.get_worker, WorkerPool.register_worker, WorkerPool.unregister_worker.
  simpl. split; [apply dict_get_set_same |].
  split; [apply dict_set_absent; exact Hfresh |].
  assert (Hmem : dict_mem String.eqb
                   (dict_set String.eqb (WorkerPool.workers pool) (Worker.worker_id w) w)
                   (Worker.worker_id w) = true).
  { unfold dict_mem. rewrite dict_get_set_same. reflexivity. }
  rewrite Hmem. simpl. rewrite dict_del_set_absent by exact Hfresh.
  destruct pool. reflexivity.
Qed.

Lemma register_unregister_round_trip_witness :
  dict_mem String.eqb (WorkerPool.workers mixed_pool) "new" = false
  /\ WorkerPool.unregister_worker
       (WorkerPool.register_worker mixed_pool (constant_worker "new" true 30 VNone 1)) "new"
     = mixed_pool.
Proof.
  split; [reflexivity |].
  exact (proj2 (proj2 (@register_unregister_round_trip mixed_pool
                         (constant_worker "new" true 30 VNone 1) eq_refl))).
Defined.

Lemma named_workers_of_empty (pool : WorkerPool.t) (ids : list string) :
  WorkerPool.workers pool = [] ->
  flat_map
    (fun wid =>
       match dict_get String.eqb (WorkerPool.workers pool) wid with
       | Some w => [w]
       | None => []
       end) ids = [].
Proof.
  intro H. rewrite H. induction ids as [| wid ids IH]; simpl; [reflexivity | exact IH].
Qed.

(** [shutdown] empties the registry and can be repeated; on a pool that was
    shut down [execute_parallel] dispatches nothing and returns an empty list,
    whichever worker ids are asked for. *)
Theorem shutdown_empties (pool : WorkerPool.t) (data : pyvalue)
  (worker_ids : option (list string)) (trace_id : option string) (fresh_uuid : string)
  (t_submit : Q) (schedule : list timing) :
  let down := WorkerPool.shutdown pool in
  WorkerPool.workers down = []
  /\ WorkerPool.shutdown down = down
  /\ (forall wid, WorkerPool.get_worker down wid = None)
  /\ WorkerPool.execute_parallel down data worker_ids trace_id fresh_uuid t_submit schedule
     = (down, Returns []).
Proof.
  intro down. subst down. split; [reflexivity |]. split; [reflexivity |].
  split; [reflexivity |].
  unfold WorkerPool.execute_parallel.
  assert (H : WorkerPool.workers_to_execute (WorkerPool.shutdown pool) worker_ids = []).
  { unfold WorkerPool.workers_to_execute. destruct worker_ids as [[| wid ids] |];
      try reflexivity.
    apply named_workers_of_empty. reflexivity. }
  rewrite H. reflexivity.
Qed.

(** ** One call of [execute_parallel] *)

Module DispatchFacts.
Import WorkerPool.

Lemma execute_trace_id (w : Worker.t) (data : pyvalue) (tr fresh_uuid : string)
  (t_start t_ok t_err : Q) (r : WorkerResult.t) :
  snd (Worker.execute w data (Some tr) fresh_uuid t_start t_ok t_err) = Returns r ->
  WorkerResult.trace_id r = tr.
Proof.
  assert (Hexc : forall self e,
             snd (Worker.execute_except self tr t_start t_err e) = Returns r ->
             WorkerResult.trace_id r = tr).
  { intros self e. unfold Worker.execute_except, Worker.execute_handler.
    destruct (is_Exception e); cbn [snd]; [| discriminate].
    intro H. apply WorkerResult_new_Returns in H. destruct H as (-> & _). reflexivity. }
  unfold Worker.execute. simpl.
  destruct (Worker.process w data) as [v | e]; [| apply Hexc].
  destruct (Worker.get_confidence w data v) as [c | e]; [| apply Hexc].
  destruct (WorkerResult.new _ v c _ SUCCESS _ _) as [r' | e] eqn:Hnew; [| apply Hexc].
  simpl. intro H. injection H as <-.
  apply WorkerResult_new_Returns in Hnew. destruct Hnew as (-> & _). reflexivity.
Qed.

Lemma run_submitted_traced (data : pyvalue) (tr : string)
  (tasks : list (Worker.t * timing)) :
  forall store, Forall (traced tr) (snd (run_submitted store data tr tasks)).
Proof.
  induction tasks as [| [w tm] tasks IH]; intro store; simpl; [constructor |].
  set (cur := dict_get_default String.eqb store (Worker.worker_id w) w).
  pose proof (@execute_trace_id cur data tr tr (started tm) (finished tm) (finished tm))
    as Htr.
  destruct (Worker.execute cur data (Some tr) tr (started tm) (finished tm) (finished tm))
    as [w' out].
  specialize (IH (dict_set String.eqb store (Worker.worker_id w) w')).
  destruct (run_submitted _ data tr tasks) as [store' futs]. simpl in *.
  constructor; [| exact IH]. intros r Hr. simpl in Hr. apply Htr. exact Hr.
Qed.

Lemma collect_one_traced (tr : string) (now : Q) (f : future) (r : WorkerResult.t) :
  traced tr f -> collect_one tr now f = Returns r -> WorkerResult.trace_id r = tr.
Proof.
  intros Hf. unfold collect_one, future_result.
  assert (Hnew : forall wid v c pt st md,
             WorkerResult.new wid v c pt st md tr = Returns r ->
             WorkerResult.trace_id r = tr).
  { intros wid v c pt st md H. apply WorkerResult_new_Returns in H.
    destruct H as (-> & _). reflexivity. }
  destruct (Qle_bool (fut_done_at f) now).
  - destruct (fut_outcome f) as [r' | e] eqn:E.
    + intro H. injection H as <-. apply Hf. exact E.
    + destruct e; cbn [is_Exception]; try discriminate; apply Hnew.
  - destruct (Qle_bool (fut_done_at f) _).
    + destruct (fut_outcome f) as [r' | e] eqn:E.
      * intro H. injection H as <-. apply Hf. exact E.
      * destruct e; cbn [is_Exception]; try discriminate; apply Hnew.
    + apply Hnew.
Qed.

Lemma collect_traced (tr : string) (fs : list future) :
  Forall (traced tr) fs ->
  forall now rs,
    collect tr now fs = Returns rs -> Forall (fun r => WorkerResult.trace_id r = tr) rs.
Proof.
  induction 1 as [| f fs Hf Hfs IH]; intros now rs; simpl.
  - intro H. injection H as <-. constructor.
  - intro H. bind_inv H. injection H as <-.
    constructor; [exact (collect_one_traced _ Hf E) | exact (IH _ _ E0)].
Qed.

Lemma execute_parallel_traced (pool : t) (data : pyvalue) (worker_ids : option (list string))
  (trace_id : option string) (fresh_uuid : string) (t_submit : Q) (schedule : list timing)
  (rs : list WorkerResult.t) :
  snd (execute_parallel pool data worker_ids trace_id fresh_uuid t_submit schedule)
  = Returns rs ->
  Forall
    (fun r =>
       WorkerResult.trace_id r = match trace_id with None => fresh_uuid | Some s => s end)
    rs.
Proof.
  unfold execute_parallel.
  set (tr := match trace_id with None => fresh_uuid | Some s => s end).
  destruct (workers_to_execute pool worker_ids) as [| w0 ws].
  - simpl. intro H. injection H as <-. constructor.
  - set (tasks := map _ (combine _ (w0 :: ws))).
    pose proof (run_submitted_traced data tr tasks (workers pool)) as Htr.
    destruct (run_submitted (workers pool) data tr tasks) as [store futs]. simpl in *.
    intro H. apply (collect_traced (tr := tr) (fs := as_completed futs)) with (now := t_submit);
      [| exact H].
    eapply Permutation_Forall; [apply Permutation_sym, PoolFacts.as_completed_perm |].
    exact Htr.
Qed.

(** The submitted calls leave the ids of the registry as they are when every
    submitted worker is registered under its id. *)
Lemma run_submitted_keys (data : pyvalue) (tr : string) (tasks : list (Worker.t * timing)) :
  forall store,
    (forall task, In task tasks ->
                  dict_mem String.eqb store (Worker.worker_id (fst task)) = true) ->
    dict_keys (fst (run_submitted store data tr tasks)) = dict_keys store.
Proof.
  induction tasks as [| [w tm] tasks IH]; intros store Hin; simpl; [reflexivity |].
  set (cur := dict_get_default String.eqb store (Worker.worker_id w) w).
  destruct (Worker.execute cur data (Some tr) tr (started tm) (finished tm) (finished tm))
    as [w' out].
  assert (Hw : dict_mem String.eqb store (Worker.worker_id w) = true)
    by (apply (Hin (w, tm)); left; reflexivity).
  pose proof (dict_keys_set_present store (Worker.worker_id w) w' Hw) as Hkeys.
  specialize (IH (dict_set String.eqb store (Worker.worker_id w) w')).
  destruct (run_submitted _ data tr tasks) as [store' futs]. simpl in *.
  rewrite IH; [exact Hkeys |].
  intros task Ht. apply dict_mem_in_keys. rewrite Hkeys. apply dict_mem_in_keys.
  apply Hin. right. exact Ht.
Qed.

Lemma value_is_registered (store : dict string Worker.t) (w : Worker.t) :
  keyed store -> NoDup (dict_keys store) -> In w (dict_values store) ->
  dict_mem String.eqb store (Worker.worker_id w) = true.
Proof.
  intros Hk Hnd Hin. unfold dict_values in Hin. apply in_map_iff in Hin.
  destruct Hin as ([k w'] & Hw & Hin). simpl in Hw. subst w'.
  assert (Hget : dict_get String.eqb store k = Some w).
  { clear Hk. induction store as [| [k0 w0] store IH]; simpl in *; [contradiction |].
    inversion Hnd as [| ? ? Hnotin Hnd']; subst.
    destruct Hin as [Hin | Hin].
    - injection Hin as -> ->. rewrite String.eqb_refl. reflexivity.
    - destruct (String.eqb k0 k) eqn:E; [| apply IH; assumption].
      apply String.eqb_eq in E. subst k0. exfalso. apply Hnotin.
      unfold dict_keys. change k with (fst (k, w)). apply in_map. exact Hin. }
  pose proof (Hk k w Hget) as Hid. unfold dict_mem. rewrite Hid, Hget. reflexivity.
Qed.

Lemma dispatched_is_registered (pool : t) (worker_ids : option (list string)) (w : Worker.t) :
  keyed (workers pool) -> NoDup (dict_keys (workers pool)) ->
  In w (workers_to_execute pool worker_ids) ->
  dict_mem String.eqb (workers pool) (Worker.worker_id w) = true.
Proof.
  intros Hk Hnd Hin.
  assert (Hactive : In w (get_active_workers pool) ->
                    dict_mem String.eqb (workers pool) (Worker.worker_id w) = true).
  { intro H. apply PoolFacts.get_active_workers_spec in H.
    apply value_is_registered; [exact Hk | exact Hnd | exact (proj1 H)]. }
  unfold workers_to_execute in Hin. destruct worker_ids as [[| wid ids] |]; auto.
  apply (PoolFacts.named_workers_spec pool (wid :: ids) w) in Hin.
  destruct Hin as (k & _ & Hget). unfold get_worker in Hget.
  pose proof (Hk k w Hget) as Hid. unfold dict_mem. rewrite Hid, Hget. reflexivity.
Qed.

End DispatchFacts.

(** All results of one [execute_parallel] call carry one trace id, the one the
    caller gave or else the fresh one, and the call neither adds workers to
    the registry nor removes any.  The call returns, with one result per
    dispatched worker, when no worker of the registry raises anything but
    [Exception]s. *)
Theorem execute_parallel_trace_and_registry (pool : WorkerPool.t) (data : pyvalue)
  (worker_ids : option (list string)) (trace_id : option string) (fresh_uuid : string)
  (t_submit : Q) (schedule : list timing) :
  keyed (WorkerPool.workers pool) -> NoDup (dict_keys (WorkerPool.workers pool)) ->
  sane schedule ->
  let out :=
    WorkerPool.execute_parallel pool data worker_ids trace_id fresh_uuid t_submit schedule in
  (well_behaved (WorkerPool.workers pool) data ->
   exists rs,
     snd out = Returns rs
     /\ List.length rs = List.length (WorkerPool.workers_to_execute pool worker_ids)
     /\ Forall
          (fun r =>
             WorkerResult.trace_id r
             = match trace_id with None => fresh_uuid | Some s => s end)
          rs)
  /\ (forall rs,
        snd out = Returns rs ->
        Forall
          (fun r =>
             WorkerResult.trace_id r
             = match trace_id with None => fresh_uuid | Some s => s end)
          rs)
  /\ dict_keys (WorkerPool.workers (fst out)) = dict_keys (WorkerPool.workers pool)
  /\ WorkerPool.max_workers (fst out) = WorkerPool.max_workers pool.
Proof.
  intros Hk Hnd Hs out. subst out. split; [| split].
  - intro Hwb.
    destruct (@PoolFacts.execute_parallel_Returns pool data worker_ids trace_id fresh_uuid
                t_submit schedule Hk Hs Hwb) as (rs & Hrs & Hperm & _).
    exists rs. split; [exact Hrs |]. split.
    + apply Permutation_length in Hperm. rewrite !length_map in Hperm. exact Hperm.
    + exact (DispatchFacts.execute_parallel_traced _ _ _ _ _ _ _ Hrs).
  - intros rs Hrs. exact (DispatchFacts.execute_parallel_traced _ _ _ _ _ _ _ Hrs).
  - unfold WorkerPool.execute_parallel.
    pose proof (fun w => @DispatchFacts.dispatched_is_registered pool worker_ids w Hk Hnd)
      as Hreg.
    destruct (WorkerPool.workers_to_execute pool worker_ids) as [| w0 ws];
      [split; reflexivity |].
    set (todo := w0 :: ws) in *.
    set (tr := match trace_id with None => fresh_uuid | Some s => s end).
    set (tasks := map _ (combine _ todo)).
    assert (Htasks : map fst tasks = todo) by apply PoolFacts.map_snd_combine_seq.
    pose proof (@DispatchFacts.run_submitted_keys data tr tasks (WorkerPool.workers pool))
      as Hkeys.
    destruct (WorkerPool.run_submitted (WorkerPool.workers pool) data tr tasks)
      as [store futs]. cbn [fst] in Hkeys. cbn [fst WorkerPool.workers WorkerPool.max_workers].
    split; [| reflexivity]. apply Hkeys.
    intros task Ht. apply Hreg.
    assert (Hin : In (fst task) (map fst tasks)) by (apply in_map; exact Ht).
    rewrite Htasks in Hin. exact Hin.
Qed.

Lemma execute_parallel_trace_and_registry_witness :
  keyed (WorkerPool.workers mixed_pool)
  /\ NoDup (dict_keys (WorkerPool.workers mixed_pool))
  /\ sane []
  /\ dict_keys
       (WorkerPool.workers
          (fst (WorkerPool.execute_parallel mixed_pool VNone None (Some "t") "u" 0 [])))
     = dict_keys (WorkerPool.workers mixed_pool)
  /\ exists rs,
      snd (WorkerPool.execute_parallel mixed_pool VNone None (Some "t") "u" 0 [])
      = Returns rs
      /\ List.length rs = 1%nat
      /\ Forall (fun r => WorkerResult.trace_id r = "t") rs.
Proof.
  assert (Hs : sane []) by constructor.
  split; [exact PoolFacts.mixed_pool_keyed |].
  split; [exact PoolFacts.mixed_pool_NoDup |]. split; [exact Hs |].
  destruct (@execute_parallel_trace_and_registry mixed_pool VNone None (Some "t") "u" 0 []
              PoolFacts.mixed_pool_keyed PoolFacts.mixed_pool_NoDup Hs)
    as (Hret & _ & Hkeys & _).
  split; [exact Hkeys |].
  exact (Hret (@PoolFacts.mixed_pool_well_behaved VNone)).
Defined.

(** ** Statistics and variations of the pool *)

Module PoolStatsFacts.
Import WorkerPoolStats.

Lemma get_statistics_Returns (w : Worker.t) :
  exists d, WorkerStats.get_statistics w = Returns d.
Proof.
  pose proof (StatsFacts.Qnat_max_pos (Worker.execution_count w)) as Hpos.
  unfold WorkerStats.get_statistics.
  rewrite truediv_Returns by lra. cbn [bind].
  rewrite truediv_Returns by lra. cbn [bind].
  eexists. reflexivity.
Qed.

Lemma collect_statistics (ws : list Worker.t) :
  forall acc,
    exists ds,
      for_each
        (fun acc w => s <- WorkerStats.get_statistics w ;; Returns (acc ++ [s])%list) ws acc
      = Returns (acc ++ ds)%list
      /\ List.length ds = List.length ws.
Proof.
  induction ws as [| w ws IH]; intro acc; simpl.
  - exists []. rewrite app_nil_r. auto.
  - destruct (get_statistics_Returns w) as (d & ->). cbn [bind].
    destruct (IH (acc ++ [d])%list) as (ds & -> & Hlen).
    exists (d :: ds). rewrite <- app_assoc. simpl. auto.
Qed.

Lemma count_step_sum (counts : dict string nat) (k : string) :
  list_sum
    (dict_values
       (dict_set String.eqb counts k (dict_get_default String.eqb counts k 0%nat + 1)%nat))
  = S (list_sum (dict_values counts)).
Proof.
  unfold dict_values, dict_get_default.
  induction counts as [| [k0 n0] counts IH]; simpl; [reflexivity |].
  destruct (String.eqb k0 k) eqn:E; simpl; [lia |].
  rewrite IH. lia.
Qed.

Lemma status_counts_sum (ws : list Worker.t) :
  list_sum (dict_values (status_counts ws)) = List.length ws.
Proof.
  unfold status_counts.
  assert (H : forall counts,
             list_sum
               (dict_values
                  (fold_left
                     (fun counts worker =>
                        let status := status_value (Worker.status worker) in
                        dict_set String.eqb counts status
                          (dict_get_default String.eqb counts status 0%nat + 1)%nat)
                     ws counts))
             = (list_sum (dict_values counts) + List.length ws)%nat).
  { induction ws as [| w ws IH]; intro counts; simpl; [lia |].
    rewrite IH, count_step_sum. lia. }
  rewrite H. reflexivity.
Qed.

Lemma sum_failures_le (ws : list Worker.t) :
  Forall (fun w => (Worker.failure_count w <= Worker.execution_count w)%nat) ws ->
  (list_sum (map Worker.failure_count ws) <= list_sum (map Worker.execution_count ws))%nat.
Proof.
  induction 1 as [| w ws Hw Hws IH]; simpl; lia.
Qed.

End PoolStatsFacts.

(** [get_pool_statistics] never fails, also on an empty pool: it counts the
    registered and the active workers (no more active than registered), gives
    one statistics entry per worker, a status distribution whose counts add up
    to the number of workers, and an overall failure rate that lies in [0, 1]
    when no worker has more failures than executions. *)
Theorem get_pool_statistics_counts (pool : WorkerPool.t) :
  exists st,
    WorkerPoolStats.get_pool_statistics pool = Returns st
    /\ WorkerPoolStats.total_workers st = dict_len (WorkerPool.workers pool)
    /\ (WorkerPoolStats.active_workers st <= WorkerPoolStats.total_workers st)%nat
    /\ List.length (WorkerPoolStats.worker_statistics st) = WorkerPoolStats.total_workers st
    /\ list_sum (dict_values (WorkerPoolStats.status_distribution st))
       = WorkerPoolStats.total_workers st
    /\ (Forall (fun w => (Worker.failure_count w <= Worker.execution_count w)%nat)
          (dict_values (WorkerPool.workers pool)) ->
        (WorkerPoolStats.total_failures st <= WorkerPoolStats.total_executions st)%nat
        /\ 0 <= WorkerPoolStats.overall_failure_rate st <= 1).
Proof.
  unfold WorkerPoolStats.get_pool_statistics.
  set (ws := dict_values (WorkerPool.workers pool)).
  set (te := list_sum (map Worker.execution_count ws)).
  set (tf := list_sum (map Worker.failure_count ws)).
  pose proof (StatsFacts.Qnat_max_pos te) as Hpos.
  rewrite truediv_Returns by lra. cbn [bind].
  destruct (PoolStatsFacts.collect_statistics ws []) as (ds & Hds & Hlen).
  rewrite Hds. cbn [bind app].
  assert (Htotal : dict_len (WorkerPool.workers pool) = List.length ws).
  { unfold ws, dict_len, dict_values. rewrite length_map. reflexivity. }
  eexists. split; [reflexivity |]. cbn.
  split; [reflexivity |]. split.
  - rewrite Htotal. unfold WorkerPool.get_active_workers. apply filter_length_le.
  - split; [rewrite Htotal; exact Hlen |]. split.
    + rewrite Htotal. apply PoolStatsFacts.status_counts_sum.
    + intro Hcounted. pose proof (PoolStatsFacts.sum_failures_le Hcounted) as Hle.
      fold ws tf te in Hle. split; [exact Hle |]. split.
      * apply Qle_shift_div_l; [exact Hpos |].
        pose proof (StatsFacts.Qnat_le (Nat.le_0_l tf)) as H0.
        change (Qnat 0) with 0 in H0. lra.
      * apply Qle_shift_div_r; [exact Hpos |].
        assert (H1 : (tf <= Nat.max te 1)%nat) by lia.
        pose proof (StatsFacts.Qnat_le H1). lra.
Qed.

Module VariationFacts.
Import WorkerPoolStats.

Lemma register_worker_keeps (pool : WorkerPool.t) (w : Worker.t) (wid : string) :
  dict_mem String.eqb (WorkerPool.workers pool) wid = true ->
  dict_mem String.eqb (WorkerPool.workers (WorkerPool.register_worker pool w)) wid = true.
Proof.
  intro H. unfold WorkerPool.register_worker. simpl. unfold dict_mem in *.
  destruct (string_dec wid (Worker.worker_id w)) as [-> | Hne].
  - rewrite dict_get_set_same. reflexivity.
  - rewrite dict_get_set_other by exact Hne. exact H.
Qed.

Lemma vary_and_register_spec (cls : worker_class) (worker : Worker.t)
  (params : list (list (string * pyvalue))) :
  forall pool uuids,
    let out := vary_and_register cls pool worker params uuids in
    List.length (snd out) = List.length params
    /\ (forall wid, dict_mem String.eqb (WorkerPool.workers pool) wid = true ->
                    dict_mem String.eqb (WorkerPool.workers (fst out)) wid = true)
    /\ (forall v, In v (snd out) ->
                  dict_mem String.eqb (WorkerPool.workers (fst out)) (Worker.worker_id v)
                  = true)
    /\ (dict_len (WorkerPool.workers (fst out))
        <= dict_len (WorkerPool.workers pool) + List.length params)%nat.
Proof.
  induction params as [| p params IH]; intros pool uuids; simpl.
  - split; [reflexivity |]. split; [auto |]. split; [intros v [] |]. lia.
  - set (varied := WorkerStats.apply_variation cls worker (hd "" uuids) p).
    specialize (IH (WorkerPool.register_worker pool varied) (tl uuids)).
    destruct (vary_and_register cls (WorkerPool.register_worker pool varied) worker params
                (tl uuids)) as [pool' vs].
    cbn [fst snd List.length] in *. destruct IH as (IH1 & IH2 & IH3 & IH4).
    assert (Hvaried : dict_mem String.eqb
                        (WorkerPool.workers (WorkerPool.register_worker pool varied))
                        (Worker.worker_id varied) = true).
    { unfold WorkerPool.register_worker, dict_mem. cbn [WorkerPool.workers].
      rewrite dict_get_set_same. reflexivity. }
    assert (Hreg : (dict_len (WorkerPool.workers (WorkerPool.register_worker pool varied))
                    <= S (dict_len (WorkerPool.workers pool)))%nat).
    { unfold WorkerPool.register_worker. cbn [WorkerPool.workers].
      destruct (dict_mem String.eqb (WorkerPool.workers pool) (Worker.worker_id varied))
        eqn:E.
      - rewrite dict_len_set_present by exact E. lia.
      - rewrite dict_len_set_absent by exact E. lia. }
    split; [rewrite IH1; reflexivity |]. split.
    + intros wid H. apply IH2. apply register_worker_keeps. exact H.
    + split.
      * intros v [<- | Hv]; [apply IH2; exact Hvaried | apply IH3; exact Hv].
      * lia.
Qed.

End VariationFacts.

(** [create_variations] returns one varied worker per parameter set of the
    strategy and registers each of them; the workers that were registered
    before stay registered, and the registry grows by at most that many
    workers (by fewer when ids coincide). *)
Theorem create_variations_registers (cls : worker_class) (pool : WorkerPool.t)
  (worker : Worker.t)
  (variation_strategy : list (string * pyvalue) -> Z -> list (list (string * pyvalue)))
  (num_variations : Z) (uuids : list string) :
  let params :=
    variation_strategy (WorkerConfig.parameters (Worker.config worker)) num_variations in
  let out :=
    WorkerPoolStats.create_variations cls pool worker variation_strategy num_variations
      uuids in
  List.length (snd out) = List.length params
  /\ (forall wid, dict_mem String.eqb (WorkerPool.workers pool) wid = true ->
                  dict_mem String.eqb (WorkerPool.workers (fst out)) wid = true)
  /\ (forall v, In v (snd out) ->
                dict_mem String.eqb (WorkerPool.workers (fst out)) (Worker.worker_id v) = true)
  /\ (dict_len (WorkerPool.workers (fst out))
      <= dict_len (WorkerPool.workers pool) + List.length params)%nat.
Proof.
  intros params out. subst params out. unfold WorkerPoolStats.create_variations.
  apply VariationFacts.vary_and_register_spec.
Qed.

(** ** Aggregation: nothing valid, and learners without weights *)

(** When no result is valid (an empty batch, or only failed, timed-out or
    zero-confidence results), every strategy, called directly or through an
    [Aggregator] with or without a learner, returns its sentinel instead of
    raising: no value, confidence 0.0, no weights, the full list of worker
    results and an explanatory ["error"] entry. *)
Theorem nothing_valid_gives_sentinel (s : strategy) (learner : option BayesianWeightLearner.t)
  (results : list WorkerResult.t) (weights : option (dict string Q)) (t_start t_end : Q) :
  AggregationStrategy._filter_valid_results results = [] ->
  strategy_aggregate s results weights t_start t_end
  = Returns (nothing_to_aggregate s results t_start t_end)
  /\ Aggregator.aggregate (Aggregator.make s learner) results t_start t_end
     = Returns (nothing_to_aggregate s results t_start t_end).
Proof.
  intro Hnone.
  assert (H : forall ws, strategy_aggregate s results ws t_start t_end
                         = Returns (nothing_to_aggregate s results t_start t_end)).
  { intro ws. destruct s as [uc | uc | |]; simpl;
      [unfold WeightedAverageAggregation.aggregate
      | unfold MajorityVotingAggregation.aggregate
      | unfold ConfidenceBasedAggregation.aggregate
      | unfold MedianAggregation.aggregate];
      rewrite Hnone; reflexivity. }
  split; [apply H |]. unfold Aggregator.aggregate. simpl. apply H.
Qed.

Lemma nothing_valid_gives_sentinel_witness :
  AggregationStrategy._filter_valid_results [failed_result_of "a"; failed_result_of "b"] = []
  /\ strategy_aggregate Median [failed_result_of "a"; failed_result_of "b"] None 0 1
     = Returns (nothing_to_aggregate Median [failed_result_of "a"; failed_result_of "b"] 0 1).
Proof.
  split; [reflexivity |].
  exact (proj1 (@nothing_valid_gives_sentinel Median None
                  [failed_result_of "a"; failed_result_of "b"] None 0 1 eq_refl)).
Defined.

(** An [Aggregator] hands the learner's stored weights to its strategy; a
    worker the learner has stored no weight for counts with the base weight
    1.0, not with the learner's prior, so that a learner that has seen no
    observation aggregates exactly as no learner at all. *)
Theorem aggregator_uses_stored_weights (s : strategy) (l : BayesianWeightLearner.t)
  (results : list WorkerResult.t) (t_start t_end : Q) :
  Aggregator.aggregate (Aggregator.make s (Some l)) results t_start t_end
  = strategy_aggregate s results (Some (BayesianWeightLearner.weights l)) t_start t_end
  /\ (forall r,
        In r results ->
        dict_mem String.eqb (BayesianWeightLearner.weights l) (WorkerResult.worker_id r)
        = false ->
        dict_lookup
          (AggregationStrategy._get_weights results
             (Some (BayesianWeightLearner.get_all_weights l)))
          (WorkerResult.worker_id r)
        = Returns 1)
  /\ (forall r w,
        In r results ->
        dict_get String.eqb (BayesianWeightLearner.weights l) (WorkerResult.worker_id r)
        = Some w ->
        dict_lookup
          (AggregationStrategy._get_weights results
             (Some (BayesianWeightLearner.get_all_weights l)))
          (WorkerResult.worker_id r)
        = Returns w)
  /\ (BayesianWeightLearner.weights l = [] ->
      Aggregator.aggregate (Aggregator.make s (Some l)) results t_start t_end
      = Aggregator.aggregate (Aggregator.make s None) results t_start t_end).
Proof.
  split; [reflexivity |]. unfold BayesianWeightLearner.get_all_weights. split; [| split].
  - intros r Hin H. rewrite WeightFacts.get_weights_lookup by exact Hin. f_equal.
    unfold base_weight_of, dict_get_default, dict_mem in *.
    destruct (BayesianWeightLearner.weights l) as [| p ws]; [reflexivity |].
    destruct (dict_get String.eqb (p :: ws) (WorkerResult.worker_id r));
      [discriminate | reflexivity].
  - intros r w Hin H. rewrite WeightFacts.get_weights_lookup by exact Hin. f_equal.
    unfold base_weight_of, dict_get_default.
    destruct (BayesianWeightLearner.weights l) as [| p ws]; [discriminate |].
    rewrite H. reflexivity.
  - intro H. unfold Aggregator.aggregate. simpl.
    unfold BayesianWeightLearner.get_all_weights. rewrite H.
    destruct s; reflexivity.
Qed.

(** ** Aggregation: averages between bounds, payloads that are not numbers *)

Module ConvexFacts.

Lemma dict_get_In (V : Type) (d : dict string V) (k : string) (v : V) :
  dict_get String.eqb d k = Some v -> In (k, v) d.
Proof.
  induction d as [| [k0 v0] d IH]; simpl; [discriminate |].
  destruct (String.eqb k0 k) eqn:E.
  - apply String.eqb_eq in E. intro H. injection H as <-. left. rewrite E. reflexivity.
  - intro H. right. apply IH. exact H.
Qed.

Lemma nonnegative_base_weight (weights : option (dict string Q)) (wid : string) :
  nonnegative weights -> 0 <= base_weight_of weights wid.
Proof.
  unfold nonnegative, base_weight_of, dict_get_default.
  destruct weights as [[| p provided] |]; intro H; try lra.
  destruct (dict_get String.eqb (p :: provided) wid) as [w |] eqn:E; [| lra].
  apply dict_get_In in E. rewrite Forall_forall in H. exact (H _ E).
Qed.

Lemma share_sum (uc : bool) (weights : option (dict string Q)) (valid : list WorkerResult.t) :
  valid <> [] -> Qsum (map (share uc weights valid) valid) == 1.
Proof.
  intro Hne. unfold share.
  destruct (Qlt_bool 0 (Qsum (map (contribution uc weights) valid))) eqn:E.
  - apply Qlt_bool_iff in E.
    rewrite (Qsum_map_div (contribution uc weights)). field. lra.
  - pose proof (Qlen_pos Hne). rewrite (Qsum_map_const (1 / Qlen valid) valid). field. lra.
Qed.

(** A sum weighted by numbers that are not negative lies between the bounds
    of its terms, scaled by the total weight. *)
Lemma weighted_sum_between (A : Type) (g s : A -> Q) (lo hi : Q) (xs : list A) :
  (forall x, In x xs -> lo <= g x <= hi /\ 0 <= s x) ->
  lo * Qsum (map s xs) <= Qsum (map (fun x => g x * s x) xs) <= hi * Qsum (map s xs).
Proof.
  induction xs as [| x xs IH]; simpl; intro H; [lra |].
  destruct (H x (or_introl eq_refl)) as [[Hlo Hhi] Hs].
  destruct (IH (fun y Hy => H y (or_intror Hy))) as [IH0 IH1].
  assert (lo * s x <= g x * s x) by (apply Qmult_le_compat_r; assumption).
  assert (g x * s x <= hi * s x) by (apply Qmult_le_compat_r; assumption).
  split.
  - setoid_replace (lo * (s x + Qsum (map s xs)))
      with (lo * s x + lo * Qsum (map s xs)) by ring.
    lra.
  - setoid_replace (hi * (s x + Qsum (map s xs)))
      with (hi * s x + hi * Qsum (map s xs)) by ring.
    lra.
Qed.

Lemma average_between (uc : bool) (weights : option (dict string Q))
  (results : list WorkerResult.t) (g : WorkerResult.t -> Q) (lo hi : Q) :
  let valid := AggregationStrategy._filter_valid_results results in
  valid <> [] ->
  nonnegative weights ->
  (forall r, In r valid -> lo <= g r <= hi) ->
  lo <= Qsum (map (fun r => g r * share uc weights valid r) valid) <= hi.
Proof.
  intros valid Hne Hnn Hg.
  pose proof (@weighted_sum_between _ g (share uc weights valid) lo hi valid) as Hb.
  rewrite (share_sum uc weights Hne) in Hb.
  assert (H : forall x, In x valid -> lo <= g x <= hi /\ 0 <= share uc weights valid x).
  { intros x Hx. split; [apply Hg; exact Hx |].
    apply AverageFacts.share_nonneg; [exact Hx |].
    intros y _. apply nonnegative_base_weight. exact Hnn. }
  specialize (Hb H). lra.
Qed.

End ConvexFacts.

(** The weighted average is an average: on numeric results of distinct
    workers and weights that are not negative, the aggregated value lies
    between the smallest and the largest value of the valid results, and the
    aggregated confidence between their smallest and largest confidence. *)
Theorem weighted_average_between (use_confidence : bool) (results : list WorkerResult.t)
  (weights : option (dict string Q)) (t_start t_end lo hi : Q) :
  let valid := AggregationStrategy._filter_valid_results results in
  valid <> [] ->
  Forall well_formed results ->
  NoDup (map WorkerResult.worker_id valid) ->
  nonnegative weights ->
  (forall r, In r valid -> exists q, WorkerResult.value r = VNum q /\ lo <= q <= hi) ->
  exists a v,
    WeightedAverageAggregation.aggregate use_confidence results weights t_start t_end
    = Returns a
    /\ AggregatedResult.value a = VNum v
    /\ lo <= v <= hi
    /\ (forall clo chi,
          (forall r, In r valid -> clo <= WorkerResult.confidence r <= chi) ->
          clo <= AggregatedResult.confidence a <= chi).
Proof.
  intros valid Hne Hwf Hnd Hnn Hnum.
  destruct (@AverageFacts.weighted_average_Returns use_confidence results weights t_start
              t_end Hne Hwf Hnd)
    as (a & v & Hagg & _ & Hval & Hv & Hc).
  - intros r _. apply ConvexFacts.nonnegative_base_weight. exact Hnn.
  - intros r Hr. destruct (Hnum r Hr) as (q & Hq & _). exists q. exact Hq.
  - exists a, v. split; [exact Hagg |]. split; [exact Hval |]. fold valid in Hv, Hc. split.
    + rewrite Hv. apply ConvexFacts.average_between; [exact Hne | exact Hnn |].
      intros r Hr. destruct (Hnum r Hr) as (q & Hq & Hb). unfold number_of. rewrite Hq.
      exact Hb.
    + intros clo chi Hconf. rewrite Hc.
      apply ConvexFacts.average_between; [exact Hne | exact Hnn | exact Hconf].
Qed.

Lemma weighted_average_between_witness :
  AggregationStrategy._filter_valid_results two_results <> []
  /\ Forall well_formed two_results
  /\ NoDup (map WorkerResult.worker_id (AggregationStrategy._filter_valid_results two_results))
  /\ nonnegative None
  /\ exists a v,
      WeightedAverageAggregation.aggregate true two_results None 0 1 = Returns a
      /\ AggregatedResult.value a = VNum v
      /\ 10 <= v <= 12.
Proof.
  assert (H1 : AggregationStrategy._filter_valid_results two_results <> [])
    by (vm_compute; discriminate).
  assert (H2 : Forall well_formed two_results).
  { repeat constructor; unfold Qle; simpl; lia. }
  assert (H3 : NoDup (map WorkerResult.worker_id
                        (AggregationStrategy._filter_valid_results two_results))).
  { simpl. constructor; [intros [H | []]; discriminate |].
    constructor; [intros [] | constructor]. }
  assert (H4 : nonnegative None) by exact I.
  assert (H5 : forall r, In r (AggregationStrategy._filter_valid_results two_results) ->
                         exists q, WorkerResult.value r = VNum q /\ 10 <= q <= 12).
  { intros r [<- | [<- | []]]; eexists; (split; [reflexivity |]); unfold Qle; simpl; lia. }
  split; [exact H1 |]. split; [exact H2 |]. split; [exact H3 |]. split; [exact H4 |].
  destruct (@weighted_average_between true two_results None 0 1 10 12 H1 H2 H3 H4 H5)
    as (a & v & Ha & Hv & Hb & _).
  exists a, v. split; [exact Ha |]. split; [exact Hv | exact Hb].
Defined.

Module NonNumericFacts.

Lemma comp_keys (A V : Type) (key : A -> string) (val : A -> V) (xs : list A) :
  forall (d0 : dict string V) k,
    In k (dict_keys d0) \/ In k (map key xs) ->
    In k (dict_keys (fold_left (fun d x => dict_set String.eqb d (key x) (val x)) xs d0)).
Proof.
  induction xs as [| x xs IH]; intros d0 k H; simpl.
  - destruct H as [H | []]. exact H.
  - apply IH. destruct (string_dec k (key x)) as [-> | Hne].
    + left. apply dict_mem_in_keys. unfold dict_mem. rewrite dict_get_set_same. reflexivity.
    + destruct H as [H | [H | H]]; [| congruence | right; exact H].
      left. apply dict_mem_in_keys. apply dict_mem_in_keys in H. unfold dict_mem in *.
      rewrite dict_get_set_other by exact Hne. exact H.
Qed.

(** Every valid result finds the normalized weight of its worker. *)
Lemma normalized_lookup (uc : bool) (weights : option (dict string Q))
  (valid : list WorkerResult.t) (r : WorkerResult.t) :
  In r valid ->
  exists w,
    dict_lookup
      (normalized_of
         (dict_comp String.eqb WorkerResult.worker_id (contribution uc weights) valid))
      (WorkerResult.worker_id r)
    = Returns w.
Proof.
  intro Hin. unfold dict_lookup.
  set (nw := normalized_of _).
  assert (Hk : In (WorkerResult.worker_id r) (dict_keys nw)).
  { unfold nw. rewrite WeightFacts.normalized_of_keys. unfold dict_comp.
    apply comp_keys. right. apply in_map. exact Hin. }
  apply dict_mem_in_keys in Hk. unfold dict_mem in Hk.
  destruct (dict_get String.eqb nw (WorkerResult.worker_id r)) as [w |];
    [exists w; reflexivity | discriminate].
Qed.

Lemma sum_over_TypeError (A : Type) (f : A -> outcome Q) (xs : list A) :
  (forall x, In x xs ->
             (exists q, f x = Returns q) \/ (exists msg, f x = Raises (TypeError msg))) ->
  (exists x, In x xs /\ exists msg, f x = Raises (TypeError msg)) ->
  exists msg, sum_over f xs = Raises (TypeError msg).
Proof.
  unfold sum_over. intros Hall Hsome.
  assert (H : forall acc,
             exists msg,
               for_each (fun acc x => y <- f x ;; Returns (acc + y)) xs acc
               = Raises (TypeError msg)).
  { induction xs as [| x xs IH]; intro acc.
    - destruct Hsome as (x & [] & _).
    - cbn [for_each]. destruct (Hall x (or_introl eq_refl)) as [(q & Hq) | (msg & Hmsg)].
      + rewrite Hq. cbn [bind]. apply IH.
        * intros y Hy. apply Hall. right. exact Hy.
        * destruct Hsome as (y & [<- | Hy] & msg & Hmsg); [congruence |].
          exists y. split; [exact Hy | exists msg; exact Hmsg].
      + rewrite Hmsg. cbn [bind]. exists msg. reflexivity. }
  apply H.
Qed.

Lemma value_times_cases (v : pyvalue) (w : Q) :
  (exists q, value_times v w = Returns q) \/ (exists msg, value_times v w = Raises (TypeError msg)).
Proof.
  destruct v; simpl; [right | left | right]; eexists; reflexivity.
Qed.

Lemma value_times_TypeError (v : pyvalue) (w : Q) :
  (forall q, v <> VNum q) -> exists msg, value_times v w = Raises (TypeError msg).
Proof.
  destruct v as [| q | s]; simpl; intro H; [| exfalso; exact (H q eq_refl) |];
    eexists; reflexivity.
Qed.

Lemma as_numbers_TypeError (values : list pyvalue) :
  (exists v, In v values /\ forall q, v <> VNum q) ->
  exists msg, as_numbers values = Raises (TypeError msg).
Proof.
  induction values as [| v values IH]; intros (x & Hin & Hx).
  - destruct Hin.
  - destruct v as [| q | s]; cbn [as_numbers]; try (eexists; reflexivity).
    destruct IH as (msg & ->).
    + destruct Hin as [<- | Hin]; [exfalso; exact (Hx q eq_refl) |]. exists x. auto.
    + exists msg. reflexivity.
Qed.

End NonNumericFacts.

(** The weighted average and the median are for numbers: as soon as one valid
    result carries a payload that is not a number (a label, or nothing), both
    strategies catch the [TypeError] and return their sentinel, with no value,
    confidence 0.0, no weights and a ["Non-numerical values"] error, whatever
    the other results and the weights are. *)
Theorem non_numeric_gives_sentinel (results : list WorkerResult.t)
  (weights : option (dict string Q)) (t_start t_end : Q) :
  (exists r, In r (AggregationStrategy._filter_valid_results results) /\ ~ numeric r) ->
  (forall use_confidence,
      exists msg,
        strategy_aggregate (WeightedAverage use_confidence) results weights t_start t_end
        = Returns
            (not_numerical (WeightedAverage use_confidence) results t_start t_end
               (TypeError msg)))
  /\ exists msg,
      strategy_aggregate Median results weights t_start t_end
      = Returns (not_numerical Median results t_start t_end (TypeError msg)).
Proof.
  intros (bad & Hbad & Hnn).
  assert (Hne : AggregationStrategy._filter_valid_results results <> []).
  { intro H. rewrite H in Hbad. contradiction. }
  assert (Hq : forall q, WorkerResult.value bad <> VNum q).
  { intros q H. apply Hnn. exists q. exact H. }
  assert (Hzero : 0 <= 0 <= 1) by lra.
  split.
  - intro uc. cbn [strategy_aggregate]. unfold WeightedAverageAggregation.aggregate.
    pose proof (WeightFacts.weights_of_eq uc results weights Hne) as Hw.
    destruct (AggregationStrategy._filter_valid_results results) as [| r0 valid0] eqn:Hv;
      [congruence |].
    set (valid := r0 :: valid0) in *.
    rewrite Hw. cbn [bind].
    set (nw := normalized_of _).
    destruct (@NonNumericFacts.sum_over_TypeError _
                (fun result =>
                   w <- dict_lookup nw (WorkerResult.worker_id result) ;;
                   value_times (WorkerResult.value result) w) valid) as (msg & Hsum).
    + intros r Hr. unfold nw.
      destruct (@NonNumericFacts.normalized_lookup uc weights valid r Hr) as (w & ->).
      cbn [bind]. apply NonNumericFacts.value_times_cases.
    + exists bad. split; [exact Hbad |]. unfold nw.
      destruct (@NonNumericFacts.normalized_lookup uc weights valid bad Hbad) as (w & ->).
      cbn [bind]. apply NonNumericFacts.value_times_TypeError. exact Hq.
    + rewrite Hsum. cbn [bind try_except is_TypeError].
      unfold AggregationStrategy.sentinel.
      rewrite (AggregatedResult_new_ok _ _ _ _ _ _ Hzero).
      exists msg. reflexivity.
  - cbn [strategy_aggregate]. unfold MedianAggregation.aggregate.
    destruct (AggregationStrategy._filter_valid_results results) as [| r0 valid0] eqn:Hv;
      [congruence |].
    set (valid := r0 :: valid0) in *.
    destruct (@NonNumericFacts.as_numbers_TypeError (map WorkerResult.value valid))
      as (msg & Hnum).
    + exists (WorkerResult.value bad). split; [apply in_map; exact Hbad | exact Hq].
    + rewrite Hnum. cbn [bind try_except is_TypeError_or_ValueError].
      unfold AggregationStrategy.sentinel.
      rewrite (AggregatedResult_new_ok _ _ _ _ _ _ Hzero).
      exists msg. reflexivity.
Qed.

Lemma non_numeric_gives_sentinel_witness :
  (exists r, In r (AggregationStrategy._filter_valid_results one_vote) /\ ~ numeric r)
  /\ exists msg,
      strategy_aggregate Median one_vote None 0 1
      = Returns (not_numerical Median one_vote 0 1 (TypeError msg)).
Proof.
  assert (H : exists r, In r (AggregationStrategy._filter_valid_results one_vote)
                        /\ ~ numeric r).
  { exists (success_result "a" (VStr "x") 1). split; [left; reflexivity |].
    intros (q & Hq). discriminate. }
  split; [exact H |].
  exact (proj2 (@non_numeric_gives_sentinel one_vote None 0 1 H)).
Defined.

(** ** Aggregation: the selected result, the median, a unanimous vote *)

Module SelectionFacts.

Lemma best_step_selected (weights : option (dict string Q)) (seen : list WorkerResult.t)
  (st : option WorkerResult.t * Q) (x : WorkerResult.t) :
  selected weights seen st -> selected weights (seen ++ [x]) (best_step weights st x).
Proof.
  unfold selected, best_step. intro H.
  change (WorkerResult.confidence x * base_weight_of weights (WorkerResult.worker_id x))
    with (weighted_confidence weights x).
  destruct (Qlt_bool (snd st) (weighted_confidence weights x)) eqn:E.
  - apply Qlt_bool_iff in E. cbn [fst snd]. split; [reflexivity |].
    destruct (fst st) as [b |].
    + destruct H as (Hs & Hpos & before & after & Hseen & Hb & Ha). rewrite Hs in E, Hpos.
      split; [lra |]. exists seen, []. split; [reflexivity |]. split; [| intros y []].
      intros y Hy. rewrite Hseen in Hy. apply in_app_or in Hy.
      destruct Hy as [Hy | [<- | Hy]].
      * specialize (Hb y Hy). lra.
      * exact E.
      * specialize (Ha y Hy). lra.
    + destruct H as (Hs & Hall). rewrite Hs in E.
      split; [exact E |]. exists seen, []. split; [reflexivity |]. split; [| intros y []].
      intros y Hy. specialize (Hall y Hy). lra.
  - apply Qlt_bool_false_iff in E. destruct (fst st) as [b |].
    + destruct H as (Hs & Hpos & before & after & Hseen & Hb & Ha). rewrite Hs in E.
      split; [exact Hs |]. split; [exact Hpos |].
      exists before, (after ++ [x])%list. split; [| split; [exact Hb |]].
      * rewrite Hseen, <- app_assoc. reflexivity.
      * intros y Hy. apply in_app_or in Hy. destruct Hy as [Hy | [<- | []]]; [auto | exact E].
    + destruct H as (Hs & Hall). rewrite Hs in E. split; [exact Hs |].
      intros y Hy. apply in_app_or in Hy. destruct Hy as [Hy | [<- | []]]; [auto | exact E].
Qed.

Lemma fold_selected (weights : option (dict string Q)) (xs : list WorkerResult.t) :
  forall seen st,
    selected weights seen st ->
    selected weights (seen ++ xs) (fold_left (best_step weights) xs st).
Proof.
  induction xs as [| x xs IH]; intros seen st H; simpl.
  - rewrite app_nil_r. exact H.
  - replace (seen ++ x :: xs)%list with ((seen ++ [x]) ++ xs)%list
      by (rewrite <- app_assoc; reflexivity).
    apply IH. apply best_step_selected. exact H.
Qed.

Lemma select_best_selected (weights : option (dict string Q)) (valid : list WorkerResult.t) :
  selected weights valid (fold_left (best_step weights) valid (None, -1)).
Proof.
  apply (@fold_selected weights valid [] (None, -1)).
  unfold selected. cbn [fst snd]. split; [reflexivity | intros y []].
Qed.

End SelectionFacts.

(** In exact arithmetic, the confidence-based strategy returns the value and
    the confidence of the first valid result whose weighted confidence
    (confidence times base weight) is maximal, and names that worker and that
    score in the metadata, provided some weighted confidence exceeds the
    initial best score -1.0; when none does, which takes negative weights, no
    result is selected and the call raises an [AttributeError]. *)
Theorem confidence_based_selects (results : list WorkerResult.t)
  (weights : option (dict string Q)) (t_start t_end : Q) :
  let valid := AggregationStrategy._filter_valid_results results in
  let wc := weighted_confidence weights in
  valid <> [] ->
  Forall well_formed results ->
  ((forall r, In r valid -> wc r <= -1) ->
   ConfidenceBasedAggregation.aggregate results weights t_start t_end
   = Raises (AttributeError "'NoneType' object has no attribute 'value'"))
  /\ ((exists r, In r valid /\ -1 < wc r) ->
      exists a before best after,
        ConfidenceBasedAggregation.aggregate results weights t_start t_end = Returns a
        /\ valid = (before ++ best :: after)%list
        /\ (forall y, In y before -> wc y < wc best)
        /\ (forall y, In y after -> wc y <= wc best)
        /\ AggregatedResult.value a = WorkerResult.value best
        /\ AggregatedResult.confidence a = WorkerResult.confidence best
        /\ dict_get String.eqb (AggregatedResult.metadata a) "selected_worker"
           = Some (MStr (WorkerResult.worker_id best))
        /\ dict_get String.eqb (AggregatedResult.metadata a) "weighted_confidence"
           = Some (MNum (wc best))).
Proof.
  intros valid wc Hne Hwf. subst wc.
  pose proof (SelectionFacts.select_best_selected weights valid) as Hsel.
  unfold ConfidenceBasedAggregation.aggregate. fold valid.
  destruct valid as [| r0 valid0] eqn:Hv; [congruence |].
  rewrite <- Hv in *. rewrite ReturnFacts.select_best_eq. cbn [bind].
  destruct (fold_left (best_step weights) valid (None, -1)) as [ob s].
  unfold selected in Hsel. cbn [fst snd] in *.
  destruct ob as [best |].
  - destruct Hsel as (Hs & Hpos & before & after & Hseen & Hb & Ha).
    assert (Hin : In best valid).
    { rewrite Hseen. apply in_or_app. right. left. reflexivity. }
    split.
    + intro Hall. exfalso. specialize (Hall best Hin). rewrite Hs in Hpos. lra.
    + intros _.
      assert (Hrange : 0 <= WorkerResult.confidence best <= 1).
      { rewrite Forall_forall in Hwf.
        assert (Hin' : In best (AggregationStrategy._filter_valid_results results))
          by exact Hin.
        destruct (ReturnFacts.valid_is_valid results best Hin') as [Hres _].
        exact (proj1 (Hwf best Hres)). }
      rewrite (AggregatedResult_new_ok _ _ _ _ _ _ Hrange).
      eexists. exists before, best, after. split; [reflexivity |].
      split; [exact Hseen |]. split; [exact Hb |]. split; [exact Ha |].
      cbn. rewrite Hs. auto.
  - destruct Hsel as (Hs & Hall). split; [intros _; reflexivity |].
    intros (r & Hr & Hpos). exfalso. specialize (Hall r Hr). lra.
Qed.

Lemma confidence_based_selects_witness :
  AggregationStrategy._filter_valid_results one_vote <> []
  /\ Forall well_formed one_vote
  /\ AggregationStrategy._filter_valid_results two_results <> []
  /\ Forall well_formed two_results
  /\ ConfidenceBasedAggregation.aggregate one_vote (Some [("a", -2)]) 0 1
     = Raises (AttributeError "'NoneType' object has no attribute 'value'")
  /\ exists a,
      ConfidenceBasedAggregation.aggregate two_results None 0 1 = Returns a
      /\ AggregatedResult.value a = VNum 10
      /\ AggregatedResult.confidence a = 1
      /\ dict_get String.eqb (AggregatedResult.metadata a) "selected_worker"
         = Some (MStr "a").
Proof.
  assert (H1 : AggregationStrategy._filter_valid_results one_vote <> [])
    by (vm_compute; discriminate).
  assert (H2 : Forall well_formed one_vote).
  { repeat constructor; unfold Qle; simpl; lia. }
  assert (H3 : AggregationStrategy._filter_valid_results two_results <> [])
    by (vm_compute; discriminate).
  assert (H4 : Forall well_formed two_results).
  { repeat constructor; unfold Qle; simpl; lia. }
  split; [exact H1 |]. split; [exact H2 |]. split; [exact H3 |]. split; [exact H4 |].
  split.
  - apply (proj1 (@confidence_based_selects one_vote (Some [("a", -2)]) 0 1 H1 H2)).
    intros r [<- | []]. vm_compute. discriminate.
  - destruct (proj2 (@confidence_based_selects two_results None 0 1 H3 H4))
      as (a & before & best & after & Ha & Hsplit & Hb & _ & Hv & Hc & Hsel & _).
    + exists (success_result "a" (VNum 10) 1). split; [left; reflexivity |].
      vm_compute. reflexivity.
    + assert (Hbest : best = success_result "a" (VNum 10) 1).
      { change (AggregationStrategy._filter_valid_results two_results)
          with [success_result "a" (VNum 10) 1; success_result "b" (VNum 12) 0.5]
          in Hsplit.
        destruct before as [| y0 [| y1 before]].
        - injection Hsplit as <- _. reflexivity.
        - exfalso. injection Hsplit as <- <- _.
          specialize (Hb _ (or_introl eq_refl)). vm_compute in Hb. discriminate.
        - exfalso. apply (f_equal (@List.length WorkerResult.t)) in Hsplit.
          rewrite length_app in Hsplit. simpl in Hsplit. lia. }
      subst best. exists a. split; [exact Ha |]. split; [exact Hv |].
      split; [exact Hc | exact Hsel].
Defined.

Section SelectionInBinary64.
Import PrimFloat.
#[local] Set Warnings "-inexact-float".

(** Outside exact arithmetic the scores can order the results differently.
    Confidence 0.3 with weight 1.0, then confidence 0.1 with weight 3.0: the
    weighted confidences tie exactly, and the first result is selected; on
    the floats of the code the second score is 0.30000000000000004, which is
    greater. *)
Lemma tied_results_in_binary64 :
  (exists a,
      ConfidenceBasedAggregation.aggregate tied_results (Some tied_weights) 0 1 = Returns a
      /\ dict_get String.eqb (AggregatedResult.metadata a) "selected_worker"
         = Some (MStr "a"))
  /\ ltb (Binary64.weighted_confidence 0.3 1) (Binary64.weighted_confidence 0.1 3) = true.
Proof.
  split; [| vm_compute; reflexivity].
  eexists. split; [vm_compute; reflexivity | reflexivity].
Qed.

End SelectionInBinary64.

Module MedianBounds.









End MedianBounds.



Module UnanimousFacts.



End UnanimousFacts.



(** ** The learner: what it stores, and how far weights can move *)

Module HistoryFacts.
Import BayesianWeightLearner.

Lemma get_default_set_same (V : Type) (d : dict string V) (k : string) (v dflt : V) :
  dict_get_default String.eqb (dict_set String.eqb d k v) k dflt = v.
Proof. unfold dict_get_default. rewrite dict_get_set_same. reflexivity. Qed.

Lemma get_default_set_other (V : Type) (d : dict string V) (k k' : string) (v dflt : V) :
  k' <> k ->
  dict_get_default String.eqb (dict_set String.eqb d k v) k' dflt
  = dict_get_default String.eqb d k' dflt.
Proof. intro H. unfold dict_get_default. rewrite dict_get_set_other by exact H. reflexivity. Qed.

Lemma mem_set (V : Type) (d : dict string V) (k k' : string) (v : V) :
  dict_mem String.eqb (dict_set String.eqb d k v) k'
  = (String.eqb k k' || dict_mem String.eqb d k')%bool.
Proof.
  unfold dict_mem. destruct (String.eqb k k') eqn:E.
  - apply String.eqb_eq in E. subst k'. rewrite dict_get_set_same. reflexivity.
  - apply String.eqb_neq in E. rewrite dict_get_set_other by congruence. reflexivity.
Qed.

Lemma update_weight_history (l : t) (wid : string) (m : PerformanceMetric.t) (k : string) :
  dict_get_default String.eqb (history (fst (update_weight l wid m))) k []
  = (dict_get_default String.eqb (history l) k []
     ++ (if String.eqb wid k then [m] else []))%list.
Proof.
  unfold update_weight. cbn [fst history].
  destruct (String.eqb wid k) eqn:E.
  - apply String.eqb_eq in E. subst k. rewrite get_default_set_same.
    destruct (dict_mem String.eqb (history l) wid) eqn:Em; [reflexivity |].
    rewrite get_default_set_same. unfold dict_get_default, dict_mem in *.
    destruct (dict_get String.eqb (history l) wid); [discriminate | reflexivity].
  - apply String.eqb_neq in E. rewrite get_default_set_other by congruence.
    rewrite app_nil_r.
    destruct (dict_mem String.eqb (history l) wid); [reflexivity |].
    apply get_default_set_other. congruence.
Qed.

Lemma update_weight_count (l : t) (wid : string) (m : PerformanceMetric.t) (k : string) :
  dict_get_default String.eqb (update_count (fst (update_weight l wid m))) k 0%nat
  = (dict_get_default String.eqb (update_count l) k 0
     + (if String.eqb wid k then 1 else 0))%nat.
Proof.
  unfold update_weight. cbn [fst update_count].
  destruct (String.eqb wid k) eqn:E.
  - apply String.eqb_eq in E. subst k. apply get_default_set_same.
  - apply String.eqb_neq in E. rewrite get_default_set_other by congruence. lia.
Qed.

Lemma update_weight_mem (l : t) (wid : string) (m : PerformanceMetric.t) (k : string) :
  dict_mem String.eqb (weights (fst (update_weight l wid m))) k
  = (String.eqb wid k || dict_mem String.eqb (weights l) k)%bool.
Proof. unfold update_weight. cbn [fst weights]. apply mem_set. Qed.

Lemma update_weight_other (l : t) (wid : string) (m : PerformanceMetric.t) (k : string) :
  k <> wid -> get_weight (fst (update_weight l wid m)) k = get_weight l k.
Proof.
  intro H. unfold get_weight, update_weight. cbn [fst weights prior_weight].
  apply get_default_set_other. exact H.
Qed.

Lemma observations_of_cons (k wid : string) (m : PerformanceMetric.t)
  (obs : list (string * PerformanceMetric.t)) :
  observations_of k ((wid, m) :: obs)
  = ((if String.eqb wid k then [m] else []) ++ observations_of k obs)%list.
Proof.
  unfold observations_of. cbn [filter fst]. destruct (String.eqb wid k); reflexivity.
Qed.

Lemma update_all_cons (l : t) (wid : string) (m : PerformanceMetric.t)
  (obs : list (string * PerformanceMetric.t)) :
  update_all l ((wid, m) :: obs) = update_all (fst (update_weight l wid m)) obs.
Proof. reflexivity. Qed.

(** What a run of updates adds to what the learner holds for worker [k]. *)
Lemma update_all_adds (obs : list (string * PerformanceMetric.t)) (k : string) :
  forall l,
    dict_get_default String.eqb (history (update_all l obs)) k []
    = (dict_get_default String.eqb (history l) k [] ++ observations_of k obs)%list
    /\ dict_get_default String.eqb (update_count (update_all l obs)) k 0%nat
       = (dict_get_default String.eqb (update_count l) k 0
          + List.length (observations_of k obs))%nat
    /\ dict_mem String.eqb (weights (update_all l obs)) k
       = (dict_mem String.eqb (weights l) k
          || negb (Nat.eqb (List.length (observations_of k obs)) 0))%bool
    /\ (observations_of k obs = [] -> get_weight (update_all l obs) k = get_weight l k)
    /\ alpha (update_all l obs) = alpha l
    /\ prior_weight (update_all l obs) = prior_weight l
    /\ min_weight (update_all l obs) = min_weight l
    /\ confidence_scaling (update_all l obs) = confidence_scaling l.
Proof.
  induction obs as [| [wid m] obs IH]; intro l.
  - unfold observations_of. cbn. rewrite app_nil_r, Nat.add_0_r, orb_false_r.
    repeat split; reflexivity.
  - rewrite update_all_cons, observations_of_cons.
    destruct (IH (fst (update_weight l wid m))) as (H1 & H2 & H3 & H4 & H5 & H6 & H7 & H8).
    rewrite H1, H2, H3, H5, H6, H7, H8.
    rewrite update_weight_history, update_weight_count, update_weight_mem.
    rewrite length_app, <- app_assoc.
    split; [reflexivity |]. split; [destruct (String.eqb wid k); cbn; lia |].
    split; [destruct (String.eqb wid k); cbn;
            [rewrite orb_true_r; reflexivity | rewrite orb_comm; reflexivity] |].
    split; [| repeat split; reflexivity].
    intro Hnone. destruct (String.eqb wid k) eqn:E; [discriminate |].
    rewrite H4 by exact Hnone. apply update_weight_other.
    apply String.eqb_neq in E. congruence.
Qed.

Lemma init_empty (a p mw : Q) (cs : bool) (l : t) :
  __init__ a p mw cs = Returns l ->
  l = make a p mw cs [] [] [] /\ 0 < a <= 1 /\ 0 < p.
Proof.
  unfold __init__. destruct (Qlt_bool 0 a && Qle_bool a 1)%bool eqn:Ea; [| discriminate].
  cbn [negb]. destruct (Qle_bool p 0) eqn:Ep; [discriminate |].
  intro H. injection H as <-. apply andb_true_iff in Ea. destruct Ea as [Ea1 Ea2].
  apply Qlt_bool_iff in Ea1. apply Qle_bool_iff in Ea2. apply Qle_bool_false_iff in Ep.
  auto.
Qed.

(** One update keeps the weight below any bound that holds for the current
    weight, the accuracy and the floor. *)
Lemma updated_weight_le (l : t) (cur : Q) (m : PerformanceMetric.t) (B : Q) :
  0 < alpha l <= 1 ->
  0 <= PerformanceMetric.confidence m <= 1 ->
  PerformanceMetric.accuracy m <= B ->
  cur <= B -> min_weight l <= B ->
  updated_weight l cur m <= B.
Proof.
  intros Ha Hc Hacc Hcur Hmin. unfold updated_weight.
  set (ea := if confidence_scaling l then alpha l * PerformanceMetric.confidence m
             else alpha l).
  assert (Hea : 0 <= ea <= 1).
  { unfold ea. destruct (confidence_scaling l); [| lra]. split.
    - apply Qmult_le_0_compat; lra.
    - assert (alpha l * PerformanceMetric.confidence m
              <= 1 * PerformanceMetric.confidence m)
        by (apply Qmult_le_compat_r; lra).
      lra. }
  assert (H1 : cur * (1 - ea) <= B * (1 - ea)) by (apply Qmult_le_compat_r; lra).
  assert (H2 : PerformanceMetric.accuracy m * ea <= B * ea)
    by (apply Qmult_le_compat_r; lra).
  assert (H3 : B * (1 - ea) + B * ea == B) by ring.
  unfold py_max. destruct (Qlt_bool _ (min_weight l)); lra.
Qed.

Lemma update_all_le (B : Q) (obs : list (string * PerformanceMetric.t)) :
  forall l,
    0 < alpha l <= 1 -> prior_weight l <= B -> min_weight l <= B ->
    (forall wid w, dict_get String.eqb (weights l) wid = Some w -> w <= B) ->
    Forall
      (fun o =>
         0 <= PerformanceMetric.confidence (snd o) <= 1
         /\ PerformanceMetric.accuracy (snd o) <= B) obs ->
    forall wid w, dict_get String.eqb (weights (update_all l obs)) wid = Some w -> w <= B.
Proof.
  induction obs as [| [k m] obs IH]; intros l Ha Hp Hmin Hstored Hobs; [exact Hstored |].
  inversion Hobs as [| o obs' [Hc Hacc] Hrest]; subst. cbn [snd] in Hc, Hacc.
  rewrite update_all_cons. apply IH; try assumption.
  intros wid w. unfold update_weight. cbn [fst weights].
  destruct (string_dec wid k) as [-> | Hne].
  - rewrite dict_get_set_same. intro H. injection H as <-.
    apply updated_weight_le; try assumption.
    unfold get_weight, dict_get_default.
    destruct (dict_get String.eqb (weights l) k) as [w0 |] eqn:E; [| exact Hp].
    exact (Hstored k w0 E).
  - rewrite dict_get_set_other by exact Hne. apply Hstored.
Qed.

End HistoryFacts.

(** A learner that starts empty holds, after any run of updates, exactly what
    it was shown: the history of a worker is the list of its observations in
    order, its update count is their number, a weight is stored for it exactly
    when it was observed (else [get_weight] gives the prior), and the
    learning rate, the prior and the floor are as configured. *)
Theorem learner_holds_observations (alpha prior_weight min_weight : Q)
  (confidence_scaling : bool) (l : BayesianWeightLearner.t)
  (obs : list (string * PerformanceMetric.t)) (wid : string) :
  BayesianWeightLearner.__init__ alpha prior_weight min_weight confidence_scaling
  = Returns l ->
  let l' := BayesianWeightLearner.update_all l obs in
  dict_get_default String.eqb (BayesianWeightLearner.history l') wid []
  = observations_of wid obs
  /\ dict_get_default String.eqb (BayesianWeightLearner.update_count l') wid 0%nat
     = List.length (observations_of wid obs)
  /\ (dict_mem String.eqb (BayesianWeightLearner.weights l') wid = true
      <-> observations_of wid obs <> [])
  /\ (observations_of wid obs = [] ->
      BayesianWeightLearner.get_weight l' wid = prior_weight)
  /\ BayesianWeightLearner.alpha l' = alpha
  /\ BayesianWeightLearner.prior_weight l' = prior_weight
  /\ BayesianWeightLearner.min_weight l' = min_weight.
Proof.
  intros Hinit l'. subst l'. apply HistoryFacts.init_empty in Hinit.
  destruct Hinit as (-> & _ & _).
  destruct (HistoryFacts.update_all_adds obs wid
              (BayesianWeightLearner.make alpha prior_weight min_weight confidence_scaling
                 [] [] []))
    as (H1 & H2 & H3 & H4 & H5 & H6 & H7 & _).
  split; [exact H1 |]. split; [exact H2 |]. split.
  - rewrite H3. cbn. destruct (observations_of wid obs); cbn; split;
      congruence || discriminate || auto.
  - split; [intro Hnone; rewrite (H4 Hnone); reflexivity |].
    split; [exact H5 |]. split; [exact H6 | exact H7].
Qed.

Lemma learner_holds_observations_witness :
  BayesianWeightLearner.__init__ 0.2 1 0.01 false
  = Returns (BayesianWeightLearner.make 0.2 1 0.01 false [] [] [])
  /\ dict_get_default String.eqb
       (BayesianWeightLearner.update_count
          (BayesianWeightLearner.update_all
             (BayesianWeightLearner.make 0.2 1 0.01 false [] [] [])
             [("a", PerformanceMetric.make "a" VNone VNone 1 0.5);
              ("b", PerformanceMetric.make "b" VNone VNone 1 0.5);
              ("a", PerformanceMetric.make "a" VNone VNone 1 0.5)]))
       "a" 0%nat
     = 2%nat.
Proof.
  assert (H : BayesianWeightLearner.__init__ 0.2 1 0.01 false
              = Returns (BayesianWeightLearner.make 0.2 1 0.01 false [] [] []))
    by reflexivity.
  split; [exact H |].
  exact (proj1 (proj2 (@learner_holds_observations 0.2 1 0.01 false _
                         [("a", PerformanceMetric.make "a" VNone VNone 1 0.5);
                          ("b", PerformanceMetric.make "b" VNone VNone 1 0.5);
                          ("a", PerformanceMetric.make "a" VNone VNone 1 0.5)]
                         "a" H))).
Defined.

(** Weights stay within bounds: for a learner that starts empty, with a floor
    and a prior of at most [B], observations whose confidence lies in [0, 1]
    and whose accuracy is at most [B] never move a weight above [B]; with
    the prior 1.0 and accuracies in [0, 1] no weight ever exceeds 1.0, and
    none falls below the floor. *)
Theorem weights_stay_bounded (alpha prior_weight min_weight : Q) (confidence_scaling : bool)
  (l : BayesianWeightLearner.t) (obs : list (string * PerformanceMetric.t)) (B : Q) :
  BayesianWeightLearner.__init__ alpha prior_weight min_weight confidence_scaling
  = Returns l ->
  prior_weight <= B -> min_weight <= B ->
  Forall
    (fun o =>
       0 <= PerformanceMetric.confidence (snd o) <= 1
       /\ PerformanceMetric.accuracy (snd o) <= B) obs ->
  forall wid,
    BayesianWeightLearner.get_weight (BayesianWeightLearner.update_all l obs) wid <= B
    /\ forall w,
        dict_get String.eqb
          (BayesianWeightLearner.weights (BayesianWeightLearner.update_all l obs)) wid
        = Some w ->
        min_weight <= w <= B.
Proof.
  intros Hinit Hp Hmin Hobs wid.
  pose proof (LearnerFacts.new_floored _ _ _ _ Hinit) as [Hfl Hmw].
  apply HistoryFacts.init_empty in Hinit. destruct Hinit as (El & Ha & _).
  assert (Hstored : forall k w,
             dict_get String.eqb
               (BayesianWeightLearner.weights (BayesianWeightLearner.update_all l obs)) k
             = Some w -> w <= B).
  { apply HistoryFacts.update_all_le; subst l; cbn; try assumption.
    intros k w H. discriminate. }
  destruct (LearnerFacts.update_all_floored obs Hfl) as [Hfl' Hmw'].
  destruct (HistoryFacts.update_all_adds obs wid l) as (_ & _ & _ & _ & _ & Hprior & _).
  split.
  - unfold BayesianWeightLearner.get_weight, dict_get_default.
    destruct (dict_get String.eqb _ wid) as [w |] eqn:E; [exact (Hstored wid w E) |].
    rewrite Hprior. subst l. exact Hp.
  - intros w Hw. split; [| exact (Hstored wid w Hw)].
    rewrite <- Hmw, <- Hmw'. exact (Hfl' wid w Hw).
Qed.

Lemma weights_stay_bounded_witness :
  BayesianWeightLearner.__init__ 0.2 1 0.01 false
  = Returns (BayesianWeightLearner.make 0.2 1 0.01 false [] [] [])
  /\ 1 <= 1 /\ 0.01 <= 1
  /\ BayesianWeightLearner.get_weight
       (BayesianWeightLearner.update_all
          (BayesianWeightLearner.make 0.2 1 0.01 false [] [] [])
          [("a", PerformanceMetric.make "a" VNone VNone 1 0.5)]) "a"
     <= 1.
Proof.
  assert (H1 : BayesianWeightLearner.__init__ 0.2 1 0.01 false
               = Returns (BayesianWeightLearner.make 0.2 1 0.01 false [] [] []))
    by reflexivity.
  assert (H2 : 1 <= 1) by (unfold Qle; simpl; lia).
  assert (H3 : 0.01 <= 1) by (unfold Qle; simpl; lia).
  assert (H4 : Forall
                 (fun o =>
                    0 <= PerformanceMetric.confidence (snd o) <= 1
                    /\ PerformanceMetric.accuracy (snd o) <= 1)
                 [("a", PerformanceMetric.make "a" VNone VNone 1 0.5)]).
  { repeat constructor; unfold Qle; simpl; lia. }
  split; [exact H1 |]. split; [exact H2 |]. split; [exact H3 |].
  exact (proj1 (@weights_stay_bounded 0.2 1 0.01 false _
                  [("a", PerformanceMetric.make "a" VNone VNone 1 0.5)] 1 H1 H2 H3 H4 "a")).
Defined.

(** ** The learner: normalizing, batches, resetting *)

Module NormalizeFacts.
Import BayesianWeightLearner.

Lemma dict_get_map (V W : Type) (f : V -> W) (d : dict string V) (k : string) :
  dict_get String.eqb (map (fun item => (fst item, f (snd item))) d) k
  = option_map f (dict_get String.eqb d k).
Proof.
  induction d as [| [k0 v0] d IH]; simpl; [reflexivity |].
  destruct (String.eqb k0 k); [reflexivity | exact IH].
Qed.

Lemma update_all_app (l : t) (a b : list (string * PerformanceMetric.t)) :
  update_all l (a ++ b) = update_all (update_all l a) b.
Proof. unfold update_all. apply fold_left_app. Qed.

(** The inner loop of [batch_update] is a run of updates of one worker. *)
Lemma update_each_fst (wid : string) (ms : list PerformanceMetric.t) :
  forall st,
    fst (LearnerOps.update_each wid st ms)
    = update_all (fst st) (map (fun m => (wid, m)) ms).
Proof.
  unfold LearnerOps.update_each.
  induction ms as [| m ms IH]; intro st; [reflexivity |].
  cbn [fold_left map]. rewrite IH. reflexivity.
Qed.

Lemma batch_fst (items : list (string * list PerformanceMetric.t)) :
  forall st,
    fst (fold_left (fun st item => LearnerOps.update_each (fst item) st (snd item)) items st)
    = update_all (fst st) (in_sequence items).
Proof.
  induction items as [| [wid ms] items IH]; intro st; [reflexivity |].
  cbn [fold_left]. rewrite IH. cbn [fst snd]. rewrite update_each_fst.
  unfold in_sequence. cbn [flat_map fst snd]. rewrite update_all_app. reflexivity.
Qed.

Lemma update_each_current (wid : string) (ms : list PerformanceMetric.t) :
  forall st, up_to_date st -> up_to_date (LearnerOps.update_each wid st ms).
Proof.
  unfold LearnerOps.update_each.
  induction ms as [| m ms IH]; intros st Hst; [exact Hst |].
  cbn [fold_left]. apply IH. unfold up_to_date in *. intros k w.
  pose proof (LearnerFacts.update_weight_stores (fst st) wid m) as Hstore.
  pose proof (fun H => @HistoryFacts.update_weight_other (fst st) wid m k H) as Hother.
  destruct (update_weight (fst st) wid m) as [l' w']. cbn [fst snd] in *.
  destruct (string_dec k wid) as [-> | Hne].
  - rewrite dict_get_set_same. intro H. injection H as <-. exact Hstore.
  - rewrite dict_get_set_other by exact Hne. intro H.
    rewrite Hother by exact Hne. apply Hst. exact H.
Qed.

Lemma batch_current (items : list (string * list PerformanceMetric.t)) :
  forall st,
    up_to_date st ->
    up_to_date (fold_left (fun st item => LearnerOps.update_each (fst item) st (snd item))
               items st).
Proof.
  induction items as [| [wid ms] items IH]; intros st Hst; [exact Hst |].
  cbn [fold_left]. apply IH. apply update_each_current. exact Hst.
Qed.

Lemma update_each_mem (wid : string) (ms : list PerformanceMetric.t) (k : string) :
  forall st,
    dict_mem String.eqb (snd (LearnerOps.update_each wid st ms)) k
    = (dict_mem String.eqb (snd st) k
       || (String.eqb wid k && negb (Nat.eqb (List.length ms) 0)))%bool.
Proof.
  unfold LearnerOps.update_each.
  induction ms as [| m ms IH]; intro st.
  - cbn. rewrite andb_false_r, orb_false_r. reflexivity.
  - cbn [fold_left]. rewrite IH.
    destruct (update_weight (fst st) wid m) as [l' w'].
    cbn [fst snd List.length Nat.eqb negb].
    rewrite HistoryFacts.mem_set, andb_true_r.
    destruct (String.eqb wid k), (dict_mem String.eqb (snd st) k); reflexivity.
Qed.

Lemma batch_mem (items : list (string * list PerformanceMetric.t)) (k : string) :
  forall st,
    dict_mem String.eqb
      (snd (fold_left (fun st item => LearnerOps.update_each (fst item) st (snd item))
              items st)) k
    = (dict_mem String.eqb (snd st) k
       || existsb (fun item => String.eqb (fst item) k
                               && negb (Nat.eqb (List.length (snd item)) 0)) items)%bool.
Proof.
  induction items as [| [wid ms] items IH]; intro st.
  - cbn. rewrite orb_false_r. reflexivity.
  - cbn [fold_left existsb fst snd]. rewrite IH, update_each_mem, orb_assoc. reflexivity.
Qed.

End NormalizeFacts.

(** [batch_update] is nothing but the updates of its metrics, worker by worker
    and in order: the learner ends in the state the same run of
    [update_weight] calls gives, and the dict it returns holds, for exactly
    the workers with at least one metric, the weight the learner has for them
    in the end. *)
Theorem batch_update_in_sequence (l : BayesianWeightLearner.t)
  (metrics : dict string (list PerformanceMetric.t)) :
  let out := LearnerOps.batch_update l metrics in
  fst out = BayesianWeightLearner.update_all l (in_sequence metrics)
  /\ (forall wid,
        dict_mem String.eqb (snd out) wid = true
        <-> exists ms, In (wid, ms) metrics /\ ms <> [])
  /\ (forall wid w,
        dict_get String.eqb (snd out) wid = Some w ->
        BayesianWeightLearner.get_weight (fst out) wid = w).
Proof.
  intro out. subst out. unfold LearnerOps.batch_update, dict_items.
  split; [apply (NormalizeFacts.batch_fst metrics (l, [])) |]. split.
  - intro wid. rewrite (NormalizeFacts.batch_mem metrics wid (l, [])). cbn [snd orb].
    change (dict_mem String.eqb [] wid) with false. cbn [orb].
    rewrite existsb_exists. split.
    + intros ([k ms] & Hin & H). cbn [fst snd] in H. apply andb_true_iff in H.
      destruct H as [Hk Hms]. apply String.eqb_eq in Hk. subst k.
      exists ms. split; [exact Hin |]. intros ->. discriminate.
    + intros (ms & Hin & Hne). exists (wid, ms). split; [exact Hin |]. cbn [fst snd].
      rewrite String.eqb_refl. destruct ms; [congruence | reflexivity].
  - apply (NormalizeFacts.batch_current metrics (st := (l, []))).
    intros wid w H. discriminate.
Qed.

(** [get_normalized_weights] never fails.  For no worker ids it returns the
    empty dict; otherwise every requested worker gets its weight (the prior,
    if none is stored) divided by the total when the total is positive, and
    1/n for n requested ids when it is not.  The result sums to 1 whenever the
    total is positive or the requested ids are distinct. *)
Theorem get_normalized_weights_sum (l : BayesianWeightLearner.t)
  (worker_ids : option (list string)) :
  let ids :=
    match worker_ids with
    | None => dict_keys (BayesianWeightLearner.weights l)
    | Some ids => ids
    end in
  let total :=
    Qsum (dict_values
            (dict_comp String.eqb (fun wid => wid) (BayesianWeightLearner.get_weight l) ids)) in
  exists nw,
    LearnerOps.get_normalized_weights l worker_ids = Returns nw
    /\ (ids = [] -> nw = [])
    /\ (forall wid,
          In wid ids ->
          exists w,
            dict_get String.eqb nw wid = Some w
            /\ (0 < total -> w == BayesianWeightLearner.get_weight l wid / total)
            /\ (total <= 0 -> w == 1 / Qlen ids))
    /\ (ids <> [] -> 0 < total \/ NoDup ids -> Qsum (dict_values nw) == 1).
Proof.
  intros ids total. subst total. unfold LearnerOps.get_normalized_weights. fold ids.
  clearbody ids. clear worker_ids.
  destruct ids as [| i0 ids0].
  - exists []. cbv beta iota zeta. split; [reflexivity |]. split; [reflexivity |].
    split; [intros wid [] | congruence].
  - cbv beta iota zeta. set (ids := i0 :: ids0).
    assert (Hne : ids <> []) by discriminate.
    set (W := dict_comp String.eqb (fun wid => wid) (BayesianWeightLearner.get_weight l) ids).
    set (total := Qsum (dict_values W)).
    assert (HW : forall wid, In wid ids ->
                             dict_get String.eqb W wid
                             = Some (BayesianWeightLearner.get_weight l wid)).
    { intros wid Hin. unfold W, dict_comp.
      apply (WeightFacts.fold_set_get (fun k : string => k)
               (BayesianWeightLearner.get_weight l)).
      right. rewrite map_id. exact Hin. }
    assert (HWnd : NoDup (dict_keys W)).
    { unfold W, dict_comp. apply WeightFacts.fold_set_keys_NoDup. constructor. }
    assert (HWne : W <> []).
    { unfold W, dict_comp. apply WeightFacts.fold_set_not_nil. right. exact Hne. }
    destruct (Qlt_bool 0 total) eqn:E.
    + apply Qlt_bool_iff in E.
      pose proof (WeightFacts.normalized_weights_eq HWnd HWne) as Hn.
      unfold WeightedAverageAggregation.normalized_weights in Hn. fold total in Hn.
      assert (E' : Qlt_bool 0 total = true) by (apply Qlt_bool_iff; exact E).
      rewrite E' in Hn. rewrite Hn.
      exists (normalized_of W). split; [reflexivity |].
      split; [intro H0; exfalso; exact (Hne H0) |]. split.
      * intros wid Hin. unfold normalized_of. fold total. rewrite E'.
        rewrite (NormalizeFacts.dict_get_map (fun v => v / total)), (HW wid Hin).
        eexists. split; [reflexivity |]. split; [reflexivity | intro; exfalso; lra].
      * intros _ _. apply WeightFacts.normalized_of_sum. exact HWne.
    + apply Qlt_bool_false_iff in E. pose proof (Qlen_pos Hne) as Hlen.
      rewrite for_each_Returns
        with (f := fun d wid => dict_set String.eqb d wid (1 / Qlen ids)).
      2:{ intros s x _. rewrite truediv_Returns; [reflexivity | lra]. }
      eexists. split; [reflexivity |]. split; [intro H0; exfalso; exact (Hne H0) |]. split.
      * intros wid Hin. exists (1 / Qlen ids). split.
        -- apply (WeightFacts.fold_set_get (fun k : string => k) (fun _ => 1 / Qlen ids)).
           right. rewrite map_id. exact Hin.
        -- split; [intro; exfalso; lra | reflexivity].
      * intros _ [Hpos | Hnd]; [exfalso; lra |].
        rewrite (WeightFacts.fold_set_fresh (fun k : string => k) (fun _ => 1 / Qlen ids))
          by (simpl; rewrite map_id; exact Hnd).
        cbn [app]. unfold dict_values. rewrite map_map. cbn [snd].
        rewrite (Qsum_map_const (1 / Qlen ids) ids). field. lra.
Qed.

Module ResetFacts.
Import BayesianWeightLearner.

Lemma update_weight_NoDup (l : t) (wid : string) (m : PerformanceMetric.t) :
  NoDup (dict_keys (weights l)) /\ NoDup (dict_keys (history l))
  /\ NoDup (dict_keys (update_count l)) ->
  NoDup (dict_keys (weights (fst (update_weight l wid m))))
  /\ NoDup (dict_keys (history (fst (update_weight l wid m))))
  /\ NoDup (dict_keys (update_count (fst (update_weight l wid m)))).
Proof.
  intros (H1 & H2 & H3). unfold update_weight. cbn [fst weights history update_count].
  split; [apply dict_keys_set_NoDup; exact H1 |].
  split; [| apply dict_keys_set_NoDup; exact H3].
  apply dict_keys_set_NoDup.
  destruct (dict_mem String.eqb (history l) wid); [exact H2 |].
  apply dict_keys_set_NoDup. exact H2.
Qed.

Lemma update_all_NoDup (obs : list (string * PerformanceMetric.t)) :
  forall l,
    NoDup (dict_keys (weights l)) /\ NoDup (dict_keys (history l))
    /\ NoDup (dict_keys (update_count l)) ->
    NoDup (dict_keys (weights (update_all l obs)))
    /\ NoDup (dict_keys (history (update_all l obs)))
    /\ NoDup (dict_keys (update_count (update_all l obs))).
Proof.
  induction obs as [| [wid m] obs IH]; intros l H; [exact H |].
  rewrite HistoryFacts.update_all_cons. apply IH. apply update_weight_NoDup. exact H.
Qed.

Lemma update_weight_mems (l : t) (wid : string) (m : PerformanceMetric.t) (k : string) :
  dict_mem String.eqb (history (fst (update_weight l wid m))) k
  = (String.eqb wid k || dict_mem String.eqb (history l) k)%bool
  /\ dict_mem String.eqb (update_count (fst (update_weight l wid m))) k
     = (String.eqb wid k || dict_mem String.eqb (update_count l) k)%bool.
Proof.
  unfold update_weight. cbn [fst history update_count]. rewrite !HistoryFacts.mem_set.
  split; [| reflexivity].
  destruct (dict_mem String.eqb (history l) wid); [reflexivity |].
  rewrite HistoryFacts.mem_set. destruct (String.eqb wid k); reflexivity.
Qed.

(** A worker that a run of updates did not observe stays unknown to a learner
    that did not know it. *)
Lemma update_all_unknown (obs : list (string * PerformanceMetric.t)) (k : string) :
  forall l,
    observations_of k obs = [] ->
    dict_mem String.eqb (weights l) k = false ->
    dict_mem String.eqb (history l) k = false ->
    dict_mem String.eqb (update_count l) k = false ->
    dict_mem String.eqb (weights (update_all l obs)) k = false
    /\ dict_mem String.eqb (history (update_all l obs)) k = false
    /\ dict_mem String.eqb (update_count (update_all l obs)) k = false.
Proof.
  induction obs as [| [wid m] obs IH]; intros l Hnone H1 H2 H3; [auto |].
  rewrite HistoryFacts.observations_of_cons in Hnone.
  destruct (String.eqb wid k) eqn:E; [discriminate |]. cbn [app] in Hnone.
  rewrite HistoryFacts.update_all_cons.
  destruct (update_weight_mems l wid m k) as [M2 M3].
  apply IH; [exact Hnone | | |].
  - rewrite HistoryFacts.update_weight_mem, E, H1. reflexivity.
  - rewrite M2, E, H2. reflexivity.
  - rewrite M3, E, H3. reflexivity.
Qed.

Lemma del_if_present (V : Type) (d : dict string V) (k : string) :
  NoDup (dict_keys d) ->
  let d' := if dict_mem String.eqb d k then dict_del String.eqb d k else d in
  dict_get String.eqb d' k = None
  /\ (forall k', k' <> k -> dict_get String.eqb d' k' = dict_get String.eqb d k')
  /\ (dict_mem String.eqb d k = false -> d' = d).
Proof.
  intros Hnd d'. subst d'. destruct (dict_mem String.eqb d k) eqn:E.
  - split; [apply dict_get_del_same; exact Hnd |].
    split; [intros k' Hne; apply dict_get_del_other; exact Hne | discriminate].
  - split; [| split; [reflexivity | reflexivity]].
    unfold dict_mem in E. destruct (dict_get String.eqb d k); [discriminate | reflexivity].
Qed.

End ResetFacts.

(** [reset_worker] makes the learner forget one worker and nothing else: after
    any run of updates on a learner that started empty, the reset worker has
    the prior weight again, no history and no update count, every other
    worker keeps its weight, history and count, a second reset changes
    nothing, a worker that was never observed leaves the learner as it is,
    and the next update of the reset worker starts from the prior. *)
Theorem reset_worker_forgets (alpha prior_weight min_weight : Q) (confidence_scaling : bool)
  (l : BayesianWeightLearner.t) (obs : list (string * PerformanceMetric.t))
  (wid : string) :
  BayesianWeightLearner.__init__ alpha prior_weight min_weight confidence_scaling
  = Returns l ->
  let seen := BayesianWeightLearner.update_all l obs in
  let l' := LearnerOps.reset_worker seen wid in
  BayesianWeightLearner.get_weight l' wid = prior_weight
  /\ dict_get String.eqb (BayesianWeightLearner.history l') wid = None
  /\ dict_get String.eqb (BayesianWeightLearner.update_count l') wid = None
  /\ (forall other,
        other <> wid ->
        BayesianWeightLearner.get_weight l' other
        = BayesianWeightLearner.get_weight seen other
        /\ dict_get String.eqb (BayesianWeightLearner.history l') other
           = dict_get String.eqb (BayesianWeightLearner.history seen) other
        /\ dict_get String.eqb (BayesianWeightLearner.update_count l') other
           = dict_get String.eqb (BayesianWeightLearner.update_count seen) other)
  /\ LearnerOps.reset_worker l' wid = l'
  /\ (observations_of wid obs = [] -> l' = seen)
  /\ (forall m,
        snd (BayesianWeightLearner.update_weight l' wid m)
        = BayesianWeightLearner.updated_weight seen prior_weight m).
Proof.
  intros Hinit seen l'. apply HistoryFacts.init_empty in Hinit.
  destruct Hinit as (El & _ & _).
  assert (Hnd0 : NoDup (dict_keys (BayesianWeightLearner.weights l))
                 /\ NoDup (dict_keys (BayesianWeightLearner.history l))
                 /\ NoDup (dict_keys (BayesianWeightLearner.update_count l))).
  { subst l. cbn. repeat split; constructor. }
  destruct (ResetFacts.update_all_NoDup obs l Hnd0) as (N1 & N2 & N3). fold seen in N1, N2, N3.
  destruct (HistoryFacts.update_all_adds obs wid l) as (_ & _ & _ & _ & _ & Hprior & _).
  fold seen in Hprior.
  assert (Hp : BayesianWeightLearner.prior_weight seen = prior_weight).
  { rewrite Hprior. subst l. reflexivity. }
  destruct (@ResetFacts.del_if_present _ (BayesianWeightLearner.weights seen) wid N1)
    as (W1 & W2 & W3).
  destruct (@ResetFacts.del_if_present _ (BayesianWeightLearner.history seen) wid N2)
    as (H1 & H2 & H3).
  destruct (@ResetFacts.del_if_present _ (BayesianWeightLearner.update_count seen) wid N3)
    as (C1 & C2 & C3).
  assert (Hw : BayesianWeightLearner.get_weight l' wid = prior_weight).
  { unfold BayesianWeightLearner.get_weight, dict_get_default, l', LearnerOps.reset_worker.
    cbn [BayesianWeightLearner.weights BayesianWeightLearner.prior_weight].
    rewrite W1. exact Hp. }
  split; [exact Hw |].
  split; [exact H1 |]. split; [exact C1 |]. split.
  { intros other Hne. split; [| split; [apply H2; exact Hne | apply C2; exact Hne]].
    unfold BayesianWeightLearner.get_weight, dict_get_default, l', LearnerOps.reset_worker.
    cbn [BayesianWeightLearner.weights BayesianWeightLearner.prior_weight].
    rewrite (W2 other Hne). reflexivity. }
  split.
  { unfold LearnerOps.reset_worker at 1.
    assert (M1 : dict_mem String.eqb (BayesianWeightLearner.weights l') wid = false).
    { unfold dict_mem, l', LearnerOps.reset_worker. cbn [BayesianWeightLearner.weights].
      rewrite W1. reflexivity. }
    assert (M2 : dict_mem String.eqb (BayesianWeightLearner.history l') wid = false).
    { unfold dict_mem, l', LearnerOps.reset_worker. cbn [BayesianWeightLearner.history].
      rewrite H1. reflexivity. }
    assert (M3 : dict_mem String.eqb (BayesianWeightLearner.update_count l') wid = false).
    { unfold dict_mem, l', LearnerOps.reset_worker.
      cbn [BayesianWeightLearner.update_count]. rewrite C1. reflexivity. }
    rewrite M1, M2, M3. reflexivity. }
  split.
  { intro Hnone.
    destruct (@ResetFacts.update_all_unknown obs wid l Hnone) as (M1 & M2 & M3);
      try (subst l; reflexivity).
    fold seen in M1, M2, M3.
    unfold l', LearnerOps.reset_worker. rewrite (W3 M1), (H3 M2), (C3 M3).
    destruct seen. reflexivity. }
  intro m. rewrite LearnerFacts.update_weight_snd, Hw. reflexivity.
Qed.

Lemma reset_worker_forgets_witness :
  BayesianWeightLearner.__init__ 0.2 1 0.01 false
  = Returns (BayesianWeightLearner.make 0.2 1 0.01 false [] [] [])
  /\ BayesianWeightLearner.get_weight
       (LearnerOps.reset_worker
          (BayesianWeightLearner.update_all
             (BayesianWeightLearner.make 0.2 1 0.01 false [] [] [])
             [("a", PerformanceMetric.make "a" VNone VNone 1 0.5)]) "a") "a"
     = 1.
Proof.
  assert (H : BayesianWeightLearner.__init__ 0.2 1 0.01 false
              = Returns (BayesianWeightLearner.make 0.2 1 0.01 false [] [] []))
    by reflexivity.
  split; [exact H |].
  exact (proj1 (@reset_worker_forgets 0.2 1 0.01 false _
                  [("a", PerformanceMetric.make "a" VNone VNone 1 0.5)] "a" H)).
Defined.

(** ** The adaptive learner *)

Module AdaptiveFacts.
Import AdaptiveBayesianLearner.

(** [_calculate_stability] always returns, and gives 1.0 for a worker without
    history or with fewer observations than the window. *)
Lemma calculate_stability_Returns (np_std : list Q -> Q) (self : t) (wid : string) :
  exists s,
    _calculate_stability np_std self wid = Returns s
    /\ (dict_mem String.eqb (BayesianWeightLearner.history (base self)) wid = false
        \/ (Z.of_nat
              (List.length
                 (dict_get_default String.eqb (BayesianWeightLearner.history (base self))
                    wid []))
            < stability_window self)%Z ->
        s = 1).
Proof.
  unfold _calculate_stability, dict_mem, dict_get_default. cbv zeta.
  destruct (dict_get String.eqb (BayesianWeightLearner.history (base self)) wid)
    as [observed |]; [| exists 1; auto].
  destruct (Z.of_nat (List.length observed) <? stability_window self)%Z eqn:E;
    [exists 1; auto |].
  apply Z.ltb_ge in E.
  destruct (map PerformanceMetric.accuracy (slice_from (- stability_window self) observed))
    as [| q0 rest] eqn:Eacc.
  - exists 1. auto.
  - assert (Hne : q0 :: rest <> []) by discriminate.
    pose proof (Qlen_pos Hne) as Hlen.
    unfold np_mean. rewrite truediv_Returns by lra. cbn [bind].
    destruct (Qlt_bool 0 (Qsum (q0 :: rest) / Qlen (q0 :: rest))) eqn:Em.
    + apply Qlt_bool_iff in Em. rewrite truediv_Returns by lra.
      eexists. split; [reflexivity |]. intros [H | H]; [discriminate | lia].
    + exists 1. auto.
Qed.

Lemma clamp_between (lo hi x : Q) :
  lo <= py_max lo (py_min hi x) /\ (lo <= hi -> py_max lo (py_min hi x) <= hi).
Proof.
  unfold py_max, py_min. destruct (Qlt_bool x hi) eqn:E1.
  - apply Qlt_bool_iff in E1. destruct (Qlt_bool lo x) eqn:E2.
    + apply Qlt_bool_iff in E2. split; intros; lra.
    + split; intros; lra.
  - apply Qlt_bool_false_iff in E1. destruct (Qlt_bool lo hi) eqn:E2.
    + apply Qlt_bool_iff in E2. split; intros; lra.
    + split; intros; lra.
Qed.

Lemma clamp_unstable (lo hi : Q) :
  lo <= hi -> py_max lo (py_min hi (lo + (hi - lo) * 1)) == hi.
Proof.
  intro H. unfold py_max, py_min.
  destruct (Qlt_bool (lo + (hi - lo) * 1) hi) eqn:E1.
  - apply Qlt_bool_iff in E1. exfalso. lra.
  - destruct (Qlt_bool lo hi) eqn:E2; [reflexivity |].
    apply Qlt_bool_false_iff in E2. lra.
Qed.

End AdaptiveFacts.

(** In exact arithmetic, the adaptive learner never fails on an update and
    keeps the learning rate it adapts within bounds: the rate it records for
    the worker is at least [min_alpha], at most [max_alpha] when the bounds
    are in order, and equal to [max_alpha] for a worker without history or
    with fewer observations than the stability window (so the first update of
    a worker never uses [initial_alpha]).  The update itself is the Bayesian
    one at that rate, the learner's own rate is restored afterwards, and the
    rates and weights of other workers are untouched. *)
Theorem adaptive_update_clamps (np_std : list Q -> Q) (self : AdaptiveBayesianLearner.t)
  (wid : string) (m : PerformanceMetric.t) :
  exists self' w,
    AdaptiveBayesianLearner.update_weight np_std self wid m = Returns (self', w)
    /\ AdaptiveBayesianLearner.min_alpha self <= AdaptiveBayesianLearner.get_alpha self' wid
    /\ (AdaptiveBayesianLearner.min_alpha self <= AdaptiveBayesianLearner.max_alpha self ->
        AdaptiveBayesianLearner.get_alpha self' wid <= AdaptiveBayesianLearner.max_alpha self)
    /\ (dict_mem String.eqb
          (BayesianWeightLearner.history (AdaptiveBayesianLearner.base self)) wid = false
        \/ (Z.of_nat
              (List.length
                 (dict_get_default String.eqb
                    (BayesianWeightLearner.history (AdaptiveBayesianLearner.base self))
                    wid []))
            < AdaptiveBayesianLearner.stability_window self)%Z ->
        AdaptiveBayesianLearner.min_alpha self <= AdaptiveBayesianLearner.max_alpha self ->
        AdaptiveBayesianLearner.get_alpha self' wid == AdaptiveBayesianLearner.max_alpha self)
    /\ w = BayesianWeightLearner.updated_weight
             (AdaptiveBayesianLearner.set_alpha (AdaptiveBayesianLearner.base self)
                (AdaptiveBayesianLearner.get_alpha self' wid))
             (BayesianWeightLearner.get_weight (AdaptiveBayesianLearner.base self) wid) m
    /\ BayesianWeightLearner.get_weight (AdaptiveBayesianLearner.base self') wid = w
    /\ BayesianWeightLearner.alpha (AdaptiveBayesianLearner.base self')
       = BayesianWeightLearner.alpha (AdaptiveBayesianLearner.base self)
    /\ (forall other,
          other <> wid ->
          AdaptiveBayesianLearner.get_alpha self' other
          = AdaptiveBayesianLearner.get_alpha self other
          /\ BayesianWeightLearner.get_weight (AdaptiveBayesianLearner.base self') other
             = BayesianWeightLearner.get_weight (AdaptiveBayesianLearner.base self) other).
Proof.
  destruct (AdaptiveFacts.calculate_stability_Returns np_std self wid) as (s & Hs & Hone).
  unfold AdaptiveBayesianLearner.update_weight, AdaptiveBayesianLearner._adapt_alpha.
  rewrite Hs. cbn [bind]. unfold dict_lookup. rewrite dict_get_set_same. cbn [bind].
  set (a := py_max (AdaptiveBayesianLearner.min_alpha self)
              (py_min (AdaptiveBayesianLearner.max_alpha self)
                 (AdaptiveBayesianLearner.min_alpha self
                  + (AdaptiveBayesianLearner.max_alpha self
                     - AdaptiveBayesianLearner.min_alpha self) * s))).
  pose proof (LearnerFacts.update_weight_stores
                (AdaptiveBayesianLearner.set_alpha (AdaptiveBayesianLearner.base self) a)
                wid m) as Hstore.
  pose proof (LearnerFacts.update_weight_snd
                (AdaptiveBayesianLearner.set_alpha (AdaptiveBayesianLearner.base self) a)
                wid m) as Hsnd.
  pose proof (fun other H =>
                @HistoryFacts.update_weight_other
                  (AdaptiveBayesianLearner.set_alpha (AdaptiveBayesianLearner.base self) a)
                  wid m other H) as Hother.
  pose proof (LearnerFacts.update_weight_config
                (AdaptiveBayesianLearner.set_alpha (AdaptiveBayesianLearner.base self) a)
                wid m) as _.
  destruct (BayesianWeightLearner.update_weight
              (AdaptiveBayesianLearner.set_alpha (AdaptiveBayesianLearner.base self) a)
              wid m) as [b w].
  cbn [fst snd] in Hstore, Hsnd, Hother. cbn [bind].
  eexists. exists w. split; [reflexivity |].
  unfold AdaptiveBayesianLearner.get_alpha.
  cbn [AdaptiveBayesianLearner.worker_alphas AdaptiveBayesianLearner.initial_alpha
       AdaptiveBayesianLearner.base].
  rewrite HistoryFacts.get_default_set_same.
  destruct (AdaptiveFacts.clamp_between (AdaptiveBayesianLearner.min_alpha self)
              (AdaptiveBayesianLearner.max_alpha self)
              (AdaptiveBayesianLearner.min_alpha self
               + (AdaptiveBayesianLearner.max_alpha self
                  - AdaptiveBayesianLearner.min_alpha self) * s)) as [Hlo Hhi].
  fold a in Hlo, Hhi.
  split; [exact Hlo |]. split; [exact Hhi |]. split.
  { intros Hnew Horder. unfold a. rewrite (Hone Hnew).
    apply AdaptiveFacts.clamp_unstable. exact Horder. }
  split; [exact Hsnd |]. split; [exact Hstore |]. split; [reflexivity |].
  intros other Hne. split.
  - apply HistoryFacts.get_default_set_other. exact Hne.
  - exact (Hother other Hne).
Qed.

Section AdaptedRateInBinary64.
Import PrimFloat.
#[local] Set Warnings "-inexact-float".

(** On the floats of the code the rate of a worker without history is
    [max_alpha] for the default bounds 0.01 and 0.5, but it can fall short of
    [max_alpha] by rounding: for the bounds 0.2 and 0.9 it is
    0.8999999999999999. *)
Lemma adapted_alpha_in_binary64 :
  eqb (Binary64.adapted_alpha 0.01 0.5 1) 0.5 = true
  /\ eqb (Binary64.adapted_alpha 0.2 0.9 1) 0.8999999999999999 = true
  /\ ltb (Binary64.adapted_alpha 0.2 0.9 1) 0.9 = true.
Proof. repeat split; vm_compute; reflexivity. Qed.

End AdaptedRateInBinary64.

(** ** The example workers *)

Module ExampleFacts.

(** A run of [execute] in which nothing fails. *)
Lemma execute_success (w : Worker.t) (data : pyvalue) (trace_id : option string)
  (fresh_uuid : string) (t_start t_ok t_err : Q) (v : pyvalue) (c : Q) :
  Worker.process w data = Returns v ->
  Worker.get_confidence w data v = Returns c ->
  0 <= c <= 1 -> t_start <= t_ok ->
  exists r,
    snd (Worker.execute w data trace_id fresh_uuid t_start t_ok t_err) = Returns r
    /\ WorkerResult.status r = SUCCESS
    /\ WorkerResult.value r = v
    /\ WorkerResult.confidence r = c
    /\ WorkerResult.worker_id r = Worker.worker_id w.
Proof.
  intros Hp Hc Hr Ht. unfold Worker.execute. simpl. rewrite Hp, Hc.
  rewrite WorkerResult_new_ok;
    [| exact Hr | apply Qmult_le_0_compat; [lra | unfold Qle; simpl; lia]].
  eexists. split; [reflexivity |]. simpl. auto.
Qed.

Lemma floor_cap (y : Q) : 0.3 <= py_max 0.3 (py_min 1 y) <= 1.
Proof.
  destruct (AdaptiveFacts.clamp_between 0.3 1 y) as [H1 H2].
  split; [exact H1 |]. apply H2. unfold Qle; simpl; lia.
Qed.

Lemma ten_not_zero : ~ 10 == 0.
Proof. unfold Qeq; simpl; lia. Qed.

End ExampleFacts.

(** The classification worker of the example, run on a number with numeric
    thresholds (30 and 70 unless configured) and a clock that does not run
    backwards: [execute] returns a [SUCCESS]
    result whose value is ["low"] below the low threshold, ["medium"] below
    the high one and ["high"] otherwise, with a confidence between 0.3 and
    1.0; so the result is always valid for aggregation. *)
Theorem classification_worker_result (worker_id : string) (config : WorkerConfig.t)
  (d lo hi : Q) (trace_id : option string) (fresh_uuid : string) (t_start t_ok t_err : Q) :
  ClassificationWorker.low_threshold config = VNum lo ->
  ClassificationWorker.high_threshold config = VNum hi ->
  t_start <= t_ok ->
  exists r,
    snd (Worker.execute (instantiate ClassificationWorker.cls worker_id config) (VNum d)
           trace_id fresh_uuid t_start t_ok t_err)
    = Returns r
    /\ WorkerResult.status r = SUCCESS
    /\ WorkerResult.value r
       = VStr (if Qlt_bool d lo then "low" else if Qlt_bool d hi then "medium" else "high")
    /\ 0.3 <= WorkerResult.confidence r <= 1
    /\ WorkerResult.is_valid r = true.
Proof.
  intros Hlo Hhi Ht.
  set (label := if Qlt_bool d lo then "low" else if Qlt_bool d hi then "medium" else "high").
  assert (Hp : ClassificationWorker.process config (VNum d) = Returns (VStr label)).
  { unfold ClassificationWorker.process, label. rewrite Hlo, Hhi. cbn [value_lt bind].
    destruct (Qlt_bool d lo); [reflexivity |]. destruct (Qlt_bool d hi); reflexivity. }
  assert (Hc : exists c,
             ClassificationWorker.get_confidence config (VNum d) (VStr label) = Returns c
             /\ 0.3 <= c <= 1).
  { unfold ClassificationWorker.get_confidence, label. rewrite Hlo, Hhi.
    destruct (Qlt_bool d lo); [| destruct (Qlt_bool d hi)];
      cbn [value_eqb String.eqb Ascii.eqb Bool.eqb value_distance bind];
      rewrite (truediv_Returns _ ExampleFacts.ten_not_zero); cbn [bind];
      eexists; (split; [reflexivity | apply ExampleFacts.floor_cap]). }
  destruct Hc as (c & Hc & Hrange).
  destruct (@ExampleFacts.execute_success
              (instantiate ClassificationWorker.cls worker_id config) (VNum d) trace_id
              fresh_uuid t_start t_ok t_err (VStr label) c Hp Hc)
    as (r & Hr & Hst & Hv & Hconf & _); [lra | exact Ht |].
  exists r. split; [exact Hr |]. split; [exact Hst |]. split; [exact Hv |].
  rewrite Hconf. split; [exact Hrange |].
  unfold WorkerResult.is_valid. rewrite Hst, Hconf. cbn [status_eqb andb].
  apply Qlt_bool_iff. lra.
Qed.

Lemma classification_worker_result_witness :
  ClassificationWorker.low_threshold (WorkerConfig.default "c1" "ClassificationWorker")
  = VNum 30
  /\ ClassificationWorker.high_threshold (WorkerConfig.default "c1" "ClassificationWorker")
     = VNum 70
  /\ 0 <= 1
  /\ exists r,
      snd (Worker.execute
             (instantiate ClassificationWorker.cls "c1"
                (WorkerConfig.default "c1" "ClassificationWorker"))
             (VNum 50) None "u" 0 1 1)
      = Returns r
      /\ WorkerResult.value r = VStr "medium".
Proof.
  assert (H1 : ClassificationWorker.low_threshold
                 (WorkerConfig.default "c1" "ClassificationWorker") = VNum 30)
    by reflexivity.
  assert (H2 : ClassificationWorker.high_threshold
                 (WorkerConfig.default "c1" "ClassificationWorker") = VNum 70)
    by reflexivity.
  assert (H3 : 0 <= 1) by (unfold Qle; simpl; lia).
  split; [exact H1 |]. split; [exact H2 |]. split; [exact H3 |].
  destruct (@classification_worker_result "c1"
              (WorkerConfig.default "c1" "ClassificationWorker") 50 30 70 None "u" 0 1 1
              H1 H2 H3) as (r & Hr & _ & Hv & _).
  exists r. split; [exact Hr | exact Hv].
Defined.

(** The numerical worker of the example, run on a number with a numeric bias
    and noise level and a clock that does not run backwards: [execute]
    returns a [SUCCESS] result whose value is the
    input plus the bias plus the noise drawn, with the confidence
    1 - noise level clamped to [0, 1]; the result is valid for aggregation
    exactly when the noise level is below 1, so a worker configured with a
    noise level of 1 or more succeeds and is ignored by every strategy. *)
Theorem simple_numerical_worker_result (worker_id : string) (config : WorkerConfig.t)
  (noise d b n : Q) (trace_id : option string) (fresh_uuid : string)
  (t_start t_ok t_err : Q) :
  SimpleNumericalWorker.bias config = VNum b ->
  SimpleNumericalWorker.noise_level config = VNum n ->
  t_start <= t_ok ->
  exists r,
    snd (Worker.execute (instantiate (SimpleNumericalWorker.cls noise) worker_id config)
           (VNum d) trace_id fresh_uuid t_start t_ok t_err)
    = Returns r
    /\ WorkerResult.status r = SUCCESS
    /\ WorkerResult.value r = VNum (d + b + noise)
    /\ WorkerResult.confidence r = py_max 0 (py_min 1 (1 - n))
    /\ 0 <= WorkerResult.confidence r <= 1
    /\ (n <= 0 -> WorkerResult.confidence r == 1)
    /\ (0 <= n <= 1 -> WorkerResult.confidence r == 1 - n)
    /\ (WorkerResult.is_valid r = true <-> n < 1).
Proof.
  intros Hb Hn Ht.
  assert (Hp : SimpleNumericalWorker.process noise config (VNum d)
               = Returns (VNum (d + b + noise))).
  { unfold SimpleNumericalWorker.process. rewrite Hn, Hb. reflexivity. }
  assert (Hc : SimpleNumericalWorker.get_confidence config (VNum d) (VNum (d + b + noise))
               = Returns (py_max 0 (py_min 1 (1 - n)))).
  { unfold SimpleNumericalWorker.get_confidence. rewrite Hn. reflexivity. }
  destruct (AdaptiveFacts.clamp_between 0 1 (1 - n)) as [H0 H1].
  assert (Hrange : 0 <= py_max 0 (py_min 1 (1 - n)) <= 1) by (split; [exact H0 | apply H1; lra]).
  destruct (@ExampleFacts.execute_success
              (instantiate (SimpleNumericalWorker.cls noise) worker_id config) (VNum d)
              trace_id fresh_uuid t_start t_ok t_err _ _ Hp Hc Hrange Ht)
    as (r & Hr & Hst & Hv & Hconf & _).
  exists r. split; [exact Hr |]. split; [exact Hst |]. split; [exact Hv |].
  split; [exact Hconf |]. rewrite Hconf. split; [exact Hrange |].
  unfold WorkerResult.is_valid. rewrite Hst, Hconf. cbn [status_eqb andb].
  rewrite Qlt_bool_iff. unfold py_max, py_min.
  destruct (Qlt_bool (1 - n) 1) eqn:E1.
  - apply Qlt_bool_iff in E1. destruct (Qlt_bool 0 (1 - n)) eqn:E2.
    + apply Qlt_bool_iff in E2.
      split; [intro; exfalso; lra |]. split; [intro; reflexivity |]. split; intro; lra.
    + apply Qlt_bool_false_iff in E2.
      split; [intro; exfalso; lra |]. split; [intro; lra |]. split; intro; lra.
  - apply Qlt_bool_false_iff in E1. destruct (Qlt_bool 0 1) eqn:E2.
    + split; [intro; reflexivity |]. split; [intro; lra |]. split; intro; lra.
    + apply Qlt_bool_false_iff in E2. exfalso. lra.
Qed.

Lemma simple_numerical_worker_result_witness :
  SimpleNumericalWorker.bias (WorkerConfig.default "n1" "SimpleNumericalWorker") = VNum 0
  /\ SimpleNumericalWorker.noise_level (WorkerConfig.default "n1" "SimpleNumericalWorker")
     = VNum 0.1
  /\ 0 <= 1
  /\ exists r,
      snd (Worker.execute
             (instantiate (SimpleNumericalWorker.cls 0.05) "n1"
                (WorkerConfig.default "n1" "SimpleNumericalWorker"))
             (VNum 100) None "u" 0 1 1)
      = Returns r
      /\ WorkerResult.value r = VNum (100 + 0 + 0.05)
      /\ WorkerResult.is_valid r = true.
Proof.
  assert (H1 : SimpleNumericalWorker.bias (WorkerConfig.default "n1" "SimpleNumericalWorker")
               = VNum 0) by reflexivity.
  assert (H2 : SimpleNumericalWorker.noise_level
                 (WorkerConfig.default "n1" "SimpleNumericalWorker") = VNum 0.1)
    by reflexivity.
  assert (H3 : 0 <= 1) by (unfold Qle; simpl; lia).
  split; [exact H1 |]. split; [exact H2 |]. split; [exact H3 |].
  destruct (@simple_numerical_worker_result "n1"
              (WorkerConfig.default "n1" "SimpleNumericalWorker") 0.05 100 0 0.1 None "u"
              0 1 1 H1 H2 H3) as (r & Hr & _ & Hv & _ & _ & _ & _ & Hvalid).
  exists r. split; [exact Hr |]. split; [exact Hv |].
  apply Hvalid. unfold Qlt; simpl; lia.
Defined.
